(** * Trip planner: price extraction, budget allocation, itinerary synthesis
      and document assembly of [trip_planner_mail.py], embedded and verified.

    Python values are modelled as the interpreter has them: a [str] is a
    sequence of Unicode code points, an [int] is an unbounded integer, a
    [float] is a binary64 value written as mantissa and exponent, and an
    exception is an explicit outcome.  The calls a method makes on the FPDF
    object are recorded, in order, as the document content. *)

From Stdlib Require Import ZArith NArith List Bool Lia String Ascii Sorted.
From Stdlib Require Import DecimalString.
Import ListNotations.

Set Implicit Arguments.

Local Open Scope Z_scope.

(* ================================================================== *)
(** ** Python strings *)

(** A [str] is a list of code points. *)
Definition pystr := list N.

(** An ASCII literal, one code point per character. *)
Definition str (x : string) : pystr :=
  List.map N_of_ascii (list_ascii_of_string x).

Definition is_ascii (c : N) : bool := (c <? 128)%N.

Fixpoint pystr_eqb (a b : pystr) : bool :=
  match a, b with
  | [], [] => true
  | x :: a', y :: b' => (x =? y)%N && pystr_eqb a' b'
  | _, _ => false
  end.

(** [a.startswith(p)] *)
Fixpoint startswith (p a : pystr) : bool :=
  match p, a with
  | [], _ => true
  | x :: p', y :: a' => (x =? y)%N && startswith p' a'
  | _ :: _, [] => false
  end.

(** [x in xs] for a list of strings. *)
Definition str_in (x : pystr) (xs : list pystr) : bool :=
  existsb (pystr_eqb x) xs.

(** [sep.join(xs)] *)
Fixpoint join (sep : pystr) (xs : list pystr) : pystr :=
  match xs with
  | [] => []
  | [x] => x
  | x :: rest => x ++ sep ++ join sep rest
  end.

(** [text.replace(old, new)] for a non-empty [old]: leftmost occurrences,
    not overlapping, scanned once from left to right. *)
Fixpoint replace_go (fuel : nat) (old new text : pystr) : pystr :=
  match fuel with
  | O => text
  | S fuel' =>
      match text with
      | [] => []
      | c :: rest =>
          if startswith old text
          then new ++ replace_go fuel' old new (skipn (List.length old) text)
          else c :: replace_go fuel' old new rest
      end
  end.

Definition replace (old new text : pystr) : pystr :=
  replace_go (List.length text) old new text.

(** [text.encode('ascii', 'ignore').decode('ascii')] *)
Definition encode_ascii_ignore (text : pystr) : pystr :=
  List.filter is_ascii text.

(* ------------------------------------------------------------------ *)
(** *** The Unicode tables of the interpreter

    What Python does with code points above 127 comes from its Unicode
    database, which is no part of the program.  On ASCII every operation
    below is written out; beyond ASCII it consults these tables. *)

Record unicode_tables := {
  (** decimal value of a non-ASCII code point of category Nd *)
  nd_value : N -> option Z;
  (** non-ASCII code points for which [str.isspace] holds *)
  ws_extra : N -> bool;
  (** [str.lower] on a text that has non-ASCII code points *)
  lower_text : pystr -> pystr;
  (** case-insensitive equivalences of [re.IGNORECASE] that involve a
      non-ASCII code point: pattern character, text character *)
  fold_extra : N -> N -> bool
}.

(** Tables with nothing beyond ASCII, for running the model on ASCII
    input, where the tables are never consulted. *)
Definition basic_latin : unicode_tables := {|
  nd_value := fun _ => None;
  ws_extra := fun _ => false;
  lower_text := fun t => t;
  fold_extra := fun _ _ => false
|}.

(* ================================================================== *)
(** ** Exceptions *)

Inductive exn :=
  ValueError | OverflowError | ZeroDivisionError | KeyError
| UnicodeEncodeError.

Inductive outcome (A : Type) :=
| Ok (a : A)
| Raise (e : exn).
Arguments Ok {A} a.
Arguments Raise {A} e.

Definition bind {A B} (x : outcome A) (f : A -> outcome B) : outcome B :=
  match x with
  | Ok a => f a
  | Raise e => Raise e
  end.

Notation "x <- c ;; k" := (bind c (fun x => k))
  (at level 61, c at next level, right associativity).

(** [try: body except ValueError: handler] *)
Definition except_ValueError {A} (body : outcome A) (handler : outcome A)
  : outcome A :=
  match body with
  | Raise ValueError => handler
  | other => other
  end.

(* ================================================================== *)
(** ** Floats

    A finite binary64 magnitude is [m * 2^e].  The two places where the
    program makes a float are [int / int] and [float(str)]; both are
    correctly rounded (to nearest, ties to even) in CPython, so both are
    the rounding of an exact ratio of integers. *)

Inductive pyfloat :=
| Fin (neg : bool) (m e : Z)
| Inf (neg : bool).

Definition shl (x e : Z) : Z := x * 2 ^ Z.max e 0.

(** Exponent of the last place for the positive ratio [n / d]: 52 below
    the binary exponent of the ratio, and never below the subnormal one. *)
Definition ulp_exponent (n d : Z) : Z :=
  let k0 := Z.log2 n - Z.log2 d in
  let k := if shl n (- k0) <? shl d k0 then k0 - 1 else k0 in
  Z.max (k - 52) (-1074).

(** The positive ratio [n / d] rounded to binary64. *)
Definition round_ratio (neg : bool) (n d : Z) : pyfloat :=
  let e := ulp_exponent n d in
  let num := shl n (- e) in
  let den := shl d e in
  let q := num / den in
  let r := num mod den in
  let m := if (den <? 2 * r) || ((den =? 2 * r) && Z.odd q)
           then q + 1 else q in
  if 1024 <=? Z.log2 m + e then Inf neg else Fin neg m e.

(** [a / b] on two ints. *)
Definition truediv (a b : Z) : outcome pyfloat :=
  if b =? 0 then Raise ZeroDivisionError
  else if a =? 0 then Ok (Fin false 0 0)
  else
    match round_ratio (xorb (a <? 0) (b <? 0)) (Z.abs a) (Z.abs b) with
    | Inf _ => Raise OverflowError
    | x => Ok x
    end.

(** [int(x)] on a float: truncation toward zero. *)
Definition int_of_float (x : pyfloat) : outcome Z :=
  match x with
  | Inf _ => Raise OverflowError
  | Fin neg m e =>
      let a := if 0 <=? e then m * 2 ^ e else m / 2 ^ (- e) in
      Ok (if neg then - a else a)
  end.

(* ================================================================== *)
(** ** Regular expressions

    A backtracking matcher with the priorities of Python's [re]: the first
    alternative that lets the rest of the pattern succeed wins.  Only the
    constructs the program's patterns use are present. *)

Inductive regex :=
| Eps
| Chr (p : N -> bool)                 (* one character of a class *)
| Seq (a b : regex)
| Opt (a : regex)                     (* a?   greedy *)
| Star (a : regex)                    (* a*   greedy *)
| LazyStar (a : regex)                (* a*?  *)
| Rep (a : regex) (lo hi : nat)       (* a{lo,hi} greedy *)
| Grp (a : regex)                     (* the capturing group *)
| Bos                                 (* ^ *)
| Eos.                                (* $ *)

Record mstate := {
  m_rest : pystr;                     (* text from the current position *)
  m_pos : nat;                        (* the current position *)
  m_grp : pystr                       (* text of group 1 *)
}.

(** The first alternative, and the second only when the first fails. *)
Notation "x 'orelse' y" :=
  (match x with Some v => Some v | None => y end)
  (at level 70, no associativity, only parsing).

Fixpoint rmatch (r : regex) : mstate -> (mstate -> option mstate) -> option mstate :=
  match r with
  | Eps => fun st k => k st
  | Chr p => fun st k =>
      match m_rest st with
      | c :: rest =>
          if p c
          then k {| m_rest := rest; m_pos := S (m_pos st); m_grp := m_grp st |}
          else None
      | [] => None
      end
  | Seq a b => fun st k => rmatch a st (fun st' => rmatch b st' k)
  | Opt a => fun st k => rmatch a st k orelse k st
  | Star a => fun st k =>
      (fix loop (n : nat) (st : mstate) : option mstate :=
         match n with
         | O => k st
         | S n' =>
             rmatch a st (fun st' =>
               if (m_pos st <? m_pos st')%nat then loop n' st' else None)
             orelse k st
         end) (List.length (m_rest st)) st
  | LazyStar a => fun st k =>
      (fix loop (n : nat) (st : mstate) : option mstate :=
         k st orelse
           match n with
           | O => None
           | S n' =>
               rmatch a st (fun st' =>
                 if (m_pos st <? m_pos st')%nat then loop n' st' else None)
           end) (List.length (m_rest st)) st
  | Rep a lo hi => fun st k =>
      (fix rep (lo hi : nat) (st : mstate) : option mstate :=
         match hi with
         | O => match lo with O => k st | S _ => None end
         | S hi' =>
             rmatch a st (fun st' => rep (Nat.pred lo) hi' st')
             orelse match lo with O => k st | S _ => None end
         end) lo hi st
  | Grp a => fun st k =>
      rmatch a st (fun st' =>
        k {| m_rest := m_rest st'; m_pos := m_pos st';
             m_grp := firstn (m_pos st' - m_pos st) (m_rest st) |})
  | Bos => fun st k => if (m_pos st =? 0)%nat then k st else None
  | Eos => fun st k =>
      match m_rest st with
      | [] => k st
      | [10%N] => k st
      | _ => None
      end
  end.

(** A match of [r] that starts at position [pos], where [rest] begins:
    the state at the end of the match. *)
Definition match_at (r : regex) (pos : nat) (rest : pystr) : option mstate :=
  rmatch r {| m_rest := rest; m_pos := pos; m_grp := [] |} (fun st => Some st).

(** [re.match(r, text)] as a truth value. *)
Definition re_match (r : regex) (text : pystr) : bool :=
  match match_at r 0 text with
  | Some _ => true
  | None => false
  end.

(** The scan shared by [re.findall] and [re.sub]: matches are looked for
    from left to right and do not overlap; the program's patterns never
    match the empty string.  [keep] says what a character outside every
    match contributes, [hit] what a match contributes. *)
Fixpoint scan {A} (fuel : nat) (r : regex) (keep : N -> list A)
    (hit : pystr -> list A) (pos : nat) (rest : pystr) : list A :=
  match fuel with
  | O => []
  | S fuel' =>
      match rest with
      | [] => []
      | c :: rest' =>
          match match_at r pos rest with
          | Some st =>
              if (pos <? m_pos st)%nat
              then hit (m_grp st)
                     ++ scan fuel' r keep hit (m_pos st) (m_rest st)
              else keep c ++ scan fuel' r keep hit (S pos) rest'
          | None => keep c ++ scan fuel' r keep hit (S pos) rest'
          end
      end
  end.

(** [re.findall(r, text)] for a pattern with one group: the group's text
    of every match. *)
Definition findall (r : regex) (text : pystr) : list pystr :=
  scan (List.length text) r (fun _ => []) (fun g => [g]) 0 text.

(** [re.sub(r, r'\1', text)]: every match is replaced by its group. *)
Definition sub_group (r : regex) (text : pystr) : pystr :=
  scan (List.length text) r (fun c => [c]) (fun g => g) 0 text.

Definition lit (c : N) : regex := Chr (N.eqb c).

Fixpoint seqs (rs : list regex) : regex :=
  match rs with
  | [] => Eps
  | [r] => r
  | r :: rest => Seq r (seqs rest)
  end.

(* ================================================================== *)
(** ** Character classes and case *)

Section Characters.

Variable U : unicode_tables.

(** [str.isspace] for one code point, which is also [\s]. *)
Definition is_space (c : N) : bool :=
  if is_ascii c
  then ((9 <=? c) && (c <=? 13) || (28 <=? c) && (c <=? 32))%N
  else ws_extra U c.

(** Decimal value of a decimal digit, [None] for any other code point. *)
Definition decimal_value (c : N) : option Z :=
  if is_ascii c
  then if ((48 <=? c) && (c <=? 57))%N then Some (Z.of_N c - 48) else None
  else nd_value U c.

(** [\d] *)
Definition is_decimal (c : N) : bool :=
  match decimal_value c with
  | Some _ => true
  | None => false
  end.

Definition ascii_lower (c : N) : N :=
  if ((65 <=? c) && (c <=? 90))%N then (c + 32)%N else c.

(** [text.lower()] *)
Definition lower (text : pystr) : pystr :=
  if forallb is_ascii text then List.map ascii_lower text
  else lower_text U text.

(** A literal pattern character under [re.IGNORECASE].  The one non-ASCII
    literal in the program's patterns is the rupee sign, which has no case,
    so an ASCII character of the text matches a literal of the same letter
    and no other. *)
Definition lit_i (p : N) : regex :=
  Chr (fun c =>
         (c =? p)%N
         || (if is_ascii c
             then is_ascii p && (ascii_lower c =? ascii_lower p)%N
             else fold_extra U p c)).

Definition lits_i (x : string) : regex :=
  seqs (List.map lit_i (str x)).

(** [text.strip()] is empty. *)
Definition is_blank (text : pystr) : bool := forallb is_space text.

End Characters.

(* ================================================================== *)
(** ** [float(text)], [sorted] and [set] *)

Section Builtins.

Variable U : unicode_tables.

(** Value of a run of decimal digits, [None] when a character is no digit. *)
Fixpoint digits_value (acc : Z) (t : pystr) : option Z :=
  match t with
  | [] => Some acc
  | c :: t' =>
      match decimal_value U c with
      | Some d => digits_value (10 * acc + d) t'
      | None => None
      end
  end.

(** The text before the first ['.'] and, when there is one, the text
    after it. *)
Fixpoint split_dot (t : pystr) : pystr * option pystr :=
  match t with
  | [] => ([], None)
  | c :: t' =>
      if (c =? 46)%N then ([], Some t')
      else let '(a, b) := split_dot t' in (c :: a, b)
  end.

(** [float(text)] on a text of digits and dots, which is all that a match
    of the price patterns holds once its commas are gone: digits with an
    optional fraction, read as an exact decimal and rounded to binary64.
    A text that is no such number raises [ValueError]; a number beyond the
    binary64 range is infinity, not an error. *)
Definition float_of_str (t : pystr) : outcome pyfloat :=
  let '(ip, fp) := split_dot t in
  let frac := match fp with Some f => f | None => [] end in
  match ip, frac with
  | [], [] => Raise ValueError
  | _, _ =>
      match digits_value 0 ip, digits_value 0 frac with
      | Some i, Some f =>
          let den := 10 ^ Z.of_nat (List.length frac) in
          let num := i * den + f in
          Ok (if num =? 0 then Fin false 0 0 else round_ratio false num den)
      | _, _ => Raise ValueError
      end
  end.

Fixpoint insert_sorted (x : Z) (l : list Z) : list Z :=
  match l with
  | [] => [x]
  | y :: l' => if x <=? y then x :: l else y :: insert_sorted x l'
  end.

(** [sorted(l)] *)
Definition sorted (l : list Z) : list Z :=
  fold_right insert_sorted [] l.

(** [list(set(l))]: the distinct elements, in an order of the
    interpreter's choosing. *)
Definition list_of_set (l : list Z) : list Z := nodup Z.eq_dec l.

(** [for x in xs: acc = step(acc, x)] where the step may raise. *)
Fixpoint for_each {A B} (step : B -> A -> outcome B) (xs : list A) (acc : B)
  : outcome B :=
  match xs with
  | [] => Ok acc
  | x :: rest => acc' <- step acc x ;; for_each step rest acc'
  end.

End Builtins.

(* ================================================================== *)
(** ** [WebSearcher.extract_prices_from_text] *)

Section WebSearcher.

Variable U : unicode_tables.

Definition digit : regex := Chr (is_decimal U).
Definition space : regex := Chr (is_space U).

(** D = [\d{1,3}(?:,\d{3})*] *)
Definition grouped_digits : regex :=
  Seq (Rep digit 1 3) (Star (Seq (lit_i U 44) (Rep digit 3 3))).

(** A = [\d{1,3}(?:,\d{3})*(?:\.\d{2})?] *)
Definition grouped_amount : regex :=
  Seq grouped_digits (Opt (Seq (lit_i U 46) (Rep digit 2 2))).

(** [₹?\s*(D)], the tail of the keyword patterns *)
Definition keyword_tail : list regex :=
  [Opt (lit_i U 8377); Star space; Grp grouped_digits].

(** [[:\s]*] *)
Definition colons_spaces : regex :=
  Star (Chr (fun c => (c =? 58)%N || is_space U c)).

(** The eight patterns, with A and D as above. *)
Definition rupee_patterns : list regex := [
  (* ₹\s*(A) *)
  seqs [lit_i U 8377; Star space; Grp grouped_amount];
  (* rs\.?\s*(A) *)
  seqs [lits_i U "rs"; Opt (lit_i U 46); Star space; Grp grouped_amount];
  (* inr\s*(A) *)
  seqs [lits_i U "inr"; Star space; Grp grouped_amount];
  (* (A)\s*rupees? *)
  seqs [Grp grouped_amount; Star space; lits_i U "rupee"; Opt (lit_i U 115)];
  (* price[:\s]*₹?\s*(D) *)
  seqs (lits_i U "price" :: colons_spaces :: keyword_tail);
  (* cost[:\s]*₹?\s*(D) *)
  seqs (lits_i U "cost" :: colons_spaces :: keyword_tail);
  (* from\s*₹?\s*(D) *)
  seqs (lits_i U "from" :: Star space :: keyword_tail);
  (* starting\s*₹?\s*(D) *)
  seqs (lits_i U "starting" :: Star space :: keyword_tail)
].

(** The body of the [try]: the match without its commas and without
    ['.00'], as a float, as an int. *)
Definition price_of_match (m : pystr) : outcome Z :=
  let clean_price := replace (str ".00") [] (replace (str ",") [] m) in
  x <- float_of_str U clean_price ;;
  int_of_float x.

(** One turn of the inner loop. *)
Definition collect_price (prices : list Z) (m : pystr) : outcome (list Z) :=
  except_ValueError
    (price <- price_of_match m ;;
     Ok (if (300 <=? price) && (price <=? 500000)
         then prices ++ [price] else prices))
    (Ok prices).

(** One turn of the outer loop. *)
Definition collect_pattern (text_lower : pystr) (prices : list Z)
    (pattern : regex) : outcome (list Z) :=
  for_each collect_price (findall pattern text_lower) prices.

(** [text] is [None] for an absent text. *)
Definition extract_prices_from_text (text : option pystr)
  : outcome (list Z) :=
  match text with
  | None | Some [] => Ok []
  | Some t =>
      let text_lower := lower U t in
      prices <- for_each (collect_pattern text_lower) rupee_patterns [] ;;
      Ok (sorted (list_of_set prices))
  end.

End WebSearcher.


(* ================================================================== *)
(** ** Formatting of ints and dates *)

Fixpoint digit_chars (u : Decimal.uint) : pystr :=
  match u with
  | Decimal.Nil => []
  | Decimal.D0 u' => 48%N :: digit_chars u'
  | Decimal.D1 u' => 49%N :: digit_chars u'
  | Decimal.D2 u' => 50%N :: digit_chars u'
  | Decimal.D3 u' => 51%N :: digit_chars u'
  | Decimal.D4 u' => 52%N :: digit_chars u'
  | Decimal.D5 u' => 53%N :: digit_chars u'
  | Decimal.D6 u' => 54%N :: digit_chars u'
  | Decimal.D7 u' => 55%N :: digit_chars u'
  | Decimal.D8 u' => 56%N :: digit_chars u'
  | Decimal.D9 u' => 57%N :: digit_chars u'
  end.

(** The decimal digits of a natural number, ["0"] for zero. *)
Definition digits (n : Z) : pystr := digit_chars (N.to_uint (Z.to_N n)).

Definition sign_prefix (z : Z) : pystr := if z <? 0 then [45%N] else [].

(** [f'{z}'] *)
Definition format_int (z : Z) : pystr := sign_prefix z ++ digits (Z.abs z).

(** A comma before every group of three digits that is not the first. *)
Fixpoint commas (ds : pystr) : pystr :=
  match ds with
  | [] => []
  | d :: rest =>
      d :: (if (List.length rest mod 3 =? 0)%nat
            then match rest with [] => [] | _ :: _ => 44%N :: commas rest end
            else commas rest)
  end.

(** [f'{z:,}'] *)
Definition format_comma (z : Z) : pystr :=
  sign_prefix z ++ commas (digits (Z.abs z)).

(** [digits] padded with zeros on the left to [width] characters. *)
Definition zero_pad (width : nat) (n : Z) : pystr :=
  let ds := digits n in
  List.repeat 48%N (width - List.length ds) ++ ds.

(** A [date] is its proleptic Gregorian ordinal, as [date.toordinal()]
    gives it: day 1 is 0001-01-01 and the last day is 9999-12-31. *)
Definition date := Z.

Definition days_before_month (leap : bool) (month : Z) : Z :=
  nth (Z.to_nat month) [0; 0; 31; 59; 90; 120; 151; 181; 212; 243; 273; 304; 334] 0
  + (if (2 <? month) && leap then 1 else 0).

Definition days_in_month (leap : bool) (month : Z) : Z :=
  nth (Z.to_nat month) [0; 31; 28; 31; 30; 31; 30; 31; 31; 30; 31; 30; 31] 0
  + (if (month =? 2) && leap then 1 else 0).

(** Year, month and day of an ordinal, by the computation of [datetime]. *)
Definition ymd (d : date) : Z * Z * Z :=
  let n := d - 1 in
  let n400 := n / 146097 in
  let n := n mod 146097 in
  let n100 := n / 36524 in
  let n := n mod 36524 in
  let n4 := n / 1461 in
  let n := n mod 1461 in
  let n1 := n / 365 in
  let n := n mod 365 in
  let year := n400 * 400 + 1 + n100 * 100 + n4 * 4 + n1 in
  if (n1 =? 4) || (n100 =? 4) then (year - 1, 12, 31)
  else
    let leap := (n1 =? 3) && (negb (n4 =? 24) || (n100 =? 3)) in
    let month := (n + 50) / 32 in
    let preceding := days_before_month leap month in
    if n <? preceding
    then (year, month - 1,
          n - (preceding - days_in_month leap (month - 1)) + 1)
    else (year, month, n - preceding + 1).

(** [str(d)], which is [d.isoformat()]: the year has four digits. *)
Definition isoformat (d : date) : pystr :=
  let '(y, m, dd) := ymd d in
  zero_pad 4 y ++ str "-" ++ zero_pad 2 m ++ str "-" ++ zero_pad 2 dd.

(** [d.strftime('%Y-%m-%d')].  The conversion is the C library's; this is
    glibc's, which writes the year without padding, so that a year below
    1000 has fewer than four digits.  From the year 1000 on it is
    [isoformat]. *)
Definition strftime_ymd (d : date) : pystr :=
  let '(y, m, dd) := ymd d in
  digits y ++ str "-" ++ zero_pad 2 m ++ str "-" ++ zero_pad 2 dd.

(** [range(lo, hi)] *)
Definition range (lo hi : Z) : list Z :=
  List.map (fun i => lo + Z.of_nat i) (seq 0 (Z.to_nat (hi - lo))).

(* ================================================================== *)
(** ** The request and the document *)

(** The [user_data] dict.  A field is [None] when the key is absent; a
    present value has the type the form gives it. *)
Record user_data := {
  ud_name : option pystr;
  ud_email : option pystr;
  ud_mobile : option pystr;
  ud_emergency_contact : option pystr;
  ud_departure_city : option pystr;
  ud_destination : option pystr;
  ud_departure_date : option date;
  ud_return_date : option date;
  ud_num_travelers : option Z;
  ud_trip_type : option pystr;
  ud_total_budget : option Z;
  ud_accommodation_pct : option Z;
  ud_transport_pct : option Z;
  ud_food_pct : option Z;
  ud_activities_pct : option Z;
  ud_transport_mode : option (list pystr);
  ud_travel_pace : option pystr;
  ud_interests : option (list pystr);
  ud_dietary_pref : option pystr
}.

(** [d.get(key, default)] *)
Definition get {A} (value : option A) (default : A) : A :=
  match value with
  | Some v => v
  | None => default
  end.

(** [(return_date - departure_date).days + 1] inside its [try]: [None]
    when the subtraction raises, which it does when a date is absent. *)
Definition trip_duration (ud : user_data) : option Z :=
  match ud_return_date ud, ud_departure_date ud with
  | Some r, Some d => Some (r - d + 1)
  | _, _ => None
  end.

Inductive align := AlignL | AlignC | AlignR.
Inductive font_style := Regular | Bold | Italic.

(** Width of a cell: a number of millimetres, where 0 is up to the right
    margin, or what is left of the line after a bullet's dash. *)
Inductive width := Mm (w : Z) | AfterDash.

(** The calls on the FPDF object.  The font family is always Arial. *)
Inductive pdf_call :=
| add_page
| set_font (style : font_style) (size : Z)
| set_text_color (r g b : Z)
| set_fill_color (r g b : Z)
| set_line_width_half                       (* set_line_width(0.5) *)
| line_across (x1 x2 : Z)                   (* line(x1, y, x2, y) at the current y *)
| cell (w : width) (h : Z) (txt : pystr) (border ln : Z) (al : align) (fill : bool)
| multi_cell (w : width) (h : Z) (txt : pystr)
| ln (h : option Z).

(** One set of period activities.  A text is a format string, kept as its
    pieces: [.format] fills the named fields. *)
Inductive piece :=
| Text (t : string)
| FDestination                              (* {destination} *)
| FCostPerPerson.                           (* {cost_per_person} *)

Record template := {
  morning : list piece;
  morning_cost : Z;
  afternoon : list piece;
  afternoon_cost : Z;
  evening : list piece;
  evening_cost : Z
}.

(** [text.format(destination=..., cost_per_person=..., total_cost=...)] *)
Definition format (text : list piece) (destination : pystr)
    (cost_per_person : Z) : pystr :=
  List.concat
    (List.map (fun p =>
                 match p with
                 | Text t => str t
                 | FDestination => destination
                 | FCostPerPerson => format_int cost_per_person
                 end) text).

(** A dict of templates: the entries by theme and the ['default'] entry. *)
Record templates := {
  by_theme : list (pystr * template);
  default : template
}.

(** [activity_templates.get(day_theme, activity_templates['default'])] *)
Fixpoint lookup_theme (entries : list (pystr * template)) (theme : pystr)
  : option template :=
  match entries with
  | [] => None
  | (k, v) :: rest => if pystr_eqb k theme then Some v else lookup_theme rest theme
  end.

Definition templates_get (ts : templates) (theme : pystr) : template :=
  match lookup_theme (by_theme ts) theme with
  | Some t => t
  | None => default ts
  end.

(* ================================================================== *)
(** ** [StructuredTripPDF] *)

Section StructuredTripPDF.

Variable U : unicode_tables.

(** [.], any character but a newline *)
Definition any_char : regex := Chr (fun c => negb (c =? 10)%N).

(** [\*\*(.*?)\*\*] *)
Definition bold_markup : regex :=
  seqs [lit 42; lit 42; Grp (LazyStar any_char); lit 42; lit 42].

(** [\*(.*?)\*] *)
Definition italic_markup : regex :=
  seqs [lit 42; Grp (LazyStar any_char); lit 42].

(** The [replacements] dict in its order.  The sixth key is what the two
    lines that open with three apostrophes spell: a triple-quoted string
    that runs from the first of them to the second, so the key is a colon,
    a space, three quote characters, a comma, a newline and twelve spaces.
    The line with the double quote is there twice; a dict keeps one entry,
    which maps the character to itself. *)
Definition replacements : list (pystr * pystr) := [
  ([8377%N], str "Rs.");
  ([8226%N], str "-");
  ([8209%N], str "-");
  ([8211%N], str "-");
  ([8212%N], str "-");
  ([58; 32; 34; 39; 34; 44; 10]%N ++ List.repeat 32%N 12, str "'");
  ([34%N], [34%N]);
  ([8230%N], str "...");
  ([176%N], str " degrees");
  ([215%N], str "x");
  ([247%N], str "/");
  ([233%N], str "e");
  ([232%N], str "e");
  ([234%N], str "e");
  ([235%N], str "e");
  ([224%N], str "a");
  ([225%N], str "a");
  ([226%N], str "a");
  ([228%N], str "a");
  ([231%N], str "c");
  ([241%N], str "n")
].

(** The loop over [replacements.items()]. *)
Definition apply_replacements (text : pystr) : pystr :=
  fold_left (fun t kv => replace (fst kv) (snd kv) t) replacements text.

(** [text] is [None] for an absent text. *)
Definition clean_text_for_pdf (text : option pystr) : pystr :=
  match text with
  | None | Some [] => []
  | Some t =>
      let t := sub_group bold_markup t in
      let t := sub_group italic_markup t in
      let t := apply_replacements t in
      encode_ascii_ignore t
  end.

Definition add_section_header (title : pystr) : list pdf_call := [
  ln (Some 8);
  set_font Bold 14;
  set_text_color 0 0 0;
  cell (Mm 0) 10 (clean_text_for_pdf (Some title)) 0 1 AlignL false;
  set_line_width_half;
  line_across 10 200;
  ln (Some 5)
].

Definition add_paragraph (text : pystr) : list pdf_call := [
  set_font Regular 11;
  set_text_color 0 0 0;
  multi_cell (Mm 0) 6 (clean_text_for_pdf (Some text));
  ln (Some 3)
].

Definition add_bullet_point (text : pystr) : list pdf_call :=
  if is_blank U text then []
  else [
    set_font Regular 11;
    cell (Mm 10) 6 (str "-") 0 0 AlignL false;
    multi_cell AfterDash 6 (clean_text_for_pdf (Some text));
    ln (Some 1)
  ].

Definition bullets (texts : list pystr) : list pdf_call :=
  List.concat (List.map add_bullet_point texts).

(* ------------------------------------------------------------------ *)
(** *** [get_day_theme] *)

Definition default_themes : list pystr :=
  [str "City Exploration"; str "Cultural Tour"; str "Nature Walk"].

(** The list [themes] after the six appends and the default. *)
Definition day_themes (interests : list pystr) : list pystr :=
  let themes := [] in
  let themes := if str_in (str "History") interests
                then themes ++ [str "Historical Exploration"] else themes in
  let themes := if str_in (str "Nature") interests
                then themes ++ [str "Nature and Relaxation"] else themes in
  let themes := if str_in (str "Food") interests
                then themes ++ [str "Culinary Adventure"] else themes in
  let themes := if str_in (str "Culture") interests
                then themes ++ [str "Cultural Immersion"] else themes in
  let themes := if str_in (str "Adventure") interests
                then themes ++ [str "Adventure Activities"] else themes in
  let themes := if str_in (str "Shopping") interests
                then themes ++ [str "Shopping and Markets"] else themes in
  match themes with
  | [] => default_themes
  | _ :: _ => themes
  end.

Definition get_day_theme (day_num : Z) (interests : list pystr) : pystr :=
  let themes := day_themes interests in
  let theme_index := (day_num - 2) mod Z.of_nat (List.length themes) in
  nth (Z.to_nat theme_index) themes [].

(* ------------------------------------------------------------------ *)
(** *** [get_activity_templates] *)

Definition delhi_historical_exploration : template := {|
    morning := [Text "Visit the magnificent Red Fort, a UNESCO World Heritage site with guided audio tour. (Rs. 200 per person)"];
    morning_cost := 200;
    afternoon := [Text "Explore Jama Masjid and Chandni Chowk - try street kebabs, capture bustling lanes and traditional markets."];
    afternoon_cost := 150;
    evening := [Text "Sunset at Rooftop Cafe in Connaught Place with cocktails and live music. (Rs. 800 per person)"];
    evening_cost := 800
  |}.

Definition delhi_nature_and_relaxation : template := {|
    morning := [Text "Visit the beautiful Akshardham Temple and enjoy the musical fountain show. (Rs. 150 per person)"];
    morning_cost := 150;
    afternoon := [Text "Explore the serene Hauz Khas Village, known for its lakes, gardens, and shopping options."];
    afternoon_cost := 0;
    evening := [Text "Enjoy a relaxing sunset cruise on the Yamuna River. (Rs. 800 per person)"];
    evening_cost := 800
  |}.

Definition delhi_culinary_adventure : template := {|
    morning := [Text "Food walking tour of Old Delhi - taste parathas at Paranthe Wali Gali. (Rs. 300 per person)"];
    morning_cost := 300;
    afternoon := [Text "Cooking class with local chef - learn to make traditional Delhi dishes. (Rs. 1200 per person)"];
    afternoon_cost := 1200;
    evening := [Text "Dinner at famous Karim's restaurant - try their legendary mutton korma and kebabs. (Rs. 600 per person)"];
    evening_cost := 600
  |}.

Definition delhi_cultural_immersion : template := {|
    morning := [Text "Visit Humayun's Tomb, a UNESCO site and architectural marvel. (Rs. 40 per person)"];
    morning_cost := 40;
    afternoon := [Text "Explore National Museum and Gandhi Smriti - rich Indian history and culture. (Rs. 100 per person)"];
    afternoon_cost := 100;
    evening := [Text "Cultural performance at India Habitat Centre or local cultural center. (Rs. 500 per person)"];
    evening_cost := 500
  |}.

Definition delhi_adventure_activities : template := {|
    morning := [Text "Day-trip to Sanjay Van (Aravalli ridge) - guided trek and nature walk. Free entry, bring water and snacks."];
    morning_cost := 0;
    afternoon := [Text "Visit Garden of Five Senses for adventure activities and photography. (Rs. 30 per person)"];
    afternoon_cost := 30;
    evening := [Text "Go-karting or paintball at local adventure parks. (Rs. 1000 per person)"];
    evening_cost := 1000
  |}.

Definition delhi_shopping_and_markets : template := {|
    morning := [Text "Explore Dilli Haat - handicrafts, textiles, and souvenirs from all over India. (Rs. 50 entry)"];
    morning_cost := 50;
    afternoon := [Text "Shopping at Connaught Place and Khan Market - books, clothes, and local items."];
    afternoon_cost := 0;
    evening := [Text "Street shopping at Sarojini Nagar Market - bargaining and local fashion finds."];
    evening_cost := 0
  |}.

Definition delhi_default : template := {|
    morning := [Text "City sightseeing tour covering major attractions and landmarks. (Rs. 300 per person)"];
    morning_cost := 300;
    afternoon := [Text "Local market visit and cultural exploration with guide."];
    afternoon_cost := 200;
    evening := [Text "Traditional dinner and cultural show. (Rs. 700 per person)"];
    evening_cost := 700
  |}.

Definition delhi_templates : templates := {|
  by_theme := [
    (str "Historical Exploration", delhi_historical_exploration);
    (str "Nature and Relaxation", delhi_nature_and_relaxation);
    (str "Culinary Adventure", delhi_culinary_adventure);
    (str "Cultural Immersion", delhi_cultural_immersion);
    (str "Adventure Activities", delhi_adventure_activities);
    (str "Shopping and Markets", delhi_shopping_and_markets)
  ];
  default := delhi_default
|}.

Definition generic_historical_exploration : template := {|
    morning := [Text "Visit historical monuments and heritage sites in "; FDestination; Text ". (Rs. "; FCostPerPerson; Text " per person)"];
    morning_cost := 200;
    afternoon := [Text "Guided heritage walk and museum visits in old city areas."];
    afternoon_cost := 150;
    evening := [Text "Traditional dinner at heritage restaurant. (Rs. "; FCostPerPerson; Text " per person)"];
    evening_cost := 600
  |}.

Definition generic_nature_and_relaxation : template := {|
    morning := [Text "Nature walk in "; FDestination; Text " gardens and parks. (Rs. "; FCostPerPerson; Text " per person)"];
    morning_cost := 100;
    afternoon := [Text "Relaxing time at botanical gardens or lakeside areas."];
    afternoon_cost := 0;
    evening := [Text "Sunset viewing at scenic location with refreshments. (Rs. "; FCostPerPerson; Text " per person)"];
    evening_cost := 400
  |}.

Definition generic_default : template := {|
    morning := [Text "City exploration and major attractions tour. (Rs. "; FCostPerPerson; Text " per person)"];
    morning_cost := 300;
    afternoon := [Text "Local culture and market exploration."];
    afternoon_cost := 200;
    evening := [Text "Traditional dinner and entertainment. (Rs. "; FCostPerPerson; Text " per person)"];
    evening_cost := 700
  |}.

Definition generic_templates : templates := {|
  by_theme := [
    (str "Historical Exploration", generic_historical_exploration);
    (str "Nature and Relaxation", generic_nature_and_relaxation)
  ];
  default := generic_default
|}.


(** Of its four arguments the method reads the destination only. *)
Definition get_activity_templates (destination : pystr) : templates :=
  if pystr_eqb (lower U destination) (str "delhi")
  then delhi_templates
  else generic_templates.

(* ------------------------------------------------------------------ *)
(** *** [add_detailed_day_by_day_itinerary] *)

Definition cost_line (cost : Z) : pystr :=
  str "Estimated daily cost for group: Rs. " ++ format_comma cost.

(** Day 1. *)
Definition arrival_day (start_date : date) (destination : pystr)
    (num_travelers : Z) : list pdf_call :=
  let day1_date := strftime_ymd start_date in
  let arrival_activities := [
    str "Morning: Arrive at " ++ destination
      ++ str "'s Indira Gandhi International Airport (IGIA). Take a taxi or metro (Yellow Line) to the hotel.";
    str "Afternoon: Check-in at Hotel Orchid (Rs. 2,500/night), a budget-friendly option with amenities like a restaurant and 24-hour front desk. Explore nearby area.";
    str "Evening: Enjoy a welcome dinner at the popular Karim's restaurant, serving delicious North Indian cuisine. (Rs. 500 per person)";
    cost_line (4500 + num_travelers * 500)
  ] in
  [set_font Bold 14;
   cell (Mm 0) 10 (str "Day 1 - " ++ day1_date ++ str " - Arrival Day") 0 1 AlignL false;
   ln (Some 3)]
  ++ bullets arrival_activities
  ++ [ln (Some 8)].

(** One turn of the loop over [range(2, duration)]. *)
Definition main_day (activity_templates : templates) (destination : pystr)
    (interests : list pystr) (num_travelers : Z) (day_num : Z)
  : list pdf_call :=
  let day_theme := get_day_theme day_num interests in
  let activities := templates_get activity_templates day_theme in
  let morning_activity :=
    format (morning activities) destination (morning_cost activities) in
  let afternoon_activity :=
    format (afternoon activities) destination (afternoon_cost activities) in
  let evening_activity :=
    format (evening activities) destination (evening_cost activities) in
  let daily_cost :=
    (morning_cost activities + afternoon_cost activities
     + evening_cost activities + 1500) * num_travelers in
  [set_font Bold 12;
   cell (Mm 0) 8 (str "Day " ++ format_int day_num ++ str ": " ++ day_theme)
     0 1 AlignL false;
   ln (Some 2)]
  ++ add_bullet_point (str "Morning: " ++ morning_activity)
  ++ add_bullet_point (str "Afternoon: " ++ afternoon_activity)
  ++ add_bullet_point (str "Evening: " ++ evening_activity)
  ++ add_bullet_point (cost_line daily_cost)
  ++ [ln (Some 5)].

(** The last day. *)
Definition departure_day (start_date : date) (duration : Z)
  : list pdf_call :=
  let final_date := strftime_ymd (start_date + (duration - 1)) in
  let departure_activities := [
    str "Morning: Final shopping and souvenir collection. Visit local markets for last-minute purchases.";
    str "Afternoon: Hotel checkout and departure preparations. Light lunch at hotel or nearby restaurant.";
    str "Evening: Journey back home. Safe travels!"
  ] in
  [set_font Bold 12;
   cell (Mm 0) 8
     (str "Day " ++ format_int duration ++ str " - " ++ final_date
      ++ str " - Departure Day") 0 1 AlignL false;
   ln (Some 2)]
  ++ bullets departure_activities
  ++ [ln (Some 8)].

(** The [try] that opens the method: the duration and the start date, or
    seven days from today when the dates cannot be subtracted.  [today] is
    [datetime.now().date()]. *)
Definition itinerary_span (today : date) (ud : user_data) : Z * date :=
  match trip_duration ud, ud_departure_date ud with
  | Some d, Some s => (d, s)
  | _, _ => (7, today)
  end.

Definition add_detailed_day_by_day_itinerary (today : date)
    (ud : user_data) : list pdf_call :=
  let '(duration, start_date) := itinerary_span today ud in
  let destination := get (ud_destination ud) (str "Delhi") in
  let interests := get (ud_interests ud) [str "History"; str "Culture"] in
  let num_travelers := get (ud_num_travelers ud) 5 in
  let activity_templates := get_activity_templates destination in
  add_section_header (128197%N :: str " Day-by-Day Itinerary")
  ++ arrival_day start_date destination num_travelers
  ++ [set_font Bold 14;
      cell (Mm 0) 10
        (str "Days 2-" ++ format_int (duration - 1) ++ str " - Main Exploration")
        0 1 AlignL false;
      ln (Some 3)]
  ++ List.concat
       (List.map (main_day activity_templates destination interests num_travelers)
          (range 2 duration))
  ++ (if 1 <? duration then departure_day start_date duration else []).

(* ------------------------------------------------------------------ *)
(** *** [add_enhanced_budget_breakdown] *)

(** [needle in text] *)
Fixpoint contains (needle text : pystr) : bool :=
  startswith needle text
  || match text with
     | [] => false
     | _ :: rest => contains needle rest
     end.

Record breakdown := {
  accommodation : Z;
  transport : Z;
  food : Z;
  activities : Z;
  miscellaneous : Z
}.

(** [int(total_budget * pct / 100)] *)
Definition percent_of (total_budget pct : Z) : outcome Z :=
  x <- truediv (total_budget * pct) 100 ;;
  int_of_float x.

(** The five assignments that open the method. *)
Definition budget_allocations (total_budget accommodation_pct transport_pct
    food_pct activities_pct : Z) : outcome breakdown :=
  accommodation <- percent_of total_budget accommodation_pct ;;
  transport <- percent_of total_budget transport_pct ;;
  food <- percent_of total_budget food_pct ;;
  activities <- percent_of total_budget activities_pct ;;
  let miscellaneous :=
    total_budget - (accommodation + transport + food + activities) in
  Ok {| accommodation := accommodation; transport := transport;
        food := food; activities := activities;
        miscellaneous := miscellaneous |}.

Definition rs (amount : Z) : pystr := str "Rs. " ++ format_comma amount.

(** The rows of [budget_data]. *)
Definition budget_data (ud : user_data) (b : breakdown) : list (list pystr) :=
  let duration := get (trip_duration ud) 7 in
  [ [str "Transportation"; rs (transport b);
     join (str ", ") (get (ud_transport_mode ud) [str "Flight"])
       ++ str " + local transport"];
    [str "Accommodation"; rs (accommodation b);
     str "Hotels for " ++ format_int duration ++ str " nights"];
    [str "Food & Dining"; rs (food b);
     get (ud_dietary_pref ud) (str "Mixed") ++ str " cuisine preferences"];
    [str "Activities"; rs (activities b); str "Sightseeing and experiences"];
    [str "Miscellaneous"; rs (miscellaneous b);
     str "Shopping and emergency fund"] ].

Definition col_widths : list Z := [50; 40; 90].

(** The cells of one row of the table, and the line break after them. *)
Definition table_row (h : Z) (row : list pystr) : list pdf_call :=
  List.map (fun wc =>
              let clean_text := clean_text_for_pdf (Some (snd wc)) in
              let al := if contains (str "Rs.") clean_text
                        then AlignR else AlignL in
              cell (Mm (fst wc)) h clean_text 1 0 al true)
           (combine col_widths row)
  ++ [ln None].

Definition add_enhanced_budget_breakdown (ud : user_data)
  : outcome (list pdf_call) :=
  let total_budget := get (ud_total_budget ud) 200000 in
  b <- budget_allocations total_budget
         (get (ud_accommodation_pct ud) 40) (get (ud_transport_pct ud) 25)
         (get (ud_food_pct ud) 20) (get (ud_activities_pct ud) 15) ;;
  let headers := [str "Category"; str "Allocated Budget"; str "Details"] in
  let total_row := [str "TOTAL BUDGET"; rs total_budget;
                    str "Complete trip allocation"] in
  Ok (add_section_header (128176%N :: str " Budget Breakdown")
      ++ [set_font Bold 11;
          set_fill_color 70 130 180;
          set_text_color 255 255 255]
      ++ List.map (fun wh => cell (Mm (fst wh)) 12 (snd wh) 1 0 AlignC true)
           (combine col_widths headers)
      ++ [ln None;
          set_font Regular 10;
          set_text_color 0 0 0]
      ++ List.concat
           (List.map (fun ir =>
                        (if (fst ir mod 2 =? 0)%nat
                         then set_fill_color 245 245 245
                         else set_fill_color 255 255 255)
                        :: table_row 10 (snd ir))
              (combine (seq 0 5) (budget_data ud b)))
      ++ [set_font Bold 11;
          set_fill_color 70 130 180;
          set_text_color 255 255 255]
      ++ table_row 12 total_row
      ++ [ln (Some 5)]).

End StructuredTripPDF.

(* ================================================================== *)
(** ** The advisory sections of [StructuredTripPDF] *)

Section Advisory.

Variable U : unicode_tables.

(** A heading inside a section and the space after it: the three calls
    that open every block of bullets in the methods below. *)
Definition block_heading (title : pystr) : list pdf_call := [
  set_font Bold 12;
  cell (Mm 0) 8 title 0 1 AlignL false;
  ln (Some 2)
].

(* ------------------------------------------------------------------ *)
(** *** [add_comprehensive_accommodation_section] *)

Definition add_comprehensive_accommodation_section (ud : user_data)
  : list pdf_call :=
  let destination := get (ud_destination ud) (str "Delhi") in
  let trip_type := get (ud_trip_type ud) (str "Friends") in
  let budget_hotels := [
    str "Hotel Orchid " ++ destination ++ str " - Clean rooms, 24-hour front desk, restaurant, WiFi (Rs. 2,500/night)";
    str "Backpacker Hostel - Shared facilities, common area, perfect for " ++ lower U trip_type ++ str " groups (Rs. 1,500/night)";
    str "Tourist Guest House - Basic amenities, central location, budget-friendly (Rs. 2,000/night)"
] in
  let midrange_hotels := [
    str "Hotel Metropolitan - 4-star comfort, gym, spa, multiple restaurants (Rs. 4,500/night)";
    str "Boutique Heritage Hotel - Local architecture, modern amenities, rooftop dining (Rs. 5,000/night)";
    str "Business Hotel Express - Perfect for comfort, conference rooms, executive services (Rs. 3,800/night)"
] in
  let premium_hotels := [
    str "The Grand Palace Hotel - 5-star luxury, full-service spa, fine dining, concierge (Rs. 8,500/night)";
    str "Heritage Mansion - Historic property, unique architecture, premium hospitality (Rs. 7,200/night)";
    str "Luxury Resort & Spa - Complete resort experience, recreational facilities, premium service (Rs. 9,000/night)"
] in
  add_section_header ([127976%N] ++ str " Where to Stay - Detailed Recommendations")
  ++ block_heading (str "Budget Hotels (Rs. 1,500-3,000/night)")
  ++ bullets U budget_hotels
  ++ [ln (Some 3)]
  ++ block_heading (str "Mid-range Hotels (Rs. 3,000-6,000/night)")
  ++ bullets U midrange_hotels
  ++ [ln (Some 3)]
  ++ block_heading (str "Premium Hotels (Rs. 6,000+/night)")
  ++ bullets U premium_hotels
  ++ [ln (Some 5)].

(* ------------------------------------------------------------------ *)
(** *** [add_transportation_section] *)

(** The [transport_details] dict. *)
Definition transport_details (departure_city destination : pystr)
  : list (pystr * pystr) := [
  (str "Flight", departure_city ++ str " to " ++ destination ++ str " by air - fastest option, 2-3 hours journey time");
  (str "Train", departure_city ++ str " to " ++ destination ++ str " by train - comfortable, scenic journey, 8-12 hours");
  (str "Bus", departure_city ++ str " to " ++ destination ++ str " by bus - economical option, overnight journey");
  (str "Car Rental", departure_city ++ str " to " ++ destination ++ str " by car - flexible timing, road trip experience")
].

(** [d[key]] for a key that may be absent. *)
Fixpoint dict_get (d : list (pystr * pystr)) (key : pystr) : option pystr :=
  match d with
  | [] => None
  | (k, v) :: rest => if pystr_eqb k key then Some v else dict_get rest key
  end.

(** The loop over the selected modes: a mode that is no key of the dict
    is passed over. *)
Definition main_travel_options (departure_city destination : pystr)
    (transport_modes : list pystr) : list pdf_call :=
  List.concat
    (List.map (fun mode =>
                 match dict_get (transport_details departure_city destination)
                         mode with
                 | Some text => add_bullet_point U text
                 | None => []
                 end) transport_modes).

Definition add_transportation_section (ud : user_data) : list pdf_call :=
  let departure_city := get (ud_departure_city ud) (str "Mumbai") in
  let destination := get (ud_destination ud) (str "Delhi") in
  let transport_modes := get (ud_transport_mode ud) [str "Flight"] in
  let local_transport := [
    str "Metro system - efficient and economical city travel in " ++ destination;
    str "Taxi and ride-sharing - convenient door-to-door service, app-based booking";
    str "Auto-rickshaws - local experience, good for short distances";
    str "Local buses - budget-friendly option for city exploration"
] in
  add_section_header ([128663%N] ++ str " Transportation Guide")
  ++ block_heading (str "Main Travel Options")
  ++ main_travel_options departure_city destination transport_modes
  ++ [ln (Some 3)]
  ++ block_heading (str "Local Transportation")
  ++ bullets U local_transport
  ++ [ln (Some 5)].

(* ------------------------------------------------------------------ *)
(** *** [add_detailed_food_section] *)

(** The list [dishes]. *)
Definition dishes (destination dietary_pref : pystr) : list pystr :=
  if pystr_eqb (lower U destination) (str "delhi") then
    if pystr_eqb dietary_pref (str "Non-Vegetarian") then [
    str "Butter Chicken at Moti Mahal - birthplace of this famous dish (Rs. 400 per plate)";
    str "Kebabs at Karim's - legendary Jama Masjid restaurant, 100+ years old (Rs. 300-500 per plate)";
    str "Nihari at Al Jawahar - slow-cooked mutton stew, Old Delhi specialty (Rs. 350 per plate)";
    str "Biryani at Biryani Blues - aromatic rice with meat, modern presentation (Rs. 450 per plate)"
]
    else if pystr_eqb dietary_pref (str "Vegetarian") then [
    str "Chole Bhature at Sita Ram Diwan Chand - iconic Delhi breakfast (Rs. 100 per plate)";
    str "Parathas at Paranthe Wali Gali - stuffed bread varieties, century-old tradition (Rs. 80-120 per paratha)";
    str "Daulat Ki Chaat - winter delicacy, milk foam sweet (Rs. 50 per bowl)";
    str "Rajma Chawal at local dhabas - kidney beans with rice, comfort food (Rs. 150 per plate)"
]
    else [
    str "Street Food Tour - gol gappa, aloo tikki, raj kachori (Rs. 200-300 total)";
    str "Traditional Thali - complete meal with variety of dishes (Rs. 300-500 per thali)";
    str "Local Sweets - gulab jamun, jalebi, kulfi (Rs. 50-100 per item)";
    str "Lassi and Chaas - traditional drinks, perfect with meals (Rs. 50-80 per glass)"
]
  else [
    str "Local specialty dishes of " ++ destination ++ str " - regional flavors and traditional preparations";
    str "Street food specialties - popular local snacks and quick bites";
    str "Traditional restaurants - authentic regional cuisine and family recipes";
    str "Modern interpretations - contemporary takes on classic dishes"
].

Definition add_detailed_food_section (ud : user_data) : list pdf_call :=
  let destination := get (ud_destination ud) (str "Delhi") in
  let dietary_pref := get (ud_dietary_pref ud) (str "Non-Vegetarian") in
  let restaurant_categories := [
    str "Budget Dining (Rs. 200-500/meal) - Local dhabas, street food joints, casual eateries";
    str "Mid-range Dining (Rs. 500-1500/meal) - Popular restaurants, cafe chains, themed restaurants";
    str "Fine Dining (Rs. 1500+/meal) - Premium restaurants, hotel dining, specialty cuisine restaurants";
    str "Food Courts & Quick Bites (Rs. 150-400/meal) - Mall food courts, fast food, snack counters"
] in
  add_section_header ([127869%N; 65039%N] ++ str " Food & Dining - Complete Guide")
  ++ block_heading (str "Must-Try " ++ destination ++ str " Specialties")
  ++ bullets U (dishes destination dietary_pref)
  ++ [ln (Some 3)]
  ++ block_heading (str "Restaurant Recommendations by Budget")
  ++ bullets U restaurant_categories
  ++ [ln (Some 5)].

(* ------------------------------------------------------------------ *)
(** *** [get_season_info] *)

Record season_info := {
  season_name : pystr;
  clothing_advice : pystr;
  weather_gear : pystr
}.

Definition month_in (month : Z) (months : list Z) : bool :=
  existsb (Z.eqb month) months.

Definition get_season_info (month : Z) (destination : pystr) : season_info :=
  if pystr_eqb (lower U destination) (str "delhi") then
    if month_in month [12; 1; 2] then {|
      season_name := str "Winter";
      clothing_advice := str "warm layers, sweaters, jacket, long pants, warm socks";
      weather_gear := str "light jacket, scarf, and gloves for evening"
    |}
    else if month_in month [3; 4; 5] then {|
      season_name := str "Hot Season";
      clothing_advice := str "light cotton clothing, breathable fabrics, shorts, t-shirts";
      weather_gear := str "wide-brimmed hat, sunglasses, and light scarf"
    |}
    else if month_in month [6; 7; 8; 9] then {|
      season_name := str "Monsoon Season";
      clothing_advice := str "quick-dry clothes, light rain jacket, waterproof shoes";
      weather_gear := str "umbrella, waterproof bag covers, and rain poncho"
    |}
    else {|
      season_name := str "Pleasant Weather";
      clothing_advice := str "comfortable cotton clothes, light layers for evening";
      weather_gear := str "light sweater for evening and early morning"
    |}
  else {|
      season_name := str "General Season";
      clothing_advice := str "comfortable clothing suitable for the local climate";
      weather_gear := str "umbrella and light jacket for weather changes"
    |}.

(* ------------------------------------------------------------------ *)
(** *** [add_comprehensive_packing_tips] *)

(** [d.month] *)
Definition month_of (d : date) : Z := snd (fst (ymd d)).

(** The [try] of the method: the duration and the month of departure, or
    7 and September when the dates cannot be subtracted. *)
Definition packing_span (ud : user_data) : Z * Z :=
  match ud_return_date ud, ud_departure_date ud with
  | Some r, Some d => (r - d + 1, month_of d)
  | _, _ => (7, 9)
  end.

(** [electronics] after the two conditional [extend]s. *)
Definition electronics (interests : list pystr) : list pystr :=
  [
    str "Smartphone with offline maps downloaded (Google Maps offline)";
    str "Power bank (10,000-20,000 mAh) and charging cables";
    str "Universal power adapter and portable charger";
    str "Camera with extra memory cards and batteries";
    str "Earphones/headphones for travel entertainment";
    str "Portable WiFi hotspot or local SIM card information"
]
  ++ (if str_in (str "Photography") interests then [
    str "DSLR/mirrorless camera with multiple lenses";
    str "Tripod (compact travel tripod)";
    str "Camera cleaning kit and lens filters"
] else [])
  ++ (if str_in (str "Adventure") interests then [
    str "Action camera (GoPro) with mounts and accessories";
    str "GPS device or GPS watch for trekking"
] else []).

(** [interest_items] after its five conditional [extend]s. *)
Definition interest_items (interests : list pystr) : list pystr :=
  (if str_in (str "Adventure") interests then [
    str "Trekking shoes and hiking socks";
    str "Quick-dry adventure clothing and cargo pants";
    str "Waterproof backpack and dry bags";
    str "Water bottles and energy bars"
] else [])
  ++ (if str_in (str "Culture") interests then [
    str "Modest clothing for religious sites (covered shoulders/legs)";
    str "Comfortable shoes for walking in museums";
    str "Notebook for cultural observations"
] else [])
  ++ (if str_in (str "Food") interests then [
    str "Digestive tablets and probiotics";
    str "Food diary or camera for food photography";
    str "Reusable water bottle for food tours"
] else [])
  ++ (if str_in (str "Shopping") interests then [
    str "Extra luggage space or foldable duffel bag";
    str "Calculator for currency conversion";
    str "Measuring tape for clothing purchases"
] else [])
  ++ (if str_in (str "Nature") interests then [
    str "Binoculars for bird watching";
    str "Field notebook for nature observations";
    str "Comfortable outdoor seating (portable chair)"
] else []).

Definition add_comprehensive_packing_tips (ud : user_data) : list pdf_call :=
  let destination := get (ud_destination ud) (str "Delhi") in
  let interests := get (ud_interests ud) [] in
  let '(duration, travel_month) := packing_span ud in
  let document_essentials := [
    str "Valid photo ID (Aadhar Card, Passport, Driving License) - keep both original and copies";
    str "Train/flight tickets and hotel booking confirmations - digital and printed copies";
    str "Travel insurance documents and emergency contact details";
    str "Medical prescriptions and health certificates if required";
    str "Cash in small denominations (Rs. 5,000-10,000) + ATM/credit cards";
    str "Digital copies of all documents stored in cloud (Google Drive, Dropbox)"
] in
  let season := get_season_info travel_month destination in
  let clothing_items := [
    str "Comfortable walking shoes (2 pairs) - broken-in sneakers and formal shoes";
    str "Weather-appropriate clothing - " ++ clothing_advice season;
    str "Undergarments for " ++ format_int (duration + 2) ++ str " days - pack extra for comfort";
    str "Sleepwear and comfortable lounging clothes";
    str "One formal outfit for fine dining or cultural events";
    str "Quick-dry socks and comfortable underwear";
    str "Weather protection - " ++ weather_gear season
] in
  let health_items := [
    str "Basic first-aid kit - band-aids, antiseptic, pain relievers";
    str "Personal medications with extra supply";
    str "Hand sanitizer and wet wipes";
    str "Sunscreen (SPF 30+) and after-sun lotion";
    str "Insect repellent (especially for outdoor activities)";
    str "Personal toiletries in travel-size containers";
    str "Oral rehydration salts (ORS) and digestive aids";
    str "Face masks and any required COVID-19 related items"
] in
  let misc_items := [
    str "Reusable water bottle and snacks for travel";
    str "Travel pillow and eye mask for comfortable journey";
    str "Laundry bag and travel-size detergent";
    str "Swiss Army knife or multi-tool (pack in checked luggage)";
    str "Duct tape and zip ties for emergency repairs";
    str "Travel locks for luggage security";
    str "Emergency whistle and flashlight";
    str "Local guidebook or phrasebook for " ++ destination
] in
  add_section_header ([127890%N] ++ str " Packing Essentials - Complete Checklist")
  ++ block_heading (str "Essential Documents & Money")
  ++ bullets U document_essentials
  ++ [ln (Some 3)]
  ++ block_heading
       (str "Clothing for " ++ season_name season ++ str " in " ++ destination)
  ++ bullets U clothing_items
  ++ [ln (Some 3)]
  ++ block_heading (str "Electronics & Gadgets")
  ++ bullets U (electronics interests)
  ++ [ln (Some 3)]
  ++ block_heading (str "Health & Personal Care")
  ++ bullets U health_items
  ++ [ln (Some 3)]
  ++ match interests with
     | [] => []
     | _ :: _ =>
         block_heading (str "Special Items for Your Interests")
         ++ bullets U (interest_items interests)
     end
  ++ [ln (Some 3)]
  ++ block_heading (str "Miscellaneous Essentials")
  ++ bullets U misc_items
  ++ [ln (Some 5)].

(* ------------------------------------------------------------------ *)
(** *** [add_comprehensive_local_tips] *)

Definition cultural_tips (destination : pystr) : list pystr :=
  if pystr_eqb (lower U destination) (str "delhi") then [
    str "Remove shoes when entering temples, gurdwaras, and some traditional homes";
    str "Dress modestly at religious sites - cover shoulders, arms, and legs";
    str "Use " ++ [34%N] ++ str "Namaste" ++ [34%N] ++ str " greeting with palms together - respectful and appreciated";
    str "Avoid pointing feet toward people or religious objects";
    str "Use right hand for eating, greeting, and giving/receiving items";
    str "Photography may be restricted in some religious and government buildings";
    str "Respect local customs during festivals and religious ceremonies"
]
  else [
    str "Research " ++ destination ++ str " cultural customs and local etiquette before arrival";
    str "Dress appropriately according to local customs and religious sites";
    str "Learn basic local greetings and common phrases";
    str "Respect religious and cultural practices";
    str "Be mindful of photography restrictions at cultural sites";
    str "Follow local dining etiquette and customs"
].

Definition transport_tips (destination : pystr) : list pystr :=
  if pystr_eqb (lower U destination) (str "delhi") then [
    str "Delhi Metro is the fastest way to travel - buy a metro card for convenience";
    str "Use Ola/Uber for comfortable rides - safer than negotiating with taxi drivers";
    str "Auto-rickshaws should use the meter - insist on it or agree on fare beforehand";
    str "Avoid rush hours (8-10 AM, 6-8 PM) for smoother travel";
    str "Download offline maps - Delhi traffic can be unpredictable";
    str "Bus routes are extensive but can be crowded - metro is more comfortable";
    str "Keep traffic conditions in mind - allow extra time for important appointments"
]
  else [
    str "Research " ++ destination ++ str " public transportation options before arrival";
    str "Use ride-sharing apps for safe and convenient travel";
    str "Negotiate taxi fares in advance or insist on using the meter";
    str "Download offline maps and transportation apps";
    str "Keep local transportation schedules and routes handy";
    str "Allow extra time for travel during peak hours"
].

(** [interest_tips] after its five conditional [extend]s. *)
Definition interest_tips (interests : list pystr) : list pystr :=
  (if str_in (str "Photography") interests then [
    str "Ask permission before photographing people, especially in rural areas";
    str "Golden hour photography is best - early morning and late afternoon";
    str "Protect camera equipment from dust and humidity"
] else [])
  ++ (if str_in (str "Food") interests then [
    str "Visit local markets in the morning for fresh ingredients";
    str "Ask hotel staff for authentic local restaurant recommendations";
    str "Try regional breakfast dishes - often the most authentic meals"
] else [])
  ++ (if str_in (str "Shopping") interests then [
    str "Government emporiums have fixed prices and authentic products";
    str "Best bargains are found in local markets, not tourist areas";
    str "Check weight restrictions for flights before buying heavy items"
] else [])
  ++ (if str_in (str "Adventure") interests then [
    str "Book adventure activities through reputable tour operators";
    str "Check weather conditions before outdoor activities";
    str "Inform hotel staff about your adventure plans and expected return"
] else [])
  ++ (if str_in (str "Culture") interests then [
    str "Visit cultural sites early morning to avoid crowds";
    str "Hire local guides for deeper cultural insights";
    str "Attend local festivals or cultural events if timing aligns"
] else []).

Definition add_comprehensive_local_tips (ud : user_data) : list pdf_call :=
  let destination := get (ud_destination ud) (str "Delhi") in
  let interests := get (ud_interests ud) [] in
  let money_tips := [
    str "Carry small denominations (Rs. 10, 20, 50, 100) for street vendors and auto-rickshaws";
    str "Bargaining is expected at local markets - start at 30-40% of quoted price";
    str "Fixed price shops and malls don't allow bargaining - prices are set";
    str "Keep money in multiple places - wallet, bag, and hidden pocket";
    str "ATMs are widely available - use bank ATMs for better security";
    str "Digital payments (Paytm, Google Pay, PhonePe) are widely accepted";
    str "Tipping: 10% at restaurants, Rs. 20-50 for hotel staff, Rs. 10-20 for taxi drivers"
] in
  let food_safety_tips := [
    str "Drink bottled water or properly boiled water - avoid tap water";
    str "Eat at busy restaurants with high turnover - fresher food";
    str "Avoid raw salads and unpeeled fruits from street vendors";
    str "Street food is generally safe at popular, crowded stalls";
    str "Carry ORS packets and basic stomach medications";
    str "Wash hands frequently or use hand sanitizer before eating";
    str "Start with milder spices and gradually try spicier food"
] in
  let safety_tips := [
    str "Keep copies of important documents separate from originals";
    str "Avoid displaying expensive jewelry, cameras, or large amounts of cash";
    str "Stay in groups, especially in crowded markets and tourist areas";
    str "Be cautious of overly friendly strangers offering help or deals";
    str "Keep hotel address and contact number written down in local language";
    str "Trust your instincts - if something feels wrong, remove yourself from the situation";
    str "Use hotel safes for valuable items and important documents";
    str "Keep emergency numbers saved in your phone and written down"
] in
  let communication_tips := [
    str "English is widely spoken in tourist areas and hotels";
    str "Learn basic local phrases: " ++ [34%N] ++ str "Thank you" ++ [34%N] ++ str " (Dhanyawad), " ++ [34%N] ++ str "How much?" ++ [34%N] ++ str " (Kitna?)";
    str "Download Google Translate app with offline language packs";
    str "Keep hotel business card with address in local language";
    str "Use translation apps for menu reading and basic communication";
    str "Locals are generally helpful - don't hesitate to ask for directions";
    str "Speak clearly and be patient - language barriers are manageable"
] in
  add_section_header ([127757%N] ++ str " Local Tips & Cultural Guidelines")
  ++ block_heading (str "Cultural Etiquette & Customs")
  ++ bullets U (cultural_tips destination)
  ++ [ln (Some 3)]
  ++ block_heading (str "Money Matters & Bargaining")
  ++ bullets U money_tips
  ++ [ln (Some 3)]
  ++ block_heading (str "Getting Around Like a Local")
  ++ bullets U (transport_tips destination)
  ++ [ln (Some 3)]
  ++ block_heading (str "Food & Water Safety")
  ++ bullets U food_safety_tips
  ++ [ln (Some 3)]
  ++ block_heading (str "Safety & Security Guidelines")
  ++ bullets U safety_tips
  ++ [ln (Some 3)]
  ++ block_heading (str "Communication & Language")
  ++ bullets U communication_tips
  ++ [ln (Some 3)]
  ++ match interests with
     | [] => []
     | _ :: _ =>
         block_heading (str "Tips for Your Specific Interests")
         ++ bullets U (interest_tips interests)
     end
  ++ [ln (Some 5)].

(* ------------------------------------------------------------------ *)
(** *** [add_emergency_contacts_section] *)

Definition add_emergency_contacts_section (ud : user_data) : list pdf_call :=
  let contacts := [
    str "Primary Traveler: " ++ get (ud_name ud) (str "Not provided") ++ str " - " ++ get (ud_mobile ud) (str "Not provided");
    str "Emergency Contact: " ++ get (ud_emergency_contact ud) (str "Not provided")
] in
  let emergency_numbers := [
    str "Universal Emergency: 112 (Police, Fire, Medical)";
    str "Police: 100";
    str "Fire Brigade: 101";
    str "Ambulance: 108";
    str "Tourist Helpline: 1363 (24x7 multilingual support)";
    str "Women's Safety: 1091";
    str "Railway Enquiry: 139";
    str "Road Accident Emergency: 1073"
] in
  let services := [
    str "Airport Enquiry: Check specific airport contact numbers";
    str "Indian Railways: 139 (booking and enquiry)";
    str "Taxi/Cab Services: Ola (Dial Ola), Uber (app-based)";
    str "Medical Emergency: Nearest hospital contact numbers";
    str "Embassy/Consulate: Keep relevant contact if international traveler";
    str "Travel Insurance: Keep policy number and emergency contact handy"
]
 in
  add_section_header ([128680%N] ++ str " Emergency Contacts & Important Information")
  ++ block_heading (str "Personal Emergency Contacts")
  ++ bullets U contacts
  ++ [ln (Some 3)]
  ++ block_heading (str "Official Emergency Numbers (India)")
  ++ bullets U emergency_numbers
  ++ [ln (Some 3)]
  ++ block_heading (str "Important Services & Contacts")
  ++ bullets U services
  ++ [ln (Some 5)].

End Advisory.

(* ================================================================== *)
(** ** [create_structured_pdf] *)

Section Document.

Variable U : unicode_tables.

Definition add_title_section (destination user_name dates : pystr)
  : list pdf_call := [
  set_font Bold 24;
  set_text_color 0 0 0;
  cell (Mm 0) 15
    (str "Trip Plan to " ++ clean_text_for_pdf (Some destination))
    0 1 AlignC false;
  ln (Some 5);
  set_font Regular 12;
  cell (Mm 0) 8 (str "For: " ++ clean_text_for_pdf (Some user_name))
    0 1 AlignC false;
  cell (Mm 0) 8 (str "Dates: " ++ dates) 0 1 AlignC false;
  cell (Mm 0) 6 (str "Personalized AI-Generated Itinerary") 0 1 AlignC false;
  ln (Some 10);
  set_font Bold 18;
  cell (Mm 0) 12 (clean_text_for_pdf (Some destination) ++ str " Trip Plan")
    0 1 AlignL false;
  ln (Some 5)
].

(** [str(user_data.get(key, 'N/A'))] for a date. *)
Definition date_or_na (d : option date) : pystr :=
  match d with
  | Some d => isoformat d
  | None => str "N/A"
  end.

(** The text of the overview paragraph. *)
Definition overview_text (ud : user_data) : pystr :=
  let destination := get (ud_destination ud) (str "Your Destination") in
  let duration := get (trip_duration ud) 7 in
  str "This " ++ format_int duration ++ str "-day "
  ++ lower U (get (ud_trip_type ud) (str "adventure"))
  ++ str " trip to " ++ destination ++ str " is designed for "
  ++ format_int (get (ud_num_travelers ud) 2)
  ++ str " travelers with a total budget of Rs. "
  ++ format_comma (get (ud_total_budget ud) 50000)
  ++ str "." ++ [10%N; 10%N]
  ++ str "The itinerary focuses on "
  ++ lower U (join (str ", ")
                (firstn 3 (get (ud_interests ud) [str "sightseeing"])))
  ++ str " with a " ++ lower U (get (ud_travel_pace ud) (str "moderate"))
  ++ str "-paced schedule, featuring "
  ++ get (ud_dietary_pref ud) (str "diverse")
  ++ str " dining options and "
  ++ join (str ", ") (get (ud_transport_mode ud) [str "mixed"])
  ++ str " transportation.".

(** The text that a call puts on the page. *)
Definition call_text (c : pdf_call) : pystr :=
  match c with
  | cell _ _ txt _ _ _ _ => txt
  | multi_cell _ _ txt => txt
  | _ => []
  end.

(** [s.encode('latin1')] succeeds. *)
Definition latin1 (s : pystr) : bool := forallb (fun c => (c <? 256)%N) s.

(** [pdf.output(dest='S')]: the pages are encoded as Latin-1, which raises
    when a text on them has a character beyond it.  The texts of the page
    header and footer are constants of the program and have none. *)
Definition output (calls : list pdf_call) : outcome (list pdf_call) :=
  if forallb (fun c => latin1 (call_text c)) calls
  then Ok calls
  else Raise UnicodeEncodeError.

(** The method of [StructuredTripPDF], and through it the method of the
    same name of [AITripPlanner], which makes the object and calls this
    one.  The result is the sequence of calls that [output] renders.
    [trip_plan] is a parameter that the body never reads. *)
Definition create_structured_pdf (today : date) (trip_plan : pystr)
    (ud : user_data) : outcome (list pdf_call) :=
  let destination := get (ud_destination ud) (str "Your Destination") in
  let user_name := get (ud_name ud) (str "Traveler") in
  let start_date := date_or_na (ud_departure_date ud) in
  let end_date := date_or_na (ud_return_date ud) in
  let dates := start_date ++ str " to " ++ end_date in
  let duration := get (trip_duration ud) 7 in
  let final_note :=
    str "Enjoy your " ++ format_int duration ++ str "-day adventure in "
    ++ destination
    ++ str "! This personalized itinerary matches your interests and budget. Have a wonderful and safe trip!" in
  budget <- add_enhanced_budget_breakdown ud ;;
  output
     ([add_page]
      ++ add_title_section destination user_name dates
      ++ add_section_header ([128203%N] ++ str " Trip Overview")
      ++ add_paragraph (overview_text ud)
      ++ add_detailed_day_by_day_itinerary U today ud
      ++ budget
      ++ add_comprehensive_accommodation_section U ud
      ++ add_transportation_section U ud
      ++ add_detailed_food_section U ud
      ++ add_comprehensive_packing_tips U ud
      ++ add_comprehensive_local_tips U ud
      ++ add_emergency_contacts_section U ud
      ++ [ln (Some 10);
          set_font Italic 11;
          set_text_color 100 100 100;
          multi_cell (Mm 0) 6 (clean_text_for_pdf (Some final_note))]).

End Document.

(* ================================================================== *)
(** ** [AITripPlanner] *)

(** What a general-answer provider returns. *)
Record ddg_answer := {
  abstract : pystr;
  answer : pystr;
  topics : list pystr
}.

(** One market snapshot of the travel data. *)
Record market := {
  info : ddg_answer;
  prices_found : list Z;
  price_range : pystr
}.

Section Planner.

Variable U : unicode_tables.

(** The records of the encyclopedic lookup and of the geocoder, which the
    program stores and passes on as they are. *)
Variables wiki geocode : Type.

(** The three providers of [WebSearcher]: each answers a query with a
    record or with nothing. *)
Record web := {
  wikipedia_search : pystr -> option wiki;
  openstreetmap_search : pystr -> option geocode;
  duckduckgo_search : pystr -> option ddg_answer
}.

Record travel_data := {
  destination_info : option wiki;
  coordinates : option geocode;
  accommodation_data : option market;
  transportation_data : option market;
  pricing_info : list Z
}.

(** [d[key]] on the request. *)
Definition index {A} (value : option A) : outcome A :=
  match value with
  | Some v => Ok v
  | None => Raise KeyError
  end.

(** [min(prices)] and [max(prices)] of a list that is not empty. *)
Definition list_min (x : Z) (l : list Z) : Z := fold_left Z.min l x.
Definition list_max (x : Z) (l : list Z) : Z := fold_left Z.max l x.

(** The dict built from one general-answer result. *)
Definition market_of (a : ddg_answer) : outcome market :=
  let all_text :=
    abstract a ++ str " " ++ answer a ++ str " " ++ join (str " ") (topics a) in
  prices <- extract_prices_from_text U (Some all_text) ;;
  Ok {| info := a;
        prices_found := prices;
        price_range :=
          match prices with
          | [] => str "Current pricing available"
          | p :: rest =>
              str "Rs. " ++ format_comma (list_min p rest)
              ++ str " - Rs. " ++ format_comma (list_max p rest)
          end |}.

Definition market_query (w : web) (query : pystr) : outcome (option market) :=
  match duckduckgo_search w query with
  | Some a => m <- market_of a ;; Ok (Some m)
  | None => Ok None
  end.

Definition gather_travel_data (w : web) (ud : user_data)
  : outcome travel_data :=
  destination <- index (ud_destination ud) ;;
  let wiki_data := wikipedia_search w destination in
  let location_data := openstreetmap_search w destination in
  let hotel_query := destination ++ str " hotels accommodation price" in
  accommodation <- market_query w hotel_query ;;
  departure_city <- index (ud_departure_city ud) ;;
  let transport_query :=
    departure_city ++ str " to " ++ destination
    ++ str " flight train bus price" in
  transportation <- market_query w transport_query ;;
  Ok {| destination_info := wiki_data;
        coordinates := location_data;
        accommodation_data := accommodation;
        transportation_data := transportation;
        pricing_info := [] |}.

(** The answer of the hosted model: a text, or an exception with its
    message. *)
Inductive completion :=
| Content (text : pystr)
| ApiException (message : pystr).

(** The client: absent when no API key is configured, else the answer to
    the prompt that the method builds from the request and the travel
    data. *)
Definition groq_client := option (user_data -> travel_data -> completion).

Definition generate_trip_plan_with_data (client : groq_client)
    (ud : user_data) (td : travel_data) : pystr :=
  match client with
  | None => str "Error: AI service is not available."
  | Some create =>
      match create ud td with
      | Content text => text
      | ApiException message =>
          str "An error occurred while generating the trip plan: " ++ message
      end
  end.

(** What the form returns when the script runs. *)
Record form := {
  f_button : bool;
  f_name : pystr;
  f_email : pystr;
  f_mobile : pystr;
  f_emergency_contact : pystr;
  f_departure_city : pystr;
  f_destination : pystr;
  f_departure_date : date;
  f_return_date : date;
  f_num_travelers : Z;
  f_trip_type : pystr;
  f_total_budget : Z;
  f_accommodation_pct : Z;
  f_transport_pct : Z;
  f_food_pct : Z;
  f_activities_pct : Z;
  f_transport_mode : list pystr;
  f_travel_pace : pystr;
  f_interests : list pystr;
  f_dietary_pref : pystr
}.

(** The dict that [collect_user_inputs] fills: every key is present. *)
Definition collect_user_inputs (f : form) : user_data := {|
  ud_name := Some (f_name f);
  ud_email := Some (f_email f);
  ud_mobile := Some (f_mobile f);
  ud_emergency_contact := Some (f_emergency_contact f);
  ud_departure_city := Some (f_departure_city f);
  ud_destination := Some (f_destination f);
  ud_departure_date := Some (f_departure_date f);
  ud_return_date := Some (f_return_date f);
  ud_num_travelers := Some (f_num_travelers f);
  ud_trip_type := Some (f_trip_type f);
  ud_total_budget := Some (f_total_budget f);
  ud_accommodation_pct := Some (f_accommodation_pct f);
  ud_transport_pct := Some (f_transport_pct f);
  ud_food_pct := Some (f_food_pct f);
  ud_activities_pct := Some (f_activities_pct f);
  ud_transport_mode := Some (f_transport_mode f);
  ud_travel_pace := Some (f_travel_pace f);
  ud_interests := Some (f_interests f);
  ud_dietary_pref := Some (f_dietary_pref f)
|}.

(** What the run shows and does, in order. *)
Inductive event :=
| error_missing_fields (missing : list pystr)
| error_return_before_departure
| error_no_transport
| error_invalid_email
| error_generation_failed (trip_plan : pystr)
| error_mail_not_configured
| error_pdf_failed
| error_send_failed
| warning_delivery_failed
| gathered (td : travel_data)                 (* gather_travel_data returned *)
| generated (trip_plan : pystr)               (* the generation returned *)
| plan_shown (trip_plan : pystr)              (* st.markdown(trip_plan) *)
| assembled (document : list pdf_call)        (* create_structured_pdf returned *)
| submitted (recipient : pystr) (document : list pdf_call)   (* the SMTP session *)
| success_shown (recipient : pystr)
| footer_shown.

(** The surroundings of one run. *)
Record world := {
  w_web : web;
  w_groq : groq_client;
  w_today : date;
  w_mail_configured : bool;                   (* the two mail secrets are set *)
  w_smtp_delivers : bool                      (* the SMTP session succeeds *)
}.

(** [send_email]: the events, and the boolean it returns. *)
Definition send_email (w : world) (user_email trip_plan : pystr)
    (ud : user_data) : list event * bool :=
  if negb (w_mail_configured w) then ([error_mail_not_configured], false)
  else
    match create_structured_pdf U (w_today w) trip_plan ud with
    | Raise _ => ([error_send_failed], false)
    | Ok [] => ([assembled []; error_pdf_failed], false)
    | Ok pdf_bytes =>
        if w_smtp_delivers w
        then ([assembled pdf_bytes; submitted user_email pdf_bytes], true)
        else ([assembled pdf_bytes; error_send_failed], false)
    end.

(** [^[a-zA-Z0-9._%+-]+@[a-zA-Z0-9.-]+\.[a-zA-Z]{2,}$] *)
Definition is_alpha (c : N) : bool :=
  ((97 <=? c) && (c <=? 122) || (65 <=? c) && (c <=? 90))%N.
Definition is_alnum (c : N) : bool :=
  is_alpha c || ((48 <=? c) && (c <=? 57))%N.
Definition local_char : regex :=
  Chr (fun c => is_alnum c
                || existsb (N.eqb c) [46; 95; 37; 43; 45]%N).
Definition domain_char : regex :=
  Chr (fun c => is_alnum c || existsb (N.eqb c) [46; 45]%N).
Definition email_pattern : regex :=
  seqs [Bos;
        local_char; Star local_char;
        lit 64;
        domain_char; Star domain_char;
        lit 46;
        Rep (Chr is_alpha) 2 2; Star (Chr is_alpha);
        Eos].

(** The required fields that are empty, by their titles. *)
Definition missing_fields (f : form) : list pystr :=
  (if pystr_eqb (f_name f) [] then [str "Name"] else [])
  ++ (if pystr_eqb (f_email f) [] then [str "Email"] else [])
  ++ (if pystr_eqb (f_destination f) [] then [str "Destination"] else [])
  ++ (if pystr_eqb (f_departure_city f) [] then [str "Departure City"] else [])
  ++ (if pystr_eqb (f_mobile f) [] then [str "Mobile"] else [])
  ++ (if f_total_budget f =? 0 then [str "Total Budget"] else []).

(** [run]: the events of the run, and the exception that ends it when one
    escapes. *)
Definition run (w : world) (f : form) : list event * option exn :=
  let user_data := collect_user_inputs f in
  if negb (f_button f) then ([footer_shown], None)
  else
    match missing_fields f with
    | (_ :: _) as missing => ([error_missing_fields missing], None)
    | [] =>
        if f_return_date f <? f_departure_date f
        then ([error_return_before_departure], None)
        else if match f_transport_mode f with [] => true | _ => false end
        then ([error_no_transport], None)
        else if negb (re_match email_pattern (f_email f))
        then ([error_invalid_email], None)
        else
          match gather_travel_data (w_web w) user_data with
          | Raise e => ([], Some e)
          | Ok td =>
              let trip_plan :=
                generate_trip_plan_with_data (w_groq w) user_data td in
              let shown :=
                match trip_plan with
                | [] => false
                | _ :: _ => negb (startswith (str "An error") trip_plan)
                end in
              if shown
              then
                let '(mail_events, sent) :=
                  send_email w (f_email f) trip_plan user_data in
                ([gathered td; generated trip_plan; plan_shown trip_plan]
                 ++ mail_events
                 ++ (if sent then [success_shown (f_email f)]
                     else [warning_delivery_failed])
                 ++ [footer_shown], None)
              else
                ([gathered td; generated trip_plan;
                  error_generation_failed trip_plan; footer_shown], None)
          end
    end.

End Planner.

(* ================================================================== *)
(** ** The specification's reading of the theme assignment *)

(** The fixed priority order of interests and the theme of each. *)
Definition theme_priority : list (pystr * pystr) := [
  (str "History", str "Historical Exploration");
  (str "Nature", str "Nature and Relaxation");
  (str "Food", str "Culinary Adventure");
  (str "Culture", str "Cultural Immersion");
  (str "Adventure", str "Adventure Activities");
  (str "Shopping", str "Shopping and Markets")
].

(** The themes of the selected interests in priority order, or the default
    cycle of three when none of the six is selected. *)
Definition spec_theme_list (interests : list pystr) : list pystr :=
  match List.map snd
          (List.filter (fun p => str_in (fst p) interests) theme_priority) with
  | [] => [str "City Exploration"; str "Cultural Tour"; str "Nature Walk"]
  | chosen => chosen
  end.

(* ================================================================== *)
(** ** The specification's reading of the text cleaning *)

(** The non-ASCII characters that have a replacement. *)
Definition listed_replacements : list (N * pystr) := [
  (8377%N, str "Rs.");                      (* rupee sign *)
  (8226%N, str "-");                        (* bullet *)
  (8209%N, str "-");                        (* non-breaking hyphen *)
  (8211%N, str "-");                        (* en dash *)
  (8212%N, str "-");                        (* em dash *)
  (8230%N, str "...");                      (* ellipsis *)
  (176%N, str " degrees");                  (* degree sign *)
  (215%N, str "x");                         (* multiplication sign *)
  (247%N, str "/");                         (* division sign *)
  (233%N, str "e"); (232%N, str "e"); (234%N, str "e"); (235%N, str "e");
  (224%N, str "a"); (225%N, str "a"); (226%N, str "a"); (228%N, str "a");
  (231%N, str "c");
  (241%N, str "n")
].

Fixpoint assoc (c : N) (table : list (N * pystr)) : option pystr :=
  match table with
  | [] => None
  | (k, v) :: rest => if (c =? k)%N then Some v else assoc c rest
  end.

(** A listed character becomes its replacement, any other non-ASCII
    character is dropped, an ASCII character stays. *)
Definition ascii_fold (c : N) : pystr :=
  match assoc c listed_replacements with
  | Some v => v
  | None => if is_ascii c then [c] else []
  end.

(* ================================================================== *)
(** ** Reading the document *)

(** The headings of the day entries: the texts of the cells that begin
    with ["Day "].  The heading of the exploration days as a group begins
    with ["Days"] and is none of them. *)
Definition day_headings (calls : list pdf_call) : list pystr :=
  flat_map (fun c =>
              match c with
              | cell _ _ txt _ _ _ _ =>
                  if startswith (str "Day ") txt then [txt] else []
              | _ => []
              end) calls.

Definition arrival_heading (d : date) : pystr :=
  str "Day 1 - " ++ strftime_ymd d ++ str " - Arrival Day".

Definition exploration_heading (interests : list pystr) (day_num : Z) : pystr :=
  str "Day " ++ format_int day_num ++ str ": " ++ get_day_theme day_num interests.

Definition departure_heading (day_num : Z) (d : date) : pystr :=
  str "Day " ++ format_int day_num ++ str " - " ++ strftime_ymd d
  ++ str " - Departure Day".


(* ================================================================== *)
(** ** Sample requests *)

(** Five days in Delhi for two, from 2024-01-10 to 2024-01-14, with the
    interests History and Food. *)
Definition trip_to_delhi : user_data := {|
  ud_name := Some (str "Asha Rao");
  ud_email := Some (str "asha@example.com");
  ud_mobile := Some (str "+91 9876543210");
  ud_emergency_contact := Some (str "Ravi: +91 9876543211");
  ud_departure_city := Some (str "Mumbai");
  ud_destination := Some (str "Delhi");
  ud_departure_date := Some 738895;
  ud_return_date := Some 738899;
  ud_num_travelers := Some 2;
  ud_trip_type := Some (str "Friends");
  ud_total_budget := Some 100000;
  ud_accommodation_pct := Some 40;
  ud_transport_pct := Some 25;
  ud_food_pct := Some 20;
  ud_activities_pct := Some 15;
  ud_transport_mode := Some [str "Flight"];
  ud_travel_pace := Some (str "Moderate");
  ud_interests := Some [str "Food"; str "History"];
  ud_dietary_pref := Some (str "Vegetarian")
|}.

(** A request without any key. *)
Definition empty_request : user_data := {|
  ud_name := None; ud_email := None; ud_mobile := None;
  ud_emergency_contact := None; ud_departure_city := None;
  ud_destination := None; ud_departure_date := None; ud_return_date := None;
  ud_num_travelers := None; ud_trip_type := None; ud_total_budget := None;
  ud_accommodation_pct := None; ud_transport_pct := None;
  ud_food_pct := None; ud_activities_pct := None; ud_transport_mode := None;
  ud_travel_pace := None; ud_interests := None; ud_dietary_pref := None
|}.

(* ================================================================== *)
(** ** Sample runs *)

(** The form of the sample request, submitted. *)
Definition delhi_form : form := {|
  f_button := true;
  f_name := str "Asha Rao";
  f_email := str "asha@example.com";
  f_mobile := str "+91 9876543210";
  f_emergency_contact := str "Ravi: +91 9876543211";
  f_departure_city := str "Mumbai";
  f_destination := str "Delhi";
  f_departure_date := 738895;
  f_return_date := 738899;
  f_num_travelers := 2;
  f_trip_type := str "Friends";
  f_total_budget := 100000;
  f_accommodation_pct := 40;
  f_transport_pct := 25;
  f_food_pct := 20;
  f_activities_pct := 15;
  f_transport_mode := [str "Flight"];
  f_travel_pace := str "Moderate";
  f_interests := [str "Food"; str "History"];
  f_dietary_pref := str "Vegetarian"
|}.


(** Providers that answer nothing. *)
Definition silent_web : web unit unit := {|
  wikipedia_search := fun _ => None;
  openstreetmap_search := fun _ => None;
  duckduckgo_search := fun _ => None
|}.

(** A world with a model that answers, and working mail. *)
Definition working_world : world unit unit := {|
  w_web := silent_web;
  w_groq := Some (fun _ _ => Content (str "# Delhi Trip Plan"));
  w_today := 738800;
  w_mail_configured := true;
  w_smtp_delivers := true
|}.

(** The same world without an API key. *)
Definition world_without_ai : world unit unit := {|
  w_web := silent_web;
  w_groq := None;
  w_today := 738800;
  w_mail_configured := true;
  w_smtp_delivers := true
|}.

(* ================================================================== *)
(** ** Reading a run *)



(** The checks of [run] before the pipeline. *)
Definition passes_validation (f : form) : bool :=
  match missing_fields f with [] => true | _ :: _ => false end
  && negb (f_return_date f <? f_departure_date f)
  && match f_transport_mode f with [] => false | _ :: _ => true end
  && re_match email_pattern (f_email f).


(* ================================================================== *)
(** ** Further readings of the document *)

(** The nine themes of the catalog. *)
Definition all_themes : list pystr :=
  List.map snd theme_priority
  ++ [str "City Exploration"; str "Cultural Tour"; str "Nature Walk"].

(** The cost per person of one exploration day: the three periods and the
    fixed 1500. *)
Definition day_cost_per_person (a : template) : Z :=
  morning_cost a + afternoon_cost a + evening_cost a + 1500.

(** Every text of a [multi_cell] call is ASCII. *)
Definition multi_cells_ascii (calls : list pdf_call) : Prop :=
  Forall (fun c =>
            match c with
            | multi_cell _ _ txt => Forall (fun x => (x < 128)%N) txt
            | _ => True
            end) calls.

(** The titles of the sections: the texts of the cells that a rule
    follows, which is how [add_section_header] underlines its title. *)
Fixpoint section_titles (calls : list pdf_call) : list pystr :=
  match calls with
  | [] => []
  | c :: rest =>
      match c, rest with
      | cell _ _ txt _ _ _ _, set_line_width_half :: _ =>
          txt :: section_titles rest
      | _, _ => section_titles rest
      end
  end.

(** No call sets the line width: the calls are outside every section
    header. *)
Definition rule_free (calls : list pdf_call) : Prop :=
  Forall (fun c => c <> set_line_width_half) calls.

(** A request that returns five days before it departs, and has no other
    key. *)
Definition backwards_request : user_data := {|
  ud_name := None; ud_email := None; ud_mobile := None;
  ud_emergency_contact := None; ud_departure_city := None;
  ud_destination := None; ud_departure_date := Some 738895;
  ud_return_date := Some 738890; ud_num_travelers := None;
  ud_trip_type := None; ud_total_budget := None;
  ud_accommodation_pct := None; ud_transport_pct := None;
  ud_food_pct := None; ud_activities_pct := None; ud_transport_mode := None;
  ud_travel_pace := None; ud_interests := None; ud_dietary_pref := None
|}.

(** Providers of which only the general-answer search has something to
    say, the same for every query. *)
Definition hotel_answer : ddg_answer := {|
  abstract := str "Budget hotels from Rs. 1,200 per night";
  answer := str "Luxury stays cost 9,500 rupees";
  topics := [str "Price: 4,000"; str "Hostels INR 450"]
|}.

Definition answering_web : web unit unit := {|
  wikipedia_search := fun _ => None;
  openstreetmap_search := fun _ => None;
  duckduckgo_search := fun _ => Some hotel_answer
|}.

(** A property of calls that every call has which is neither a
    [multi_cell] nor the setting of the line width, and that a
    [multi_cell] of a cleaned text has. *)
Definition holds_outside_headers (P : pdf_call -> Prop) : Prop :=
  (forall c,
     match c with
     | multi_cell _ _ _ | set_line_width_half => True
     | _ => P c
     end)
  /\ (forall w h text, P (multi_cell w h (clean_text_for_pdf text))).

(** The calls do not begin with the setting of the line width. *)
Definition starts_clean (calls : list pdf_call) : Prop :=
  match calls with
  | set_line_width_half :: _ => False
  | _ => True
  end.

(** The titles of the nine sections as the document shows them: the
    pictograph that opens each title in the source is no ASCII character
    and is dropped, the space after it stays. *)
Definition document_sections : list pystr := [
  str " Trip Overview";
  str " Day-by-Day Itinerary";
  str " Budget Breakdown";
  str " Where to Stay - Detailed Recommendations";
  str " Transportation Guide";
  str " Food & Dining - Complete Guide";
  str " Packing Essentials - Complete Checklist";
  str " Local Tips & Cultural Guidelines";
  str " Emergency Contacts & Important Information"
].

(** A section as a title and the calls after its header; the calls of a
    list of sections. *)
Definition section_calls (s : pystr * list pdf_call) : list pdf_call :=
  add_section_header (fst s) ++ snd s.

Definition sections_calls (secs : list (pystr * list pdf_call))
  : list pdf_call :=
  List.concat (List.map section_calls secs).

(** The form of the Delhi trip for Tokyo, written in its own script. *)
Definition tokyo_form : form := {|
  f_button := true;
  f_name := f_name delhi_form;
  f_email := f_email delhi_form;
  f_mobile := f_mobile delhi_form;
  f_emergency_contact := f_emergency_contact delhi_form;
  f_departure_city := f_departure_city delhi_form;
  f_destination := [26481; 20140]%N;
  f_departure_date := f_departure_date delhi_form;
  f_return_date := f_return_date delhi_form;
  f_num_travelers := f_num_travelers delhi_form;
  f_trip_type := f_trip_type delhi_form;
  f_total_budget := f_total_budget delhi_form;
  f_accommodation_pct := f_accommodation_pct delhi_form;
  f_transport_pct := f_transport_pct delhi_form;
  f_food_pct := f_food_pct delhi_form;
  f_activities_pct := f_activities_pct delhi_form;
  f_transport_mode := f_transport_mode delhi_form;
  f_travel_pace := f_travel_pace delhi_form;
  f_interests := f_interests delhi_form;
  f_dietary_pref := f_dietary_pref delhi_form
|}.


(* ================================================================== *)
(** ** Predicates and inputs of the statements *)

Definition price_in_range (p : Z) : Prop := 300 <= p <= 500000.

(** A price of 310 digits: [rs1] and 103 groups [,000]. *)
Definition overflowing_text : pystr :=
  str "rs1" ++ List.concat (List.repeat (str ",000") 103).

(** The amounts of a budget of 100000 split 40/40/40/40, where the
    percentages sum to 160. *)
Definition overspent : breakdown := {|
  accommodation := 40000; transport := 40000; food := 40000;
  activities := 40000; miscellaneous := -60000
|}.

(** What the form can supply: a budget below [2^53] and four percentages
    between 0 and 100. *)
Definition form_budget (total_budget : Z) (pcts : list Z) : Prop :=
  0 <= total_budget < 2 ^ 53 /\ Forall (fun p => 0 <= p <= 100) pcts.

(** A budget the form accepts, and its share of 99 percent. *)
Definition large_budget : Z := 200000000000001.

(** The steps of [clean_text_for_pdf] on a text that is present. *)
Definition clean_body (t : pystr) : pystr :=
  encode_ascii_ignore
    (apply_replacements (sub_group italic_markup (sub_group bold_markup t))).


(** Plain characters: ASCII, no asterisk and no double quote. *)
Definition plain (c : N) : Prop :=
  is_ascii c = true /\ c <> 42%N /\ c <> 34%N.


(** The two substitutions of the markup. *)
Definition strip_markup (t : pystr) : pystr :=
  sub_group italic_markup (sub_group bold_markup t).

(** The one key of [replacements] with more than one character. *)
Definition long_key : pystr :=
  [58; 32; 34; 39; 34; 44; 10]%N ++ List.repeat 32%N 12.

(** The steps of the cleaning that act on ASCII characters: the markup is
    stripped and the long key is replaced. *)
Definition ascii_steps (t : pystr) : pystr :=
  replace long_key (str "'") (strip_markup t).

(** A replacement whose key is one character, as a function of the
    character. *)
Definition char_step (kv : N * pystr) (c : N) : pystr :=
  if (fst kv =? c)%N then snd kv else [c].

Definition char_steps (steps : list (N * pystr)) (t : pystr) : pystr :=
  fold_left (fun t kv => flat_map (char_step kv) t) steps t.

(** The keys of one character before the long key and after it. *)
Definition early_steps : list (N * pystr) := [
  (8377%N, str "Rs."); (8226%N, str "-"); (8209%N, str "-");
  (8211%N, str "-"); (8212%N, str "-")
].

Definition late_steps : list (N * pystr) := [
  (34%N, [34%N]); (8230%N, str "..."); (176%N, str " degrees");
  (215%N, str "x"); (247%N, str "/");
  (233%N, str "e"); (232%N, str "e"); (234%N, str "e"); (235%N, str "e");
  (224%N, str "a"); (225%N, str "a"); (226%N, str "a"); (228%N, str "a");
  (231%N, str "c"); (241%N, str "n")
].

Definition not_ascii (c : N) : bool := negb (is_ascii c).

Definition not_star (c : N) : bool := negb (c =? 42)%N.


(* ================================================================== *)
(** * Properties *)

(* ------------------------------------------------------------------ *)
(** ** Lists, sorting and loops *)

Lemma insert_sorted_In (x y : Z) (l : list Z) :
  In y (insert_sorted x l) <-> y = x \/ In y l.
Proof.
  induction l as [|z l IH]; simpl.
  - intuition.
  - destruct (x <=? z); simpl; rewrite ?IH; intuition.
Qed.

Lemma insert_sorted_strict (x : Z) (l : list Z) :
  StronglySorted Z.lt l -> ~ In x l -> StronglySorted Z.lt (insert_sorted x l).
Proof.
  induction l as [|z l IH]; simpl; intros Hs Hx.
  - constructor; constructor.
  - inversion Hs as [|? ? Hs' Hz]; subst.
    destruct (Z.leb_spec x z) as [Hle|Hgt].
    + assert (x < z) by lia.
      constructor; [assumption|].
      constructor; [assumption|].
      eapply Forall_impl; [|exact Hz]. simpl. intros; lia.
    + constructor.
      * apply IH; tauto.
      * apply Forall_forall. intros y Hy.
        apply (proj1 (insert_sorted_In _ _ _)) in Hy.
        destruct Hy as [->|Hy]; [lia|].
        rewrite Forall_forall in Hz. auto.
Qed.

Lemma sorted_In (x : Z) (l : list Z) : In x (sorted l) <-> In x l.
Proof.
  unfold sorted. induction l as [|y l IH]; simpl.
  - tauto.
  - rewrite insert_sorted_In, IH. intuition.
Qed.

Lemma sorted_strict (l : list Z) :
  NoDup l -> StronglySorted Z.lt (sorted l).
Proof.
  unfold sorted. induction 1 as [|x l Hx Hl IH]; simpl.
  - constructor.
  - apply insert_sorted_strict; [assumption|].
    fold (sorted l). rewrite sorted_In. assumption.
Qed.

Lemma strict_NoDup (l : list Z) : StronglySorted Z.lt l -> NoDup l.
Proof.
  induction 1 as [|x l Hs IH Hx]; constructor; auto.
  intro Hin. rewrite Forall_forall in Hx. specialize (Hx _ Hin). lia.
Qed.

(** A loop keeps what each of its turns keeps. *)
Lemma for_each_invariant {A B} (P : B -> Prop) (step : B -> A -> outcome B)
    (xs : list A) :
  (forall acc x acc', P acc -> step acc x = Ok acc' -> P acc') ->
  forall acc acc', P acc -> for_each step xs acc = Ok acc' -> P acc'.
Proof.
  intros Hstep. induction xs as [|x xs IH]; simpl; intros acc acc' Hacc Hrun.
  - injection Hrun as <-. assumption.
  - destruct (step acc x) as [acc1|e] eqn:E; simpl in Hrun; [|discriminate].
    eapply IH; [|eassumption]. eapply Hstep; eassumption.
Qed.

(* ------------------------------------------------------------------ *)
(** ** Price extraction *)

Section PriceExtraction.

Variable U : unicode_tables.

Lemma collect_price_in_range (prices prices' : list Z) (m : pystr) :
  Forall price_in_range prices ->
  collect_price U prices m = Ok prices' ->
  Forall price_in_range prices'.
Proof.
  unfold collect_price. intros Hp.
  destruct (price_of_match U m) as [price|[]]; simpl; try discriminate.
  - destruct (Z.leb_spec 300 price), (Z.leb_spec price 500000); simpl;
      intros [= <-]; try assumption.
    apply Forall_app. split; [assumption|].
    constructor; [unfold price_in_range; lia|constructor].
  - intros [= <-]. assumption.
Qed.

Lemma collect_pattern_in_range (text : pystr) (prices prices' : list Z)
    (pattern : regex) :
  Forall price_in_range prices ->
  collect_pattern U text prices pattern = Ok prices' ->
  Forall price_in_range prices'.
Proof.
  unfold collect_pattern.
  apply for_each_invariant. intros; eapply collect_price_in_range; eassumption.
Qed.

(** Whatever the text, a list that the extraction returns is strictly
    ascending, so free of duplicates, and holds values of the accepted
    range only; an empty or absent text gives the empty list. *)
Lemma extract_prices_sound (text : option pystr) (l : list Z) :
  extract_prices_from_text U text = Ok l ->
  StronglySorted Z.lt l /\ NoDup l /\ Forall price_in_range l.
Proof.
  unfold extract_prices_from_text.
  assert (Hnil : Ok (@nil Z) = Ok l ->
                 StronglySorted Z.lt l /\ NoDup l /\ Forall price_in_range l).
  { intros [= <-]. repeat split; constructor. }
  destruct text as [[|c t]|]; try exact Hnil.
  destruct (for_each _ (rupee_patterns U) _) as [prices|e] eqn:E; simpl;
    [|discriminate].
  intros [= <-].
  assert (Hs : StronglySorted Z.lt (sorted (list_of_set prices))).
  { apply sorted_strict. apply NoDup_nodup. }
  repeat split; [assumption|apply strict_NoDup; assumption|].
  apply Forall_forall. intros p Hp.
  apply (proj1 (sorted_In _ _)) in Hp.
  unfold list_of_set in Hp. apply (proj1 (nodup_In _ _ _)) in Hp.
  revert p Hp. apply Forall_forall.
  eapply (for_each_invariant (Forall price_in_range)); [|constructor|exact E].
  intros; eapply collect_pattern_in_range; eassumption.
Qed.

Lemma extract_prices_empty :
  extract_prices_from_text U None = Ok []
  /\ extract_prices_from_text U (Some []) = Ok [].
Proof. split; reflexivity. Qed.

End PriceExtraction.

(** C3, at the text above: the second pattern matches the whole number, its
    float is infinity, and the conversion of infinity to an int raises
    [OverflowError], which the [except ValueError] clause does not catch:
    the extraction raises instead of returning a list. *)
Theorem extract_prices_overflow (U : unicode_tables) :
  extract_prices_from_text U (Some overflowing_text) = Raise OverflowError.
Proof. vm_compute. reflexivity. Qed.

(* ------------------------------------------------------------------ *)
(** ** Division by 100 through a float *)

Lemma shl_nonneg_exp (x e : Z) : 0 <= e -> shl x e = x * 2 ^ e.
Proof. intros. unfold shl. rewrite Z.max_l by lia. reflexivity. Qed.

Lemma shl_neg_exp (x e : Z) : e <= 0 -> shl x e = x.
Proof. intros. unfold shl. rewrite Z.max_r by lia. simpl. lia. Qed.

(** The last place of [n / 100] is at most [2^-6] below [100 * 2^47]. *)
Lemma ulp_exponent_small (n : Z) :
  0 < n < 100 * 2 ^ 47 -> -1074 <= ulp_exponent n 100 <= -6.
Proof.
  intros Hn. unfold ulp_exponent.
  change (Z.log2 100) with 6.
  assert (Hlog : Z.log2 n < 54).
  { apply Z.log2_lt_pow2; [lia|]. change (2 ^ 54) with (128 * 2 ^ 47). lia. }
  assert (0 <= Z.log2 n) by apply Z.log2_nonneg.
  cbv zeta.
  destruct (Z.ltb_spec (shl n (- (Z.log2 n - 6))) (shl 100 (Z.log2 n - 6)))
    as [Hlt|Hge]; cbv iota; [clear Hlt; lia|].
  destruct (Z_le_gt_dec 47 (Z.log2 n - 6)) as [Hbig|];
    [exfalso|clear Hge; lia].
  assert (Hneg : - (Z.log2 n - 6) <= 0) by (clear Hge; lia).
  assert (Hpos : 0 <= Z.log2 n - 6) by (clear Hge; lia).
  rewrite (shl_neg_exp _ Hneg), (shl_nonneg_exp _ Hpos) in Hge.
  assert (2 ^ 47 <= 2 ^ (Z.log2 n - 6)) by (apply Z.pow_le_mono_r; lia).
  lia.
Qed.

(** The arithmetic of the rounding: with at least six binary places after
    the point, rounding [n / 100] to the nearest multiple of [2^-t] never
    reaches the next integer. *)
Lemma round_keeps_floor (n T q r m : Z) :
  0 <= n -> 64 <= T ->
  n * T = 100 * q + r -> 0 <= r < 100 ->
  (m = q \/ (m = q + 1 /\ 100 <= 2 * r)) ->
  m / T = n / 100.
Proof.
  intros Hn HT Hq Hr Hm.
  pose proof (Z.div_mod n 100 ltac:(lia)) as Hdiv.
  pose proof (Z.mod_pos_bound n 100 ltac:(lia)) as Hmod.
  set (Q := n / 100) in *. set (R := n mod 100) in *.
  symmetry. apply Z.div_unique_pos with (r := m - Q * T); [|lia].
  assert (Hlow : Q * T <= q) by nia.
  destruct Hm as [->|[-> Hr2]]; split; try lia; nia.
Qed.

Lemma round_choice (den r q : Z) :
  let m := if (den <? 2 * r) || ((den =? 2 * r) && Z.odd q)
           then q + 1 else q in
  m = q \/ (m = q + 1 /\ den <= 2 * r).
Proof.
  cbv zeta.
  destruct (Z.ltb_spec den (2 * r)); cbn [orb andb]; [right; lia|].
  destruct (Z.eqb_spec den (2 * r)); cbn [orb andb]; [|left; reflexivity].
  destruct (Z.odd q); [right; lia|left; reflexivity].
Qed.

(** Below [100 * 2^47] the amount is the exact floor. *)
Lemma percent_exact (n : Z) :
  0 <= n < 100 * 2 ^ 47 ->
  (x <- truediv n 100 ;; int_of_float x) = Ok (n / 100).
Proof.
  intros Hn. unfold truediv. change (100 =? 0) with false. cbv iota.
  destruct (Z.eqb_spec n 0) as [->|Hnz]; [reflexivity|].
  replace (n <? 0) with false by (symmetry; apply Z.ltb_ge; lia).
  change (100 <? 0) with false. cbn [xorb].
  rewrite Z.abs_eq by lia. change (Z.abs 100) with 100.
  pose proof (ulp_exponent_small (n := n) ltac:(lia)) as He.
  unfold round_ratio. cbv zeta.
  remember (ulp_exponent n 100) as e eqn:Ee. clear Ee.
  rewrite (shl_nonneg_exp n (e := - e)) by lia.
  rewrite (shl_neg_exp 100 (e := e)) by lia.
  assert (HT : 64 <= 2 ^ (- e)).
  { change 64 with (2 ^ 6). apply Z.pow_le_mono_r; lia. }
  assert (HTe : 2 ^ 54 * 2 ^ (- e) < 2 ^ (1024 - e)).
  { rewrite <- Z.pow_add_r by lia. apply Z.pow_lt_mono_r; lia. }
  remember (2 ^ (- e)) as T eqn:ET.
  pose proof (Z.div_mod (n * T) 100 ltac:(lia)) as Hdiv.
  pose proof (Z.mod_pos_bound (n * T) 100 ltac:(lia)) as Hmod.
  assert (Hq0 : 0 <= n * T / 100) by (apply Z.div_pos; nia).
  pose proof (round_choice 100 ((n * T) mod 100) (n * T / 100)) as Hm.
  cbv zeta in Hm.
  remember (n * T / 100) as q eqn:Eq.
  remember ((n * T) mod 100) as r eqn:Er.
  remember (if (100 <? 2 * r) || ((100 =? 2 * r) && Z.odd q)
            then q + 1 else q) as m eqn:Em.
  clear Eq Er Em.
  pose proof (round_keeps_floor (n := n) (T := T) (q := q) (r := r) (m := m)
                ltac:(lia) HT Hdiv Hmod Hm) as Hfloor.
  assert (Hm0 : 0 <= m) by lia.
  assert (Hfin : (1024 <=? Z.log2 m + e) = false).
  { apply Z.leb_gt.
    destruct (Z.eq_dec m 0) as [->|]; [change (Z.log2 0) with 0; lia|].
    assert (Z.log2 m < 1024 - e); [|lia].
    apply Z.log2_lt_pow2; [lia|].
    assert (m <= n * T + 1) by nia.
    assert (n * T + 1 <= 2 ^ 54 * T).
    { change (2 ^ 54) with (128 * 2 ^ 47). nia. }
    lia. }
  rewrite Hfin. cbn [bind]. unfold int_of_float.
  replace (0 <=? e) with false by (symmetry; apply Z.leb_gt; lia).
  rewrite <- ET, Hfloor. reflexivity.
Qed.

Lemma ulp_exponent_bounds (n : Z) :
  0 < n < 2 ^ 60 -> -1074 <= ulp_exponent n 100 <= 1.
Proof.
  intros Hn. unfold ulp_exponent.
  change (Z.log2 100) with 6.
  assert (Hlog : Z.log2 n < 60) by (apply Z.log2_lt_pow2; lia).
  cbv zeta.
  destruct (shl n (- (Z.log2 n - 6)) <? shl 100 (Z.log2 n - 6)); lia.
Qed.

(** On every product that the form can supply the division returns. *)
Lemma percent_returns (n : Z) :
  0 <= n < 2 ^ 60 ->
  exists z, (x <- truediv n 100 ;; int_of_float x) = Ok z.
Proof.
  intros Hn. unfold truediv. change (100 =? 0) with false. cbv iota.
  destruct (Z.eqb_spec n 0) as [->|Hnz]; [eexists; reflexivity|].
  replace (n <? 0) with false by (symmetry; apply Z.ltb_ge; lia).
  change (100 <? 0) with false. cbn [xorb].
  rewrite Z.abs_eq by lia. change (Z.abs 100) with 100.
  pose proof (ulp_exponent_bounds (n := n) ltac:(lia)) as He.
  unfold round_ratio. cbv zeta.
  remember (ulp_exponent n 100) as e eqn:Ee. clear Ee.
  unfold shl.
  assert (Hp1 : 0 < 2 ^ Z.max (- e) 0) by (apply Z.pow_pos_nonneg; lia).
  assert (Hp2 : 0 < 2 ^ Z.max e 0) by (apply Z.pow_pos_nonneg; lia).
  assert (Hbig : 2 ^ 61 * 2 ^ Z.max (- e) 0 < 2 ^ (1024 - e)).
  { rewrite <- Z.pow_add_r by lia. apply Z.pow_lt_mono_r; lia. }
  remember (2 ^ Z.max (- e) 0) as T1 eqn:E1.
  remember (2 ^ Z.max e 0) as T2 eqn:E2.
  clear E1 E2.
  pose proof (Z.div_mod (n * T1) (100 * T2) ltac:(lia)) as Hdiv.
  pose proof (Z.mod_pos_bound (n * T1) (100 * T2) ltac:(lia)) as Hmod.
  assert (Hq0 : 0 <= n * T1 / (100 * T2)) by (apply Z.div_pos; nia).
  pose proof (round_choice (100 * T2) ((n * T1) mod (100 * T2))
                (n * T1 / (100 * T2))) as Hm.
  cbv zeta in Hm.
  remember (n * T1 / (100 * T2)) as q eqn:Eq.
  remember ((n * T1) mod (100 * T2)) as r eqn:Er.
  remember (if (100 * T2 <? 2 * r) || ((100 * T2 =? 2 * r) && Z.odd q)
            then q + 1 else q) as m eqn:Em.
  clear Eq Er Em.
  assert (Hfin : (1024 <=? Z.log2 m + e) = false).
  { apply Z.leb_gt.
    destruct (Z.eq_dec m 0) as [->|]; [change (Z.log2 0) with 0; lia|].
    assert (Z.log2 m < 1024 - e); [|lia].
    apply Z.log2_lt_pow2; [lia|].
    assert (q <= n * T1) by nia.
    assert (n * T1 + 1 <= 2 ^ 61 * T1).
    { change (2 ^ 61) with (2 * 2 ^ 60). nia. }
    lia. }
  rewrite Hfin. cbn [bind int_of_float]. eexists. reflexivity.
Qed.

(* ------------------------------------------------------------------ *)
(** ** Budget allocation *)

Lemma percent_of_form (total_budget pct : Z) :
  0 <= total_budget < 2 ^ 53 -> 0 <= pct <= 100 ->
  exists z, percent_of total_budget pct = Ok z.
Proof.
  intros HB Hp. apply percent_returns.
  change (2 ^ 60) with (128 * 2 ^ 53). nia.
Qed.

(** C1.  Whatever the budget and the percentages, the five amounts that the
    allocation produces sum to the budget, the miscellaneous amount being
    the budget minus the other four, and the table shows that amount as it
    is, with its sign; it is negative for percentages summing to 160.  The
    allocation produces its amounts on every input of the form. *)
Theorem budget_amounts_sum_to_total (B pa pt pf pc : Z) :
  (forall b, budget_allocations B pa pt pf pc = Ok b ->
     accommodation b + transport b + food b + activities b + miscellaneous b = B
     /\ miscellaneous b
        = B - (accommodation b + transport b + food b + activities b)
     /\ forall ud,
          nth 4 (budget_data ud b) []
          = [str "Miscellaneous"; str "Rs. " ++ format_comma (miscellaneous b);
             str "Shopping and emergency fund"])
  /\ (form_budget B [pa; pt; pf; pc] ->
      exists b, budget_allocations B pa pt pf pc = Ok b)
  /\ (budget_allocations 100000 40 40 40 40 = Ok overspent
      /\ miscellaneous overspent < 0).
Proof.
  split; [|split].
  - intros b. unfold budget_allocations.
    destruct (percent_of B pa) as [a|]; [|discriminate].
    destruct (percent_of B pt) as [t|]; [|discriminate].
    destruct (percent_of B pf) as [f|]; [|discriminate].
    destruct (percent_of B pc) as [c|]; [|discriminate].
    cbn [bind]. intros [= <-]. cbn [accommodation transport food activities miscellaneous].
    repeat split. lia.
  - intros [HB Hp]. unfold budget_allocations.
    inversion Hp as [|? ? Ha Hp1]; subst. inversion Hp1 as [|? ? Ht Hp2]; subst.
    inversion Hp2 as [|? ? Hf Hp3]; subst. inversion Hp3 as [|? ? Hc _]; subst.
    destruct (percent_of_form HB Ha) as [a ->].
    destruct (percent_of_form HB Ht) as [t ->].
    destruct (percent_of_form HB Hf) as [f ->].
    destruct (percent_of_form HB Hc) as [c ->].
    cbn [bind]. eexists. reflexivity.
  - split; [vm_compute; reflexivity|]. cbn. lia.
Qed.

Lemma budget_amounts_sum_to_total_witness :
  form_budget 100000 [40; 25; 20; 10]
  /\ budget_allocations 100000 40 25 20 10
     = Ok {| accommodation := 40000; transport := 25000; food := 20000;
             activities := 10000; miscellaneous := 5000 |}
  /\ 40000 + 25000 + 20000 + 10000 + 5000 = 100000.
Proof.
  assert (Hf : form_budget 100000 [40; 25; 20; 10]).
  { split; [lia|]. repeat constructor; lia. }
  split; [exact Hf|].
  destruct (budget_amounts_sum_to_total 100000 40 25 20 10) as [Hsum _].
  assert (Hb : budget_allocations 100000 40 25 20 10
               = Ok {| accommodation := 40000; transport := 25000;
                       food := 20000; activities := 10000;
                       miscellaneous := 5000 |})
    by (vm_compute; reflexivity).
  split; [exact Hb|].
  exact (proj1 (Hsum _ Hb)).
Defined.

(** C5, at a budget of 200,000,000,000,001 and 99 percent: the product
    divided by 100 is 198000000000000.99, which lies between two floats
    that are 1/32 apart, rounds up to the integer above, and the amount is
    one more than the floor. *)
Theorem percent_of_large_budget :
  percent_of large_budget 99 = Ok 198000000000001
  /\ large_budget * 99 / 100 = 198000000000000
  /\ 0 <= large_budget < 2 ^ 53.
Proof. vm_compute. repeat split; congruence. Qed.

(** Below 100 * 2^47 the claim of C5 holds: every budget under
    1.4 * 10^14 gets the exact floor for every percentage of the form. *)
Lemma percent_of_floor (total_budget pct : Z) :
  0 <= total_budget -> 0 <= pct <= 100 ->
  total_budget * pct < 100 * 2 ^ 47 ->
  percent_of total_budget pct = Ok (total_budget * pct / 100).
Proof.
  intros HB Hp Hn. unfold percent_of. apply percent_exact. nia.
Qed.

(* ------------------------------------------------------------------ *)
(** ** Theme assignment *)

Lemma day_themes_refines (interests : list pystr) :
  day_themes interests = spec_theme_list interests.
Proof.
  unfold day_themes, spec_theme_list, theme_priority.
  cbn [List.filter List.map fst snd].
  destruct (str_in (str "History") interests);
  destruct (str_in (str "Nature") interests);
  destruct (str_in (str "Food") interests);
  destruct (str_in (str "Culture") interests);
  destruct (str_in (str "Adventure") interests);
  destruct (str_in (str "Shopping") interests);
  reflexivity.
Qed.

Lemma spec_theme_list_nonempty (interests : list pystr) :
  (0 < List.length (spec_theme_list interests))%nat.
Proof.
  unfold spec_theme_list.
  destruct (List.map snd _); simpl; lia.
Qed.

(** C4.  The theme list of the code is the list of the specification: the
    themes of the selected interests in the priority order History, Nature,
    Food, Culture, Adventure, Shopping, or the three default themes when
    none is selected.  It is never empty, the theme of day [d] is the
    element at index [(d - 2) mod L], and days [d] and [d + L] have the
    same theme. *)
Theorem theme_assignment (d : Z) (interests : list pystr) :
  let themes := spec_theme_list interests in
  let L := Z.of_nat (List.length themes) in
  day_themes interests = themes
  /\ 0 <= (d - 2) mod L < L
  /\ get_day_theme d interests = nth (Z.to_nat ((d - 2) mod L)) themes []
  /\ In (get_day_theme d interests) themes
  /\ get_day_theme (d + L) interests = get_day_theme d interests.
Proof.
  cbv zeta.
  pose proof (spec_theme_list_nonempty interests) as Hlen.
  assert (Hmod : forall x,
            0 <= x mod Z.of_nat (List.length (spec_theme_list interests))
              < Z.of_nat (List.length (spec_theme_list interests)))
    by (intro x; apply Z.mod_pos_bound; lia).
  assert (Hget : forall x, get_day_theme x interests
                 = nth (Z.to_nat ((x - 2)
                          mod Z.of_nat (List.length (spec_theme_list interests))))
                       (spec_theme_list interests) []).
  { intro x. unfold get_day_theme. rewrite day_themes_refines. reflexivity. }
  split; [apply day_themes_refines|].
  split; [apply Hmod|].
  split; [apply Hget|].
  split.
  - rewrite Hget. apply nth_In. specialize (Hmod (d - 2)). lia.
  - rewrite !Hget.
    replace (d + Z.of_nat (List.length (spec_theme_list interests)) - 2)
      with (d - 2 + 1 * Z.of_nat (List.length (spec_theme_list interests)))
      by lia.
    rewrite Z_mod_plus_full. reflexivity.
Qed.

(** The selections of one, two and no listed interest. *)
Example theme_assignment_history_food :
  List.map (fun d => get_day_theme d [str "Food"; str "History"]) [2; 3; 4]
  = [str "Historical Exploration"; str "Culinary Adventure";
     str "Historical Exploration"].
Proof. reflexivity. Qed.

Example theme_assignment_default :
  List.map (fun d => get_day_theme d [str "Beaches"]) [2; 3; 4; 5]
  = [str "City Exploration"; str "Cultural Tour"; str "Nature Walk";
     str "City Exploration"].
Proof. reflexivity. Qed.

(* ------------------------------------------------------------------ *)
(** ** Strings *)

Lemma startswith_cons_neq (k0 c : N) (krest rest : pystr) :
  c <> k0 -> startswith (k0 :: krest) (c :: rest) = false.
Proof.
  intros Hne. simpl. destruct (N.eqb_spec k0 c); [congruence|reflexivity].
Qed.


Lemma startswith_app (p t : pystr) : startswith p (p ++ t) = true.
Proof.
  induction p as [|c p IH]; [reflexivity|].
  simpl. rewrite N.eqb_refl. exact IH.
Qed.

Lemma startswith_In (old text : pystr) (x : N) :
  startswith old text = true -> In x old -> In x text.
Proof.
  revert text. induction old as [|k old IH]; intros [|c text]; simpl;
    try discriminate; try tauto.
  destruct (N.eqb_spec k c) as [->|]; [|discriminate]. simpl.
  intros Hs [->|Hin]; [left; reflexivity|right; apply IH; assumption].
Qed.

Lemma replace_go_absent (x : N) (old new : pystr) (fuel : nat) (text : pystr) :
  In x old -> ~ In x text -> replace_go fuel old new text = text.
Proof.
  intros Hold. revert text.
  induction fuel as [|fuel IH]; intros [|c rest] Hx; simpl; try reflexivity.
  destruct (startswith old (c :: rest)) eqn:Hs.
  - exfalso. apply Hx. eapply startswith_In; eassumption.
  - rewrite IH; [reflexivity|]. simpl in Hx. tauto.
Qed.

(** A key with a character that the text lacks replaces nothing. *)
Lemma replace_absent (x : N) (old new text : pystr) :
  In x old -> ~ In x text -> replace old new text = text.
Proof. apply replace_go_absent. Qed.

Lemma replace_go_prefix (k0 : N) (krest new p t : pystr) (fuel : nat) :
  Forall (fun c => c <> k0) p ->
  replace_go (List.length p + fuel) (k0 :: krest) new (p ++ t)
  = p ++ replace_go fuel (k0 :: krest) new t.
Proof.
  induction 1 as [|c p Hc Hp IH]; [reflexivity|].
  cbn [List.length Nat.add app replace_go].
  rewrite (startswith_cons_neq krest (p ++ t) Hc). rewrite IH. reflexivity.
Qed.

(** Characters that do not begin the key stay at the front of the text. *)
Lemma replace_prefix (k0 : N) (krest new p t : pystr) :
  Forall (fun c => c <> k0) p ->
  replace (k0 :: krest) new (p ++ t) = p ++ replace (k0 :: krest) new t.
Proof.
  intros Hp. unfold replace. rewrite length_app. apply replace_go_prefix, Hp.
Qed.

Lemma replace_go_single (k : N) (v text : pystr) (fuel : nat) :
  (List.length text <= fuel)%nat ->
  replace_go fuel [k] v text
  = flat_map (fun c => if (k =? c)%N then v else [c]) text.
Proof.
  revert text. induction fuel as [|fuel IH]; intros [|c rest] Hlen;
    simpl in *; try reflexivity; try lia.
  rewrite andb_true_r. destruct (k =? c)%N.
  - rewrite IH by lia. reflexivity.
  - rewrite IH by lia. reflexivity.
Qed.

(** A key of one character is replaced character by character. *)
Lemma replace_single (k : N) (v text : pystr) :
  replace [k] v text = flat_map (fun c => if (k =? c)%N then v else [c]) text.
Proof. apply replace_go_single. lia. Qed.

Lemma filter_flat_map {A B} (f : B -> bool) (g : A -> list B) (l : list A) :
  List.filter f (flat_map g l) = flat_map (fun a => List.filter f (g a)) l.
Proof.
  induction l as [|a l IH]; simpl; [reflexivity|].
  rewrite filter_app, IH. reflexivity.
Qed.

Lemma filter_all {A} (f : A -> bool) (l : list A) :
  Forall (fun a => f a = true) l -> List.filter f l = l.
Proof.
  induction 1 as [|a l Ha Hl IH]; simpl; [reflexivity|].
  rewrite Ha, IH. reflexivity.
Qed.

(* ------------------------------------------------------------------ *)
(** ** Scanning for markup *)

Section Scan.

Variable r : regex.
Variable P : N -> Prop.

(** No match of [r] begins with a character of [P]. *)
Hypothesis no_match :
  forall pos c rest, P c -> match_at r pos (c :: rest) = None.

Lemma scan_prefix (hit : pystr -> pystr) (p t : pystr) (fuel pos : nat) :
  Forall P p ->
  scan (List.length p + fuel) r (fun c => [c]) hit pos (p ++ t)
  = p ++ scan fuel r (fun c => [c]) hit (List.length p + pos) t.
Proof.
  intros Hp. revert pos.
  induction Hp as [|c p Hc Hp IH]; intros pos; [reflexivity|].
  cbn [List.length Nat.add app scan].
  rewrite (no_match pos (p ++ t) Hc). cbn [app].
  rewrite IH. rewrite Nat.add_succ_r. reflexivity.
Qed.

Lemma scan_nil {A} (keep : N -> list A) (hit : pystr -> list A)
    (fuel pos : nat) :
  scan fuel r keep hit pos [] = [].
Proof. destruct fuel; reflexivity. Qed.

(** A text of such characters is left as it is. *)
Lemma sub_group_id (t : pystr) : Forall P t -> sub_group r t = t.
Proof.
  intros Ht. unfold sub_group.
  pose proof (scan_prefix (fun g => g) [] 0 0 Ht) as H.
  rewrite app_nil_r, Nat.add_0_r, scan_nil, app_nil_r in H. exact H.
Qed.


End Scan.

Lemma bold_no_match (pos : nat) (c : N) (rest : pystr) :
  c <> 42%N -> match_at bold_markup pos (c :: rest) = None.
Proof.
  intros Hc.
  assert (E : (42 =? c)%N = false) by (apply N.eqb_neq; congruence).
  unfold match_at, bold_markup, seqs, lit. cbn [rmatch m_rest].
  rewrite E. reflexivity.
Qed.

Lemma italic_no_match (pos : nat) (c : N) (rest : pystr) :
  c <> 42%N -> match_at italic_markup pos (c :: rest) = None.
Proof.
  intros Hc.
  assert (E : (42 =? c)%N = false) by (apply N.eqb_neq; congruence).
  unfold match_at, italic_markup, seqs, lit. cbn [rmatch m_rest].
  rewrite E. reflexivity.
Qed.

(* ------------------------------------------------------------------ *)
(** ** Text cleaning *)

Lemma clean_text_body (t : pystr) :
  clean_text_for_pdf (Some t) = clean_body t.
Proof.
  destruct t; [reflexivity|].
  unfold clean_text_for_pdf, clean_body. reflexivity.
Qed.


Lemma apply_replacements_plain (t : pystr) :
  Forall plain t -> apply_replacements t = t.
Proof.
  intros Ht. unfold apply_replacements.
  assert (Hmark : Forall (fun kv => exists x,
                      In x (fst kv) /\ (x = 34 \/ 128 <= x)%N) replacements).
  { unfold replacements.
    do 5 (constructor; [eexists; split; [left; reflexivity|right; lia]|]).
    constructor; [exists 34%N; split; [simpl; tauto|left; reflexivity]|].
    constructor; [exists 34%N; split; [simpl; tauto|left; reflexivity]|].
    repeat (constructor; [eexists; split; [left; reflexivity|right; lia]|]).
    constructor. }
  induction Hmark as [|kv l (x & Hx & Hc) Hl IH]; [reflexivity|].
  destruct kv as [k v]. cbn [fst snd] in Hx. cbn [fold_left fst snd].
  rewrite (@replace_absent x k v t Hx); [exact IH|].
  intro Hin. rewrite Forall_forall in Ht. destruct (Ht _ Hin) as (Ha & _ & Hq).
  unfold is_ascii in Ha. apply N.ltb_lt in Ha. lia.
Qed.

(** A plain text is left as it is. *)
Lemma clean_plain (t : pystr) :
  Forall plain t -> clean_text_for_pdf (Some t) = t.
Proof.
  intros Ht. rewrite clean_text_body. unfold clean_body.
  assert (Hstar : Forall (fun c => c <> 42%N) t).
  { eapply Forall_impl; [|exact Ht]. unfold plain. tauto. }
  rewrite (@sub_group_id bold_markup _ bold_no_match t Hstar).
  rewrite (@sub_group_id italic_markup _ italic_no_match t Hstar).
  rewrite (apply_replacements_plain Ht).
  apply filter_all. eapply Forall_impl; [|exact Ht]. unfold plain. tauto.
Qed.



Lemma clean_ascii (text : option pystr) :
  Forall (fun c => (c < 128)%N) (clean_text_for_pdf text).
Proof.
  destruct text as [[|c t]|]; try constructor.
  unfold clean_text_for_pdf, encode_ascii_ignore.
  apply Forall_forall. intros x Hx. apply filter_In in Hx.
  destruct Hx as [_ Hx]. unfold is_ascii in Hx. apply N.ltb_lt. exact Hx.
Qed.

Lemma assoc_Some_In (c : N) (table : list (N * pystr)) (v : pystr) :
  assoc c table = Some v -> In (c, v) table.
Proof.
  induction table as [|[k w] table IH]; simpl; [discriminate|].
  destruct (N.eqb_spec c k) as [->|]; [intros [= ->]; tauto|auto].
Qed.

(* ------------------------------------------------------------------ *)
(** ** Text cleaning on every text *)

Lemma startswith_split (k t : pystr) :
  startswith k t = true -> t = k ++ skipn (List.length k) t.
Proof.
  revert t. induction k as [|x k IH]; intros t H; [reflexivity|].
  destruct t as [|c t]; [discriminate|]. cbn [startswith] in H.
  apply andb_true_iff in H. destruct H as [Hx Hk].
  apply N.eqb_eq in Hx. subst c.
  cbn [List.length skipn app]. f_equal. apply IH, Hk.
Qed.

Lemma replace_go_fuel (k0 : N) (krest v : pystr) (fuel1 fuel2 : nat)
    (t : pystr) :
  (List.length t <= fuel1)%nat -> (List.length t <= fuel2)%nat ->
  replace_go fuel1 (k0 :: krest) v t = replace_go fuel2 (k0 :: krest) v t.
Proof.
  revert fuel2 t. induction fuel1 as [|fuel1 IH]; intros fuel2 t H1 H2.
  - destruct t; [|cbn [List.length] in H1; lia].
    destruct fuel2; reflexivity.
  - destruct fuel2 as [|fuel2];
      [destruct t; [reflexivity|cbn [List.length] in H2; lia]|].
    destruct t as [|c rest]; [reflexivity|].
    cbn [replace_go]. cbn [List.length] in H1, H2.
    destruct (startswith (k0 :: krest) (c :: rest)).
    + f_equal. apply IH; cbn [List.length skipn]; rewrite length_skipn; lia.
    + f_equal. apply IH; lia.
Qed.

(** [replace] one step at a time. *)
Lemma replace_cons (k0 : N) (krest v : pystr) (c : N) (rest : pystr) :
  replace (k0 :: krest) v (c :: rest)
  = if startswith (k0 :: krest) (c :: rest)
    then v ++ replace (k0 :: krest) v (skipn (List.length krest) rest)
    else c :: replace (k0 :: krest) v rest.
Proof.
  unfold replace. cbn [List.length replace_go skipn].
  destruct (startswith (k0 :: krest) (c :: rest)); f_equal;
    apply replace_go_fuel; rewrite ?length_skipn; lia.
Qed.

Lemma replace_key_app (k0 : N) (krest v t : pystr) :
  replace (k0 :: krest) v ((k0 :: krest) ++ t)
  = v ++ replace (k0 :: krest) v t.
Proof.
  cbn [app]. rewrite replace_cons.
  change (k0 :: krest ++ t) with ((k0 :: krest) ++ t).
  rewrite startswith_app. f_equal. f_equal.
  rewrite skipn_app, skipn_all, Nat.sub_diag. reflexivity.
Qed.

Lemma flat_map_fixed (f : N -> pystr) (l : pystr) :
  (forall c, In c l -> f c = [c]) -> flat_map f l = l.
Proof.
  induction l as [|c l IH]; intros H; [reflexivity|].
  cbn [flat_map]. rewrite (H c) by (left; reflexivity).
  cbn [app]. f_equal. apply IH. intros x Hx. apply H. right. exact Hx.
Qed.

Section ReplaceFold.

Variable k0 : N.
Variables krest v : pystr.
Variable f : N -> pystr.

(** [f] leaves the characters of the key and of the value as they are,
    and what it makes of another character is not empty and has no
    character of the key. *)
Hypothesis f_key : forall c, In c (k0 :: krest) -> f c = [c].
Hypothesis f_value : forall c, In c v -> f c = [c].
Hypothesis f_other :
  forall c, f c = [c]
            \/ exists y ys, f c = y :: ys
                            /\ Forall (fun x => ~ In x (k0 :: krest)) (y :: ys).

Lemma changed_not_in_key (c y : N) (ys : pystr) :
  f c = y :: ys -> Forall (fun x => ~ In x (k0 :: krest)) (y :: ys) ->
  ~ In c (k0 :: krest).
Proof.
  intros E Hy Hc. rewrite (f_key Hc) in E. injection E as -> _.
  inversion Hy as [|? ? Hhead _]. exact (Hhead Hc).
Qed.

Lemma startswith_flat_map (k t : pystr) :
  incl k (k0 :: krest) ->
  startswith k (flat_map f t) = startswith k t.
Proof.
  revert t. induction k as [|x k IH]; intros t Hk; [reflexivity|].
  destruct t as [|c t]; [reflexivity|].
  assert (Hx : In x (k0 :: krest)) by (apply Hk; left; reflexivity).
  assert (Hk' : incl k (k0 :: krest))
    by (intros z Hz; apply Hk; right; exact Hz).
  cbn [flat_map].
  destruct (f_other c) as [E|(y & ys & E & Hy)]; rewrite E.
  - cbn [app startswith]. rewrite (IH t Hk'). reflexivity.
  - pose proof (changed_not_in_key E Hy) as Hc.
    inversion Hy as [|? ? Hhead _].
    cbn [app startswith].
    destruct (N.eqb_spec x y) as [->|_]; [contradiction|].
    destruct (N.eqb_spec x c) as [->|_]; [contradiction|].
    reflexivity.
Qed.

(** Replacing the key commutes with [f] on every character. *)
Lemma replace_flat_map (t : pystr) :
  replace (k0 :: krest) v (flat_map f t)
  = flat_map f (replace (k0 :: krest) v t).
Proof.
  remember (List.length t) as n eqn:En. revert t En.
  induction n as [n IH] using lt_wf_ind. intros t ->.
  destruct t as [|c rest]; [reflexivity|].
  rewrite (replace_cons k0 krest v c rest).
  destruct (startswith (k0 :: krest) (c :: rest)) eqn:Hs.
  - pose proof (startswith_split _ _ Hs) as Ht.
    cbn [List.length skipn] in Ht.
    remember (skipn (List.length krest) rest) as t' eqn:Et'.
    assert (Hlen : (List.length t' < List.length (c :: rest))%nat).
    { subst t'. rewrite length_skipn. cbn [List.length]. lia. }
    rewrite Ht. rewrite !flat_map_app.
    rewrite (flat_map_fixed f (k0 :: krest) f_key).
    rewrite (flat_map_fixed f v f_value).
    rewrite replace_key_app. f_equal.
    exact (IH _ Hlen t' eq_refl).
  - assert (Hrest : (List.length rest < List.length (c :: rest))%nat)
      by (cbn [List.length]; lia).
    pose proof (IH _ Hrest rest eq_refl) as IHrest.
    pose proof (startswith_flat_map (c :: rest) (incl_refl _)) as Hsf.
    rewrite Hs in Hsf. cbn [flat_map] in *.
    destruct (f_other c) as [E|(y & ys & E & Hy)]; rewrite E in *.
    + cbn [app] in *. rewrite replace_cons, Hsf. f_equal. exact IHrest.
    + rewrite (@replace_prefix k0 krest v (y :: ys) (flat_map f rest)).
      * f_equal. exact IHrest.
      * eapply Forall_impl; [|exact Hy]. cbv beta. intros x Hx ->.
        apply Hx. left. reflexivity.
Qed.

End ReplaceFold.

Lemma char_steps_nil (steps : list (N * pystr)) : char_steps steps [] = [].
Proof. induction steps as [|s steps IH]; [reflexivity|exact IH]. Qed.

Lemma char_steps_app (steps : list (N * pystr)) (a b : pystr) :
  char_steps steps (a ++ b) = char_steps steps a ++ char_steps steps b.
Proof.
  revert a b. induction steps as [|s steps IH]; intros a b; [reflexivity|].
  unfold char_steps. cbn [fold_left]. rewrite flat_map_app. apply IH.
Qed.

(** Replacements of one character work on every character on its own. *)
Lemma char_steps_flat_map (steps : list (N * pystr)) (t : pystr) :
  char_steps steps t = flat_map (fun c => char_steps steps [c]) t.
Proof.
  induction t as [|c t IH]; [apply char_steps_nil|].
  change (c :: t) with ([c] ++ t). rewrite char_steps_app, IH. reflexivity.
Qed.

Lemma char_steps_fixed (steps : list (N * pystr)) (c : N) :
  Forall (fun kv => fst kv <> c \/ snd kv = [c]) steps ->
  char_steps steps [c] = [c].
Proof.
  induction 1 as [|[k w] steps Hkv Hsteps IH]; [reflexivity|].
  cbn [fst snd] in Hkv.
  unfold char_steps. cbn [fold_left flat_map]. rewrite app_nil_r.
  replace (char_step (k, w) c) with [c]; [exact IH|].
  unfold char_step. cbn [fst snd].
  destruct (N.eqb_spec k c) as [E|_]; [|reflexivity].
  destruct Hkv as [Hne|Hv]; [contradiction|]. symmetry. exact Hv.
Qed.

Lemma fold_single_keys (steps : list (N * pystr)) (t : pystr) :
  fold_left (fun t kv => replace (fst kv) (snd kv) t)
    (List.map (fun kv => ([fst kv], snd kv)) steps) t
  = char_steps steps t.
Proof.
  revert t. induction steps as [|s steps IH]; intros t; [reflexivity|].
  cbn [List.map fold_left fst snd]. rewrite replace_single, IH.
  reflexivity.
Qed.

(** The dict in three parts: the keys of one character before the long
    key, the long key, and the keys of one character after it. *)
Lemma replacements_parts :
  replacements
  = List.map (fun kv : N * pystr => ([fst kv], snd kv)) early_steps
    ++ (long_key, str "'")
       :: List.map (fun kv : N * pystr => ([fst kv], snd kv)) late_steps.
Proof. vm_compute. reflexivity. Qed.

Lemma fold_left_cons {A B} (f : A -> B -> A) (x : B) (l : list B) (a : A) :
  fold_left f (x :: l) a = fold_left f l (f a x).
Proof. reflexivity. Qed.

Lemma apply_replacements_steps (t : pystr) :
  apply_replacements t
  = char_steps late_steps
      (replace long_key (str "'") (char_steps early_steps t)).
Proof.
  unfold apply_replacements. rewrite replacements_parts.
  rewrite fold_left_app, fold_left_cons.
  rewrite !fold_single_keys. reflexivity.
Qed.

Lemma long_key_commutes (t : pystr) :
  replace long_key (str "'") (char_steps early_steps t)
  = char_steps early_steps (replace long_key (str "'") t).
Proof.
  assert (Hgood : Forall (fun kv =>
            ~ In (fst kv) long_key /\ fst kv <> 39%N
            /\ exists y ys, snd kv = y :: ys
                 /\ Forall (fun x => ~ In x long_key) (y :: ys)) early_steps).
  { unfold early_steps.
    repeat (constructor;
            [split; [vm_compute; intuition discriminate|];
             split; [discriminate|];
             do 2 eexists; split; [reflexivity|];
             repeat (constructor; [vm_compute; intuition discriminate|]);
             constructor|]).
    constructor. }
  revert t.
  induction Hgood as [|[k w] steps (Hk & Hq & y & ys & Hv & Hy) _ IH];
    intros t; [reflexivity|].
  cbn [fst snd] in Hk, Hq, Hv.
  change (replace long_key (str "'")
            (char_steps steps (flat_map (char_step (k, w)) t))
          = char_steps steps
              (flat_map (char_step (k, w)) (replace long_key (str "'") t))).
  rewrite IH. f_equal.
  apply (@replace_flat_map 58%N
           ([32; 34; 39; 34; 44; 10]%N ++ List.repeat 32%N 12) (str "'")
           (char_step (k, w))).
  - intros c Hc. unfold char_step. cbn [fst snd].
    destruct (N.eqb_spec k c) as [E|_]; [|reflexivity].
    subst c. contradiction.
  - intros c [<-|[]]. unfold char_step. cbn [fst snd].
    change (N_of_ascii "'") with 39%N.
    destruct (N.eqb_spec k 39) as [E|_]; [contradiction|reflexivity].
  - intros c. unfold char_step. cbn [fst snd].
    destruct (N.eqb_spec k c) as [E|_]; [|left; reflexivity].
    right. exists y, ys. split; assumption.
Qed.

Lemma all_steps_char (c : N) :
  encode_ascii_ignore (char_steps (early_steps ++ late_steps) [c])
  = ascii_fold c.
Proof.
  unfold ascii_fold.
  destruct (assoc c listed_replacements) as [v|] eqn:Hassoc.
  - apply assoc_Some_In in Hassoc. unfold listed_replacements in Hassoc.
    cbn [In] in Hassoc.
    repeat (destruct Hassoc as [[= <- <-]|Hassoc]; [vm_compute; reflexivity|]).
    contradiction.
  - rewrite char_steps_fixed; [reflexivity|].
    unfold listed_replacements in Hassoc. cbn [assoc] in Hassoc.
    repeat match type of Hassoc with
           | (if (c =? ?k)%N then _ else _) = None =>
               destruct (N.eqb_spec c k) as [|?Hne]; [discriminate|]
           end.
    unfold early_steps, late_steps. cbn [app].
    repeat (constructor;
            [cbn [fst snd];
             first [left; congruence
                   | destruct (N.eq_dec 34 c) as [<-|?];
                     [right; reflexivity|left; assumption]]|]).
    constructor.
Qed.

(** On every text the cleaning is the ASCII steps followed by the
    treatment of each character on its own. *)
Lemma clean_body_every_text (t : pystr) :
  clean_body t = flat_map ascii_fold (ascii_steps t).
Proof.
  unfold clean_body, ascii_steps. fold (strip_markup t).
  rewrite apply_replacements_steps, long_key_commutes.
  unfold char_steps at 1 2. rewrite <- fold_left_app.
  fold (char_steps (early_steps ++ late_steps)
          (replace long_key (str "'") (strip_markup t))).
  rewrite char_steps_flat_map.
  unfold encode_ascii_ignore. rewrite filter_flat_map.
  apply flat_map_ext. intros c. apply all_steps_char.
Qed.

(* ------------------------------------------------------------------ *)
(** ** What the markup patterns match *)

Lemma rmatch_Seq (a b : regex) (st : mstate) (k : mstate -> option mstate) :
  rmatch (Seq a b) st k = rmatch a st (fun st' => rmatch b st' k).
Proof. reflexivity. Qed.

Lemma rmatch_Grp (a : regex) (st : mstate) (k : mstate -> option mstate) :
  rmatch (Grp a) st k
  = rmatch a st (fun st' =>
      k {| m_rest := m_rest st'; m_pos := m_pos st';
           m_grp := firstn (m_pos st' - m_pos st) (m_rest st) |}).
Proof. reflexivity. Qed.

Lemma rmatch_lit (x : N) (st : mstate) (k : mstate -> option mstate) :
  rmatch (lit x) st k
  = match m_rest st with
    | c :: rest =>
        if (x =? c)%N
        then k {| m_rest := rest; m_pos := S (m_pos st); m_grp := m_grp st |}
        else None
    | [] => None
    end.
Proof. reflexivity. Qed.

(** The lazy star over any character but a newline, one step at a time. *)
Lemma lazy_any_step (st : mstate) (k : mstate -> option mstate) :
  rmatch (LazyStar any_char) st k
  = match k st with
    | Some res => Some res
    | None =>
        match m_rest st with
        | c :: rest =>
            if negb (c =? 10)%N
            then rmatch (LazyStar any_char)
                   {| m_rest := rest; m_pos := S (m_pos st);
                      m_grp := m_grp st |} k
            else None
        | [] => None
        end
    end.
Proof.
  destruct st as [rest pos grp]. destruct rest as [|c rest].
  - cbn [rmatch m_rest List.length]. destruct (k _); reflexivity.
  - cbn [rmatch any_char m_rest m_pos m_grp List.length].
    destruct (k _); [reflexivity|].
    destruct (negb (c =? 10)%N); [|reflexivity].
    rewrite (proj2 (Nat.ltb_lt pos (S pos))) by lia. reflexivity.
Qed.

(** Where the lazy star ends, the rest of the pattern matches: it has
    taken some characters of the text and left the group as it was. *)
Lemma lazy_any_sound (k : mstate -> option mstate) (rest : pystr) :
  forall pos grp res,
    rmatch (LazyStar any_char)
      {| m_rest := rest; m_pos := pos; m_grp := grp |} k = Some res ->
    exists n,
      k {| m_rest := skipn n rest; m_pos := n + pos; m_grp := grp |}
      = Some res.
Proof.
  induction rest as [|c rest IH]; intros pos grp res H;
    rewrite lazy_any_step in H; cbn [m_rest m_pos m_grp] in H.
  - destruct (k _) as [r|] eqn:E; [|discriminate].
    exists 0%nat. rewrite <- H. exact E.
  - destruct (k _) as [r|] eqn:E.
    + exists 0%nat. rewrite <- H. exact E.
    + destruct (negb (c =? 10)%N); [|discriminate].
      destruct (IH _ _ _ H) as [n Hn]. exists (S n).
      cbn [skipn]. rewrite Nat.add_succ_r in Hn. exact Hn.
Qed.

(** A match of the bold markup is two asterisks, the group and two
    asterisks. *)
Lemma bold_match_sound (pos : nat) (rest : pystr) (st : mstate) :
  match_at bold_markup pos rest = Some st ->
  rest = [42; 42]%N ++ m_grp st ++ [42; 42]%N ++ m_rest st.
Proof.
  unfold match_at, bold_markup, seqs. intros H.
  rewrite rmatch_Seq, rmatch_lit in H. cbn [m_rest m_pos m_grp] in H.
  destruct rest as [|c1 rest]; [discriminate|].
  destruct (N.eqb_spec 42 c1) as [<-|_]; [|discriminate].
  rewrite rmatch_Seq, rmatch_lit in H. cbn [m_rest m_pos m_grp] in H.
  destruct rest as [|c2 rest]; [discriminate|].
  destruct (N.eqb_spec 42 c2) as [<-|_]; [|discriminate].
  rewrite rmatch_Seq, rmatch_Grp in H.
  apply lazy_any_sound in H. destruct H as [n H].
  cbn [m_rest m_pos m_grp] in H.
  rewrite rmatch_Seq, rmatch_lit in H. cbn [m_rest m_pos m_grp] in H.
  pose proof (firstn_skipn n rest) as Hsplit.
  destruct (skipn n rest) as [|c3 rest3]; [discriminate|].
  destruct (N.eqb_spec 42 c3) as [<-|_]; [|discriminate].
  rewrite rmatch_lit in H. cbn [m_rest m_pos m_grp] in H.
  destruct rest3 as [|c4 rest4]; [discriminate|].
  destruct (N.eqb_spec 42 c4) as [<-|_]; [|discriminate].
  injection H as <-. cbn [m_rest m_grp].
  replace (n + S (S pos) - S (S pos))%nat with n by lia.
  cbn [app]. rewrite <- Hsplit at 1. reflexivity.
Qed.

(** A match of the italic markup is an asterisk, the group and an
    asterisk. *)
Lemma italic_match_sound (pos : nat) (rest : pystr) (st : mstate) :
  match_at italic_markup pos rest = Some st ->
  rest = [42%N] ++ m_grp st ++ [42%N] ++ m_rest st.
Proof.
  unfold match_at, italic_markup, seqs. intros H.
  rewrite rmatch_Seq, rmatch_lit in H. cbn [m_rest m_pos m_grp] in H.
  destruct rest as [|c1 rest]; [discriminate|].
  destruct (N.eqb_spec 42 c1) as [<-|_]; [|discriminate].
  rewrite rmatch_Seq, rmatch_Grp in H.
  apply lazy_any_sound in H. destruct H as [n H].
  cbn [m_rest m_pos m_grp] in H.
  rewrite rmatch_lit in H. cbn [m_rest m_pos m_grp] in H.
  pose proof (firstn_skipn n rest) as Hsplit.
  destruct (skipn n rest) as [|c3 rest3]; [discriminate|].
  destruct (N.eqb_spec 42 c3) as [<-|_]; [|discriminate].
  injection H as <-. cbn [m_rest m_grp].
  replace (n + S pos - S pos)%nat with n by lia.
  cbn [app]. rewrite <- Hsplit at 1. reflexivity.
Qed.

Section ScanKeeps.

Variable r : regex.
Variable q : N -> bool.

(** What a match of [r] drops of the text is nothing that [q] selects,
    and a match is not empty. *)
Hypothesis match_keeps :
  forall pos rest st, match_at r pos rest = Some st ->
    List.filter q rest = List.filter q (m_grp st) ++ List.filter q (m_rest st)
    /\ (List.length (m_rest st) < List.length rest)%nat.

Lemma scan_keeps (fuel pos : nat) (rest : pystr) :
  (List.length rest <= fuel)%nat ->
  List.filter q (scan fuel r (fun c => [c]) (fun g => g) pos rest)
  = List.filter q rest.
Proof.
  revert pos rest. induction fuel as [|fuel IH]; intros pos rest Hlen.
  - destruct rest; [reflexivity|cbn [List.length] in Hlen; lia].
  - destruct rest as [|c rest']; [reflexivity|].
    cbn [scan]. cbn [List.length] in Hlen.
    assert (Hkeep : List.filter q
                      ([c] ++ scan fuel r (fun c => [c]) (fun g => g)
                                (S pos) rest')
                    = List.filter q (c :: rest')).
    { cbn [app List.filter]. rewrite IH by lia. reflexivity. }
    destruct (match_at r pos (c :: rest')) as [st|] eqn:Hm; [|exact Hkeep].
    destruct (pos <? m_pos st)%nat; [|exact Hkeep].
    destruct (match_keeps _ _ Hm) as [Hq Hshort].
    cbn [List.length] in Hshort.
    rewrite filter_app, IH by lia. symmetry. exact Hq.
Qed.

(** The substitution of the group for the match keeps what [q] selects. *)
Lemma sub_group_keeps (t : pystr) :
  List.filter q (sub_group r t) = List.filter q t.
Proof. apply scan_keeps. lia. Qed.

End ScanKeeps.

Lemma bold_keeps (q : N -> bool) (t : pystr) :
  q 42%N = false ->
  List.filter q (sub_group bold_markup t) = List.filter q t.
Proof.
  intros Hq. apply sub_group_keeps. intros pos rest st Hm.
  apply bold_match_sound in Hm. split.
  - rewrite Hm at 1. rewrite !filter_app. cbn [List.filter]. rewrite Hq.
    reflexivity.
  - apply (f_equal (@List.length N)) in Hm. rewrite !length_app in Hm.
    cbn [List.length] in Hm. lia.
Qed.

Lemma italic_keeps (q : N -> bool) (t : pystr) :
  q 42%N = false ->
  List.filter q (sub_group italic_markup t) = List.filter q t.
Proof.
  intros Hq. apply sub_group_keeps. intros pos rest st Hm.
  apply italic_match_sound in Hm. split.
  - rewrite Hm at 1. rewrite !filter_app. cbn [List.filter]. rewrite Hq.
    reflexivity.
  - apply (f_equal (@List.length N)) in Hm. rewrite !length_app in Hm.
    cbn [List.length] in Hm. lia.
Qed.

(** Stripping the markup deletes asterisks and nothing else. *)
Lemma strip_markup_keeps (q : N -> bool) (t : pystr) :
  q 42%N = false ->
  List.filter q (strip_markup t) = List.filter q t.
Proof.
  intros Hq. unfold strip_markup.
  rewrite (italic_keeps q _ Hq). apply (bold_keeps q t Hq).
Qed.

Lemma filter_none {A} (q : A -> bool) (l : list A) :
  (forall x, In x l -> q x = false) -> List.filter q l = [].
Proof.
  induction l as [|x l IH]; intros H; [reflexivity|].
  cbn [List.filter]. rewrite (H x) by (left; reflexivity).
  apply IH. intros y Hy. apply H. right. exact Hy.
Qed.

(** A replacement whose key and value have nothing that [q] selects keeps
    what [q] selects. *)
Lemma replace_keeps (q : N -> bool) (k0 : N) (krest v : pystr) (t : pystr) :
  (forall c, In c (k0 :: krest) -> q c = false) ->
  (forall c, In c v -> q c = false) ->
  List.filter q (replace (k0 :: krest) v t) = List.filter q t.
Proof.
  intros Hk Hv. remember (List.length t) as n eqn:En. revert t En.
  induction n as [n IH] using lt_wf_ind. intros t ->.
  destruct t as [|c rest]; [reflexivity|].
  rewrite replace_cons.
  destruct (startswith (k0 :: krest) (c :: rest)) eqn:Hs.
  - pose proof (startswith_split _ _ Hs) as Ht.
    cbn [List.length skipn] in Ht.
    remember (skipn (List.length krest) rest) as t' eqn:Et'.
    assert (Hlen : (List.length t' < List.length (c :: rest))%nat).
    { subst t'. rewrite length_skipn. cbn [List.length]. lia. }
    rewrite Ht. rewrite !filter_app.
    rewrite (filter_none q v Hv), (filter_none q (k0 :: krest) Hk).
    cbn [app]. exact (IH _ Hlen t' eq_refl).
  - cbn [List.filter].
    rewrite (IH (List.length rest)); [reflexivity| |reflexivity].
    cbn [List.length]. lia.
Qed.

(** The ASCII steps leave every character beyond ASCII where it is. *)
Lemma ascii_steps_keep (t : pystr) :
  List.filter not_ascii (ascii_steps t) = List.filter not_ascii t.
Proof.
  unfold ascii_steps.
  rewrite (@replace_keeps not_ascii 58%N
             ([32; 34; 39; 34; 44; 10]%N ++ List.repeat 32%N 12) (str "'")).
  - apply strip_markup_keeps. reflexivity.
  - intros c Hc. vm_compute in Hc.
    repeat (destruct Hc as [<-|Hc]; [reflexivity|]). contradiction.
  - intros c [<-|[]]. reflexivity.
Qed.

(** Without an asterisk and a newline the ASCII steps do nothing. *)
Lemma ascii_steps_id (t : pystr) :
  Forall (fun c => c <> 42%N /\ c <> 10%N) t -> ascii_steps t = t.
Proof.
  intros Ht. unfold ascii_steps, strip_markup.
  assert (Hstar : Forall (fun c => c <> 42%N) t)
    by (eapply Forall_impl; [|exact Ht]; cbv beta; tauto).
  rewrite (@sub_group_id bold_markup _ bold_no_match t Hstar).
  rewrite (@sub_group_id italic_markup _ italic_no_match t Hstar).
  apply (@replace_absent 10%N).
  - vm_compute. tauto.
  - intro Hin. rewrite Forall_forall in Ht. destruct (Ht _ Hin) as [_ Hnl].
    congruence.
Qed.

(** Markup, a newline and characters beyond ASCII in one text. *)
Example clean_text_markup_and_newline :
  clean_text_for_pdf
    (Some ([42; 42; 8377]%N ++ str "500" ++ [42; 42; 10; 8226]%N
           ++ str " caf" ++ [233; 32; 42]%N ++ str "now" ++ [42; 8482]%N))
  = str "Rs.500" ++ [10%N] ++ str "- cafe now".
Proof. vm_compute. reflexivity. Qed.

(** C9.  The cleaned text has ASCII characters only, whatever the input,
    and an absent or empty text gives the empty text.  On every text the
    cleaning is the ASCII steps - the asterisks of the markup are deleted
    and the long key is replaced, which leaves every character beyond
    ASCII where it is - followed by the treatment of each character on its
    own: the rupee sign becomes [Rs.], a listed character becomes its
    replacement, any other non-ASCII character is dropped and an ASCII
    character stays.  On a text without asterisks and newlines the ASCII
    steps do nothing. *)
Theorem clean_text_ascii_only :
  (forall text, Forall (fun c => (c < 128)%N) (clean_text_for_pdf text))
  /\ clean_text_for_pdf None = []
  /\ clean_text_for_pdf (Some []) = []
  /\ (forall t,
        clean_text_for_pdf (Some t) = flat_map ascii_fold (ascii_steps t))
  /\ (forall t,
        List.filter not_ascii (ascii_steps t) = List.filter not_ascii t)
  /\ (forall t,
        List.filter not_star (strip_markup t) = List.filter not_star t)
  /\ (forall t, Forall (fun c => c <> 42%N /\ c <> 10%N) t ->
        ascii_steps t = t
        /\ clean_text_for_pdf (Some t) = flat_map ascii_fold t)
  /\ ascii_fold 8377 = str "Rs."
  /\ (forall c v, In (c, v) listed_replacements ->
        ascii_fold c = v /\ Forall (fun x => (x < 128)%N) v)
  /\ (forall c, (128 <= c)%N -> assoc c listed_replacements = None ->
        ascii_fold c = [])
  /\ (forall c, (c < 128)%N -> ascii_fold c = [c]).
Proof.
  split; [exact clean_ascii|].
  split; [reflexivity|]. split; [reflexivity|].
  split.
  { intros t. rewrite clean_text_body. apply clean_body_every_text. }
  split; [exact ascii_steps_keep|].
  split; [intros t; apply strip_markup_keeps; reflexivity|].
  split.
  { intros t Ht. split; [exact (ascii_steps_id Ht)|].
    rewrite clean_text_body, clean_body_every_text, (ascii_steps_id Ht).
    reflexivity. }
  split; [reflexivity|].
  split.
  { intros c v Hin. unfold listed_replacements in Hin. simpl in Hin.
    repeat (destruct Hin as [[= <- <-]|Hin];
            [split; [reflexivity|repeat constructor]|]).
    contradiction. }
  split.
  { intros c Hc Hassoc. unfold ascii_fold. rewrite Hassoc.
    unfold is_ascii. replace (c <? 128)%N with false; [reflexivity|].
    symmetry. apply N.ltb_ge. exact Hc. }
  intros c Hc. unfold ascii_fold.
  destruct (assoc c listed_replacements) as [v|] eqn:Hassoc.
  - apply assoc_Some_In in Hassoc. unfold listed_replacements in Hassoc.
    simpl in Hassoc.
    repeat (destruct Hassoc as [[= <- <-]|Hassoc]; [lia|]). contradiction.
  - unfold is_ascii. replace (c <? 128)%N with true; [reflexivity|].
    symmetry. apply N.ltb_lt. exact Hc.
Qed.

Lemma clean_text_ascii_only_witness :
  Forall (fun c => c <> 42%N /\ c <> 10%N) [8377; 53; 48; 48; 176; 67]%N
  /\ ascii_steps [8377; 53; 48; 48; 176; 67]%N
     = [8377; 53; 48; 48; 176; 67]%N
  /\ clean_text_for_pdf (Some [8377; 53; 48; 48; 176; 67]%N)
     = flat_map ascii_fold [8377; 53; 48; 48; 176; 67]%N.
Proof.
  assert (H : Forall (fun c => c <> 42%N /\ c <> 10%N)
                [8377; 53; 48; 48; 176; 67]%N)
    by (repeat constructor; discriminate).
  split; [exact H|].
  exact (proj1 (proj2 (proj2 (proj2 (proj2 (proj2
           (proj2 clean_text_ascii_only)))))) _ H).
Defined.

(* ------------------------------------------------------------------ *)
(** ** Formatted numbers are plain text *)







(* ------------------------------------------------------------------ *)
(** ** The itinerary *)

Lemma day_headings_app (a b : list pdf_call) :
  day_headings (a ++ b) = day_headings a ++ day_headings b.
Proof. apply flat_map_app. Qed.


Lemma length_range (lo hi : Z) :
  lo <= hi -> Z.of_nat (List.length (range lo hi)) = hi - lo.
Proof.
  intros. unfold range. rewrite length_map, length_seq. lia.
Qed.

Lemma range_empty (lo hi : Z) : hi <= lo -> range lo hi = [].
Proof.
  intros. unfold range.
  replace (Z.to_nat (hi - lo)) with 0%nat by lia. reflexivity.
Qed.

Section Itinerary.

Variable U : unicode_tables.


(** A bullet is no day heading. *)
Lemma day_headings_bullet (text : pystr) :
  day_headings (add_bullet_point U text) = [].
Proof. unfold add_bullet_point. destruct (is_blank U text); reflexivity. Qed.

Lemma day_headings_bullets (texts : list pystr) :
  day_headings (bullets U texts) = [].
Proof.
  unfold bullets. induction texts as [|t texts IH]; [reflexivity|].
  cbn [List.map List.concat].
  rewrite day_headings_app, day_headings_bullet, IH. reflexivity.
Qed.

Lemma day_headings_section_header (title : pystr) :
  startswith (str "Day ") (clean_text_for_pdf (Some title)) = false ->
  day_headings (add_section_header title) = [].
Proof.
  intros H. unfold add_section_header, day_headings. cbn [flat_map app].
  rewrite H. reflexivity.
Qed.

Lemma day_headings_arrival (start_date : date) (destination : pystr) (n : Z) :
  day_headings (arrival_day U start_date destination n)
  = [arrival_heading start_date].
Proof.
  unfold arrival_day. cbv zeta.
  rewrite !day_headings_app, day_headings_bullets. reflexivity.
Qed.

Lemma day_headings_main_day (ts : templates) (destination : pystr)
    (interests : list pystr) (n d : Z) :
  day_headings (main_day U ts destination interests n d)
  = [exploration_heading interests d].
Proof.
  unfold main_day. cbv zeta.
  rewrite !day_headings_app, !day_headings_bullet. reflexivity.
Qed.

Lemma day_headings_departure (start_date : date) (duration : Z) :
  day_headings (departure_day U start_date duration)
  = [departure_heading duration (start_date + (duration - 1))].
Proof.
  unfold departure_day. cbv zeta.
  rewrite !day_headings_app, day_headings_bullets. reflexivity.
Qed.

Lemma day_headings_main_days (ts : templates) (destination : pystr)
    (interests : list pystr) (n : Z) (days : list Z) :
  day_headings
    (List.concat (List.map (main_day U ts destination interests n) days))
  = List.map (exploration_heading interests) days.
Proof.
  induction days as [|d days IH]; [reflexivity|].
  cbn [List.map List.concat].
  rewrite day_headings_app, day_headings_main_day, IH. reflexivity.
Qed.

(** The day headings of the whole itinerary. *)
Lemma day_headings_itinerary (today : date) (ud : user_data) :
  let '(duration, start_date) := itinerary_span today ud in
  let interests := get (ud_interests ud) [str "History"; str "Culture"] in
  day_headings (add_detailed_day_by_day_itinerary U today ud)
  = arrival_heading start_date
    :: List.map (exploration_heading interests) (range 2 duration)
    ++ (if 1 <? duration
        then [departure_heading duration (start_date + (duration - 1))]
        else []).
Proof.
  unfold add_detailed_day_by_day_itinerary.
  destruct (itinerary_span today ud) as [duration start_date]. cbv zeta.
  rewrite !day_headings_app, day_headings_arrival, day_headings_main_days.
  rewrite day_headings_section_header by reflexivity.
  destruct (1 <? duration); [rewrite day_headings_departure|]; reflexivity.
Qed.

End Itinerary.

Lemma In_range (lo hi d : Z) : In d (range lo hi) <-> lo <= d < hi.
Proof.
  unfold range. rewrite in_map_iff. split.
  - intros (i & <- & Hi). apply in_seq in Hi. lia.
  - intros Hd. exists (Z.to_nat (d - lo)). split; [lia|].
    apply in_seq. lia.
Qed.

(** C2.  For a request with both dates and D = return - departure + 1:
    when D >= 2 the day entries are the arrival day, the exploration days
    2 .. D-1 in order (none when D = 2) and the departure day D, which is D
    entries; when D = 1 the arrival day is the only entry. *)
Theorem itinerary_days (U : unicode_tables) (today : date) (ud : user_data)
    (dep ret : date) :
  ud_departure_date ud = Some dep ->
  ud_return_date ud = Some ret ->
  let D := ret - dep + 1 in
  let interests := get (ud_interests ud) [str "History"; str "Culture"] in
  let headings :=
    day_headings (add_detailed_day_by_day_itinerary U today ud) in
  (2 <= D ->
     headings
     = [arrival_heading dep]
       ++ List.map (exploration_heading interests) (range 2 D)
       ++ [departure_heading D ret]
     /\ Z.of_nat (List.length headings) = D
     /\ Z.of_nat (List.length (range 2 D)) = D - 2
     /\ (forall d, In d (range 2 D) <-> 2 <= d < D))
  /\ (D = 1 -> headings = [arrival_heading dep]).
Proof.
  intros Hdep Hret. cbv zeta.
  pose proof (day_headings_itinerary U today ud) as H.
  unfold itinerary_span, trip_duration in H. rewrite Hdep, Hret in H.
  cbv zeta in H. rewrite H. clear H.
  replace (dep + (ret - dep + 1 - 1)) with ret by lia.
  split.
  - intros HD.
    replace (1 <? ret - dep + 1) with true by (symmetry; apply Z.ltb_lt; lia).
    split; [reflexivity|].
    pose proof (length_range (lo := 2) (hi := ret - dep + 1) ltac:(lia)) as Hlen.
    split; [|split; [exact Hlen|intro d; apply In_range]].
    cbn [List.length]. rewrite length_app, length_map. cbn [List.length]. lia.
  - intros HD. rewrite HD. reflexivity.
Qed.

Lemma itinerary_days_witness :
  2 <= 738899 - 738895 + 1
  /\ Z.of_nat (List.length
       (day_headings
          (add_detailed_day_by_day_itinerary basic_latin 738000 trip_to_delhi)))
     = 5.
Proof.
  split; [lia|].
  exact (proj1 (proj2 (proj1
           (itinerary_days basic_latin 738000 trip_to_delhi eq_refl eq_refl)
           ltac:(lia)))).
Defined.

(* ------------------------------------------------------------------ *)
(** ** Cost lines *)

Section CostLines.

Variable U : unicode_tables.











End CostLines.


(* ------------------------------------------------------------------ *)
(** ** The run *)

Section Run.

Variable U : unicode_tables.
Variables wiki geocode : Type.


(** A run whose validation passes goes on to gather the travel data. *)
Lemma run_accepts (w : world wiki geocode) (f : form) :
  f_button f = true -> passes_validation f = true ->
  match gather_travel_data U (w_web w) (collect_user_inputs f) with
  | Ok td => exists rest, fst (run U w f) = gathered td :: rest
  | Raise e => run U w f = ([], Some e)
  end.
Proof.
  intros Hb Hv. unfold run, passes_validation in *. rewrite Hb. cbn [negb].
  destruct (missing_fields f) as [|m ms]; [|discriminate].
  destruct (f_return_date f <? f_departure_date f); [discriminate|].
  destruct (f_transport_mode f); [discriminate|].
  cbn [andb negb] in Hv. rewrite Hv. cbn [negb].
  destruct (gather_travel_data U (w_web w) (collect_user_inputs f)) as [td|e];
    [|reflexivity].
  match goal with
  | |- context [if ?b then _ else _] => destruct b
  end.
  - destruct (send_email U w _ _ _) as [mail sent].
    eexists. reflexivity.
  - eexists. reflexivity.
Qed.


(** When the model raises, the text that the generation returns begins
    with ["An error"], the run reports the failure and neither assembles
    nor sends a document. *)
Lemma run_reports_api_exception (w : world wiki geocode) (f : form)
    (create : user_data -> travel_data wiki geocode -> completion)
    (td : travel_data wiki geocode) (message : pystr) :
  f_button f = true -> passes_validation f = true ->
  gather_travel_data U (w_web w) (collect_user_inputs f) = Ok td ->
  w_groq w = Some create ->
  create (collect_user_inputs f) td = ApiException message ->
  run U w f
  = ([gathered td;
      generated _ _
        (str "An error occurred while generating the trip plan: " ++ message);
      error_generation_failed _ _
        (str "An error occurred while generating the trip plan: " ++ message);
      footer_shown _ _], None).
Proof.
  intros Hb Hv Hg Hc Hm. unfold run, passes_validation in *.
  rewrite Hb. cbn [negb].
  destruct (missing_fields f) as [|m ms]; [|discriminate].
  destruct (f_return_date f <? f_departure_date f); [discriminate|].
  destruct (f_transport_mode f); [discriminate|].
  cbn [andb negb] in Hv. rewrite Hv. cbn [negb].
  rewrite Hg. unfold generate_trip_plan_with_data. rewrite Hc, Hm.
  change (str "An error occurred while generating the trip plan: ")
    with (str "An error" ++ str " occurred while generating the trip plan: ").
  rewrite <- app_assoc, startswith_app. reflexivity.
Qed.

(** Without a client the generation returns its other sentinel, which
    does not begin with ["An error"]: the run shows it as the plan and goes
    on to the mail. *)
Lemma run_without_client (w : world wiki geocode) (f : form)
    (td : travel_data wiki geocode) :
  f_button f = true -> passes_validation f = true ->
  gather_travel_data U (w_web w) (collect_user_inputs f) = Ok td ->
  w_groq w = None ->
  exists rest,
    fst (run U w f)
    = [gathered td;
       generated _ _ (str "Error: AI service is not available.");
       plan_shown _ _ (str "Error: AI service is not available.")]
      ++ fst (send_email U w (f_email f)
                (str "Error: AI service is not available.")
                (collect_user_inputs f))
      ++ rest.
Proof.
  intros Hb Hv Hg Hc. unfold run, passes_validation in *.
  rewrite Hb. cbn [negb].
  destruct (missing_fields f) as [|m ms]; [|discriminate].
  destruct (f_return_date f <? f_departure_date f); [discriminate|].
  destruct (f_transport_mode f); [discriminate|].
  cbn [andb negb] in Hv. rewrite Hv. cbn [negb].
  rewrite Hg. unfold generate_trip_plan_with_data. rewrite Hc.
  change (negb (startswith (str "An error")
                  (str "Error: AI service is not available."))) with true.
  change (str "Error: AI service is not available.")
    with (69%N :: str "rror: AI service is not available.") at 1.
  cbv iota.
  destruct (send_email U w _ _ _) as [mail sent]. cbn [fst].
  eexists. reflexivity.
Qed.

End Run.



(** C8, on a submitted valid form when no API key is configured: the
    generation returns ["Error: AI service is not available."], the run
    shows that text as the plan, assembles the document and submits the
    mail. *)
Theorem unavailable_sentinel_is_delivered :
  exists td document,
    run basic_latin world_without_ai delhi_form
    = ([gathered td;
        generated _ _ (str "Error: AI service is not available.");
        plan_shown _ _ (str "Error: AI service is not available.");
        assembled _ _ document;
        submitted _ _ (str "asha@example.com") document;
        success_shown _ _ (str "asha@example.com");
        footer_shown _ _], None).
Proof. vm_compute. do 2 eexists. reflexivity. Qed.

(* ------------------------------------------------------------------ *)
(** ** The document *)

Lemma itinerary_with_dates (U : unicode_tables) (ud : user_data)
    (dep ret today1 today2 : date) :
  ud_departure_date ud = Some dep -> ud_return_date ud = Some ret ->
  add_detailed_day_by_day_itinerary U today1 ud
  = add_detailed_day_by_day_itinerary U today2 ud.
Proof.
  intros Hdep Hret. unfold add_detailed_day_by_day_itinerary.
  unfold itinerary_span, trip_duration. rewrite Hdep, Hret. reflexivity.
Qed.

(** C10, as the code has it.  The document does not depend on the trip
    plan: on one day, two calls with the same request give the same
    document whatever the two plans are, and the travel data is no input
    at all.  When the request has both dates the document does not depend
    on the day of the call either. *)
Theorem document_ignores_trip_plan (U : unicode_tables) (ud : user_data) :
  (forall today plan1 plan2,
     create_structured_pdf U today plan1 ud
     = create_structured_pdf U today plan2 ud)
  /\ (forall dep ret,
        ud_departure_date ud = Some dep -> ud_return_date ud = Some ret ->
        forall today1 today2 plan1 plan2,
          create_structured_pdf U today1 plan1 ud
          = create_structured_pdf U today2 plan2 ud).
Proof.
  split; [reflexivity|].
  intros dep ret Hdep Hret today1 today2 plan1 plan2.
  unfold create_structured_pdf.
  rewrite (itinerary_with_dates U ud today1 today2 Hdep Hret). reflexivity.
Qed.

Lemma document_ignores_trip_plan_witness :
  ud_departure_date trip_to_delhi = Some 738895
  /\ create_structured_pdf basic_latin 738800 (str "plan A") trip_to_delhi
     = create_structured_pdf basic_latin 738801 (str "plan B") trip_to_delhi.
Proof.
  split; [reflexivity|].
  exact (proj2 (document_ignores_trip_plan basic_latin trip_to_delhi)
           738895 738899 eq_refl eq_refl 738800 738801
           (str "plan A") (str "plan B")).
Defined.

(** Against C10 as stated: for the request without dates, a call on one
    day and a call on the next give different documents, the first day of
    the itinerary being the day of the call. *)
Lemma document_depends_on_today :
  create_structured_pdf basic_latin 738895 (str "plan A") empty_request
  <> create_structured_pdf basic_latin 738896 (str "plan B") empty_request.
Proof.
  intro H.
  apply (f_equal (fun o => match o with
                           | Ok calls => day_headings calls
                           | Raise _ => []
                           end)) in H.
  vm_compute in H. discriminate H.
Qed.

(* ================================================================== *)
(** * Further properties *)

(* ------------------------------------------------------------------ *)
(** ** Prices *)

(** Whatever the text and the Unicode tables, a list that the extraction
    returns is strictly ascending, free of duplicates and within
    [300, 500000]. *)
Theorem extracted_prices_sorted_in_range (U : unicode_tables)
    (text : option pystr) (l : list Z) :
  extract_prices_from_text U text = Ok l ->
  StronglySorted Z.lt l /\ NoDup l /\ Forall price_in_range l.
Proof. apply extract_prices_sound. Qed.

Lemma extracted_prices_sorted_in_range_witness :
  extract_prices_from_text basic_latin
    (Some (str "Rooms from Rs. 2,500.00, cost: 12,000; budget stay 750 rupees or INR 450"))
  = Ok [450; 750; 2500; 12000]
  /\ StronglySorted Z.lt [450; 750; 2500; 12000]
  /\ NoDup [450; 750; 2500; 12000]
  /\ Forall price_in_range [450; 750; 2500; 12000].
Proof.
  assert (H : extract_prices_from_text basic_latin
                (Some (str "Rooms from Rs. 2,500.00, cost: 12,000; budget stay 750 rupees or INR 450"))
              = Ok [450; 750; 2500; 12000]) by (vm_compute; reflexivity).
  split; [exact H|].
  exact (extracted_prices_sorted_in_range basic_latin _ H).
Defined.

(* ------------------------------------------------------------------ *)
(** ** Budget *)

(** For a budget and a percentage of the form whose product is below
    [100 * 2^47], so for every budget below [2^47] (about 1.4 * 10^14),
    the amount is the exact floor of the share. *)
Theorem amount_is_floor_below_threshold (total_budget pct : Z) :
  0 <= total_budget -> 0 <= pct <= 100 ->
  total_budget * pct < 100 * 2 ^ 47 ->
  percent_of total_budget pct = Ok (total_budget * pct / 100).
Proof. apply percent_of_floor. Qed.

Lemma amount_is_floor_below_threshold_witness :
  0 <= 123457 /\ 0 <= 33 <= 100 /\ 123457 * 33 < 100 * 2 ^ 47
  /\ percent_of 123457 33 = Ok (123457 * 33 / 100).
Proof.
  assert (H1 : 0 <= 123457) by lia.
  assert (H2 : 0 <= 33 <= 100) by lia.
  assert (H3 : 123457 * 33 < 100 * 2 ^ 47) by (vm_compute; reflexivity).
  split; [exact H1|]. split; [exact H2|]. split; [exact H3|].
  exact (amount_is_floor_below_threshold H1 H2 H3).
Defined.

(** When the four percentages sum to at most 100 and the budget is below
    [2^47], every amount is between 0 and the budget and the miscellaneous
    amount is not negative; when they sum to exactly 100 it is the
    remainder of the rounding, at most 3. *)
Theorem miscellaneous_nonnegative (B pa pt pf pc : Z) :
  0 <= B < 2 ^ 47 ->
  0 <= pa -> 0 <= pt -> 0 <= pf -> 0 <= pc ->
  pa + pt + pf + pc <= 100 ->
  exists b,
    budget_allocations B pa pt pf pc = Ok b
    /\ 0 <= accommodation b <= B /\ 0 <= transport b <= B
    /\ 0 <= food b <= B /\ 0 <= activities b <= B
    /\ 0 <= miscellaneous b <= B
    /\ (pa + pt + pf + pc = 100 -> miscellaneous b <= 3).
Proof.
  intros HB Ha Ht Hf Hc Hsum.
  assert (Hfloor : forall p, 0 <= p <= 100 ->
            percent_of B p = Ok (B * p / 100)).
  { intros p Hp. apply percent_of_floor; [lia|exact Hp|]. nia. }
  unfold budget_allocations.
  rewrite !Hfloor by lia. cbn [bind].
  eexists. split; [reflexivity|].
  cbn [accommodation transport food activities miscellaneous].
  pose proof (Z.div_mod (B * pa) 100 ltac:(lia)) as Da.
  pose proof (Z.mod_pos_bound (B * pa) 100 ltac:(lia)) as Ma.
  pose proof (Z.div_mod (B * pt) 100 ltac:(lia)) as Dt.
  pose proof (Z.mod_pos_bound (B * pt) 100 ltac:(lia)) as Mt.
  pose proof (Z.div_mod (B * pf) 100 ltac:(lia)) as Df.
  pose proof (Z.mod_pos_bound (B * pf) 100 ltac:(lia)) as Mf.
  pose proof (Z.div_mod (B * pc) 100 ltac:(lia)) as Dc.
  pose proof (Z.mod_pos_bound (B * pc) 100 ltac:(lia)) as Mc.
  clear Hfloor.
  remember (B * pa / 100) as a. remember ((B * pa) mod 100) as ra.
  remember (B * pt / 100) as t. remember ((B * pt) mod 100) as rt.
  remember (B * pf / 100) as f. remember ((B * pf) mod 100) as rf.
  remember (B * pc / 100) as c. remember ((B * pc) mod 100) as rc.
  clear Heqa Heqra Heqt Heqrt Heqf Heqrf Heqc Heqrc.
  assert (0 <= a) by nia. assert (0 <= t) by nia.
  assert (0 <= f) by nia. assert (0 <= c) by nia.
  assert (Htot : 100 * (a + t + f + c) + (ra + rt + rf + rc)
                 = B * (pa + pt + pf + pc)) by lia.
  assert (100 * (a + t + f + c) <= 100 * B) by nia.
  repeat split; lia.
Qed.

Lemma miscellaneous_nonnegative_witness :
  0 <= 99999 < 2 ^ 47
  /\ exists b,
       budget_allocations 99999 33 33 33 1 = Ok b
       /\ 0 <= miscellaneous b <= 99999
       /\ miscellaneous b <= 3.
Proof.
  assert (HB : 0 <= 99999 < 2 ^ 47) by (split; [lia|vm_compute; reflexivity]).
  split; [exact HB|].
  destruct (@miscellaneous_nonnegative 99999 33 33 33 1 HB
              ltac:(lia) ltac:(lia) ltac:(lia) ltac:(lia) ltac:(lia))
    as (b & Hb & _ & _ & _ & _ & Hm & Hfull).
  exists b. split; [exact Hb|]. split; [exact Hm|]. apply Hfull. reflexivity.
Defined.

(* ------------------------------------------------------------------ *)
(** ** Text cleaning *)

(** A text of ASCII characters without an asterisk and without a double
    quote comes out of the cleaning unchanged. *)
Theorem clean_text_keeps_plain_text (t : pystr) :
  Forall (fun c => (c < 128)%N /\ c <> 42%N /\ c <> 34%N) t ->
  clean_text_for_pdf (Some t) = t.
Proof.
  intros Ht. apply clean_plain.
  eapply Forall_impl; [|exact Ht]. cbv beta. intros c (Ha & Hs & Hq).
  unfold plain, is_ascii. repeat split; try assumption.
  apply N.ltb_lt. exact Ha.
Qed.

Lemma clean_text_keeps_plain_text_witness :
  Forall (fun c => (c < 128)%N /\ c <> 42%N /\ c <> 34%N)
    (str "Rs. 5,500: Karim's")
  /\ clean_text_for_pdf (Some (str "Rs. 5,500: Karim's"))
     = str "Rs. 5,500: Karim's".
Proof.
  assert (H : Forall (fun c => (c < 128)%N /\ c <> 42%N /\ c <> 34%N)
                (str "Rs. 5,500: Karim's")).
  { repeat constructor; try discriminate. }
  split; [exact H|].
  exact (clean_text_keeps_plain_text H).
Defined.

(* ------------------------------------------------------------------ *)
(** ** Itinerary: missing dates and short trips *)

(** A request that lacks a date gets the itinerary of seven days from
    the day of the call: the arrival day today, the exploration days 2 to
    6 and the departure day six days later. *)
Theorem itinerary_without_dates (U : unicode_tables) (today : date)
    (ud : user_data) :
  ud_departure_date ud = None \/ ud_return_date ud = None ->
  let interests := get (ud_interests ud) [str "History"; str "Culture"] in
  day_headings (add_detailed_day_by_day_itinerary U today ud)
  = arrival_heading today
    :: List.map (exploration_heading interests) [2; 3; 4; 5; 6]
    ++ [departure_heading 7 (today + 6)].
Proof.
  intros Hmiss. cbv zeta.
  pose proof (day_headings_itinerary U today ud) as H.
  assert (Hspan : itinerary_span today ud = (7, today)).
  { unfold itinerary_span, trip_duration.
    destruct Hmiss as [-> | ->]; [destruct (ud_return_date ud)|]; reflexivity. }
  rewrite Hspan in H. cbv zeta in H. exact H.
Qed.

Lemma itinerary_without_dates_witness :
  ud_departure_date empty_request = None
  /\ List.length
       (day_headings
          (add_detailed_day_by_day_itinerary basic_latin 738895 empty_request))
     = 7%nat.
Proof.
  split; [reflexivity|].
  rewrite (@itinerary_without_dates basic_latin 738895 empty_request
             (or_introl eq_refl)).
  reflexivity.
Defined.

(** When the return date is the departure date or lies before it, the
    arrival day is the only day entry: no exploration day and no departure
    day is emitted. *)
Theorem itinerary_of_one_day_or_less (U : unicode_tables) (today : date)
    (ud : user_data) (dep ret : date) :
  ud_departure_date ud = Some dep ->
  ud_return_date ud = Some ret ->
  ret <= dep ->
  day_headings (add_detailed_day_by_day_itinerary U today ud)
  = [arrival_heading dep].
Proof.
  intros Hdep Hret Hle.
  pose proof (day_headings_itinerary U today ud) as H.
  unfold itinerary_span, trip_duration in H. rewrite Hdep, Hret in H.
  cbv zeta in H. rewrite H.
  rewrite (range_empty (lo := 2) (hi := ret - dep + 1)) by lia.
  replace (1 <? ret - dep + 1) with false by (symmetry; apply Z.ltb_ge; lia).
  reflexivity.
Qed.

Lemma itinerary_of_one_day_or_less_witness :
  738890 <= 738895
  /\ day_headings
       (add_detailed_day_by_day_itinerary basic_latin 738000 backwards_request)
     = [arrival_heading 738895].
Proof.
  split; [lia|].
  apply (@itinerary_of_one_day_or_less basic_latin 738000 backwards_request
           738895 738890 eq_refl eq_refl).
  lia.
Defined.

(* ------------------------------------------------------------------ *)
(** ** The catalog *)

Lemma spec_theme_list_incl (interests : list pystr) (t : pystr) :
  In t (spec_theme_list interests) -> In t all_themes.
Proof.
  unfold spec_theme_list, all_themes.
  destruct (List.map snd (List.filter _ theme_priority)) as [|c chosen] eqn:E.
  - intro H. apply in_or_app. right. exact H.
  - rewrite <- E. intro H. apply in_or_app. left.
    apply in_map_iff in H. destruct H as (p & <- & Hp).
    apply filter_In in Hp. apply in_map. tauto.
Qed.

Lemma day_theme_in_catalog (d : Z) (interests : list pystr) :
  In (get_day_theme d interests) all_themes.
Proof.
  apply (spec_theme_list_incl interests).
  unfold get_day_theme. rewrite day_themes_refines.
  apply nth_In.
  pose proof (spec_theme_list_nonempty interests) as Hlen.
  pose proof (Z.mod_pos_bound (d - 2)
                (Z.of_nat (List.length (spec_theme_list interests)))) as Hmod.
  lia.
Qed.

(** The resolution of a day's activities never fails and its cost is
    bounded: whatever the destination, the interests and the day, the
    cost per person of an exploration day is between 1550 and 3600, and
    for a destination other than Delhi it is 2450, 2000 or 2700, the last
    being the default template, which every theme but Historical
    Exploration and Nature and Relaxation falls back to. *)
Theorem exploration_day_cost_bounds (U : unicode_tables)
    (destination : pystr) (interests : list pystr) (d : Z) :
  let theme := get_day_theme d interests in
  let a := templates_get (get_activity_templates U destination) theme in
  1550 <= day_cost_per_person a <= 3600
  /\ (pystr_eqb (lower U destination) (str "delhi") = false ->
      (theme = str "Historical Exploration" /\ day_cost_per_person a = 2450)
      \/ (theme = str "Nature and Relaxation" /\ day_cost_per_person a = 2000)
      \/ (a = generic_default /\ day_cost_per_person a = 2700)).
Proof.
  cbv zeta. pose proof (day_theme_in_catalog d interests) as Hin.
  remember (get_day_theme d interests) as theme eqn:Et. clear Et.
  unfold get_activity_templates.
  unfold all_themes, theme_priority in Hin. cbn [List.map snd app] in Hin.
  destruct (pystr_eqb (lower U destination) (str "delhi"));
    cbn [In] in Hin;
    repeat (destruct Hin as [<-|Hin];
            [vm_compute; (split; [split; discriminate|]);
             first [ discriminate
                   | intros _; left; split; reflexivity
                   | intros _; right; left; split; reflexivity
                   | intros _; right; right; split; reflexivity ]|]);
    contradiction.
Qed.

Lemma exploration_day_cost_bounds_witness :
  let a := templates_get (get_activity_templates basic_latin (str "Goa"))
             (get_day_theme 2 [str "Nature"]) in
  (get_day_theme 2 [str "Nature"] = str "Historical Exploration"
   /\ day_cost_per_person a = 2450)
  \/ (get_day_theme 2 [str "Nature"] = str "Nature and Relaxation"
      /\ day_cost_per_person a = 2000)
  \/ (a = generic_default /\ day_cost_per_person a = 2700).
Proof.
  destruct (exploration_day_cost_bounds basic_latin (str "Goa")
              [str "Nature"] 2) as [_ H].
  exact (H eq_refl).
Defined.

(* ------------------------------------------------------------------ *)
(** ** Seasons *)

(** For Delhi the twelve months fall into four seasons: December to
    February is Winter, March to May the Hot Season, June to September the
    Monsoon Season, and October and November are Pleasant Weather; every
    other destination gets the General Season in every month. *)
Theorem season_by_month (U : unicode_tables) (destination : pystr)
    (month : Z) :
  1 <= month <= 12 ->
  season_name (get_season_info U month destination)
  = if pystr_eqb (lower U destination) (str "delhi")
    then if (month <=? 2) || (month =? 12) then str "Winter"
         else if month <=? 5 then str "Hot Season"
         else if month <=? 9 then str "Monsoon Season"
         else str "Pleasant Weather"
    else str "General Season".
Proof.
  intros Hm. unfold get_season_info.
  destruct (pystr_eqb (lower U destination) (str "delhi")); [|reflexivity].
  assert (Hcases : month = 1 \/ month = 2 \/ month = 3 \/ month = 4
                   \/ month = 5 \/ month = 6 \/ month = 7 \/ month = 8
                   \/ month = 9 \/ month = 10 \/ month = 11 \/ month = 12)
    by lia.
  repeat (destruct Hcases as [->|Hcases]; [reflexivity|]).
  subst. reflexivity.
Qed.

Lemma season_by_month_witness :
  1 <= 11 <= 12
  /\ season_name (get_season_info basic_latin 11 (str "DELHI"))
     = str "Pleasant Weather".
Proof.
  split; [lia|].
  exact (@season_by_month basic_latin (str "DELHI") 11 ltac:(lia)).
Defined.

(* ------------------------------------------------------------------ *)
(** ** The run, further *)

Section RunFurther.

Variable U : unicode_tables.
Variables wiki geocode : Type.

(** A submitted form that passes the four checks starts the pipeline with
    the gathering of the travel data; when the gathering raises, the run
    ends with that exception and has shown nothing. *)
Theorem valid_form_starts_pipeline (w : world wiki geocode) (f : form) :
  f_button f = true -> passes_validation f = true ->
  match gather_travel_data U (w_web w) (collect_user_inputs f) with
  | Ok td => exists rest, fst (run U w f) = gathered td :: rest
  | Raise e => run U w f = ([], Some e)
  end.
Proof. apply run_accepts. Qed.

(** When the hosted model raises, the run reports the failed generation
    with the error text and neither assembles nor sends a document. *)
Theorem api_exception_stops_delivery (w : world wiki geocode) (f : form)
    (create : user_data -> travel_data wiki geocode -> completion)
    (td : travel_data wiki geocode) (message : pystr) :
  f_button f = true -> passes_validation f = true ->
  gather_travel_data U (w_web w) (collect_user_inputs f) = Ok td ->
  w_groq w = Some create ->
  create (collect_user_inputs f) td = ApiException message ->
  run U w f
  = ([gathered td;
      generated _ _
        (str "An error occurred while generating the trip plan: " ++ message);
      error_generation_failed _ _
        (str "An error occurred while generating the trip plan: " ++ message);
      footer_shown _ _], None).
Proof. apply run_reports_api_exception. Qed.

Lemma send_email_true (w : world wiki geocode) (email plan : pystr)
    (ud : user_data) (events : list (event wiki geocode)) :
  send_email U w email plan ud = (events, true) ->
  w_mail_configured w = true /\ w_smtp_delivers w = true
  /\ exists document,
       create_structured_pdf U (w_today w) plan ud = Ok document
       /\ events = [assembled _ _ document; submitted _ _ email document].
Proof.
  unfold send_email.
  destruct (w_mail_configured w); cbn [negb]; [|discriminate].
  destruct (create_structured_pdf U (w_today w) plan ud) as [[|c doc]|e];
    try discriminate.
  destruct (w_smtp_delivers w); [|discriminate].
  intros [= <-]. repeat split. eexists. split; reflexivity.
Qed.

Lemma run_success_shown (w : world wiki geocode) (f : form)
    (recipient : pystr) :
  In (success_shown _ _ recipient) (fst (run U w f)) ->
  recipient = f_email f
  /\ w_mail_configured w = true /\ w_smtp_delivers w = true
  /\ exists plan document,
       create_structured_pdf U (w_today w) plan (collect_user_inputs f)
       = Ok document
       /\ In (submitted _ _ (f_email f) document) (fst (run U w f)).
Proof.
  unfold run.
  destruct (f_button f); cbn [negb];
    [|cbn; intros [H|[]]; discriminate].
  destruct (missing_fields f); [|cbn; intros [H|[]]; discriminate].
  destruct (f_return_date f <? f_departure_date f);
    [cbn; intros [H|[]]; discriminate|].
  destruct (f_transport_mode f); [cbn; intros [H|[]]; discriminate|].
  destruct (negb (re_match email_pattern (f_email f)));
    [cbn; intros [H|[]]; discriminate|].
  destruct (gather_travel_data U (w_web w) (collect_user_inputs f)) as [td|e];
    [|cbn; intros []].
  set (plan := generate_trip_plan_with_data (w_groq w) (collect_user_inputs f) td).
  match goal with
  | |- context [if ?b then _ else _] => destruct b
  end.
  - destruct (send_email U w (f_email f) plan (collect_user_inputs f))
      as [mail sent] eqn:Hsend.
    destruct sent.
    + destruct (send_email_true _ _ _ _ Hsend) as (Hc & Hs & doc & Hdoc & ->).
      cbn [fst app]. intros Hin.
      assert (recipient = f_email f).
      { cbn [In] in Hin.
        repeat (destruct Hin as [Hin|Hin]; [try discriminate; congruence|]).
        contradiction. }
      subst recipient. repeat split; try assumption.
      exists plan, doc. split; [exact Hdoc|].
      cbn [In]. tauto.
    + cbn [fst]. intros Hin.
      apply in_app_or in Hin. destruct Hin as [Hin|Hin].
      { cbn [In] in Hin.
        repeat (destruct Hin as [Hin|Hin]; [discriminate|]). contradiction. }
      apply in_app_or in Hin. destruct Hin as [Hin|Hin].
      { exfalso. unfold send_email in Hsend.
        destruct (w_mail_configured w); cbn [negb] in Hsend.
        - destruct (create_structured_pdf U (w_today w) plan
                      (collect_user_inputs f)) as [[|c doc]|e].
          + injection Hsend as <-. cbn [In] in Hin.
            repeat (destruct Hin as [Hin|Hin]; [discriminate|]). contradiction.
          + destruct (w_smtp_delivers w); [discriminate|].
            injection Hsend as <-. cbn [In] in Hin.
            repeat (destruct Hin as [Hin|Hin]; [discriminate|]). contradiction.
          + injection Hsend as <-. cbn [In] in Hin.
            repeat (destruct Hin as [Hin|Hin]; [discriminate|]). contradiction.
        - injection Hsend as <-. cbn [In] in Hin.
          repeat (destruct Hin as [Hin|Hin]; [discriminate|]). contradiction. }
      cbn [In app] in Hin.
      repeat (destruct Hin as [Hin|Hin]; [discriminate|]). contradiction.
  - cbn [fst In]. intros Hin.
    repeat (destruct Hin as [Hin|Hin]; [discriminate|]). contradiction.
Qed.

(** The run never announces a delivery that did not happen: when it shows
    the success message, the mail secrets were configured, the SMTP session
    succeeded, and what was submitted to the form's address is the
    document assembled from the form's own data. *)
Theorem success_only_after_submission (w : world wiki geocode) (f : form)
    (recipient : pystr) :
  In (success_shown _ _ recipient) (fst (run U w f)) ->
  recipient = f_email f
  /\ w_mail_configured w = true /\ w_smtp_delivers w = true
  /\ exists plan document,
       create_structured_pdf U (w_today w) plan (collect_user_inputs f)
       = Ok document
       /\ In (submitted _ _ (f_email f) document) (fst (run U w f)).
Proof. apply run_success_shown. Qed.

End RunFurther.

Lemma valid_form_starts_pipeline_witness :
  f_button delhi_form = true /\ passes_validation delhi_form = true
  /\ exists td rest,
       fst (run basic_latin working_world delhi_form) = gathered td :: rest.
Proof.
  assert (Hb : f_button delhi_form = true) by reflexivity.
  assert (Hv : passes_validation delhi_form = true) by (vm_compute; reflexivity).
  split; [exact Hb|]. split; [exact Hv|].
  pose proof (@valid_form_starts_pipeline basic_latin unit unit working_world
                delhi_form Hb Hv) as H.
  destruct (gather_travel_data basic_latin (w_web working_world)
              (collect_user_inputs delhi_form)) as [td|e] eqn:E.
  - exists td. exact H.
  - exfalso. vm_compute in E. discriminate E.
Defined.

(** A world whose model raises. *)
Lemma api_exception_stops_delivery_witness :
  exists td,
    run basic_latin
      {| w_web := silent_web;
         w_groq := Some (fun _ _ => ApiException (str "rate limit"));
         w_today := 738800; w_mail_configured := true;
         w_smtp_delivers := true |} delhi_form
    = ([gathered td;
        generated _ _
          (str "An error occurred while generating the trip plan: "
           ++ str "rate limit");
        error_generation_failed _ _
          (str "An error occurred while generating the trip plan: "
           ++ str "rate limit");
        footer_shown _ _], None).
Proof.
  eexists.
  apply (@api_exception_stops_delivery basic_latin unit unit _ delhi_form
           (fun _ _ => ApiException (str "rate limit"))).
  - reflexivity.
  - vm_compute. reflexivity.
  - vm_compute. reflexivity.
  - reflexivity.
  - reflexivity.
Defined.

Lemma success_only_after_submission_witness :
  In (success_shown _ _ (str "asha@example.com"))
     (fst (run basic_latin working_world delhi_form))
  /\ w_smtp_delivers working_world = true.
Proof.
  assert (H : In (success_shown _ _ (str "asha@example.com"))
                 (fst (run basic_latin working_world delhi_form))).
  { vm_compute. tauto. }
  split; [exact H|].
  exact (proj1 (proj2 (proj2
           (@success_only_after_submission basic_latin unit unit
              working_world delhi_form _ H)))).
Defined.

(* ------------------------------------------------------------------ *)
(** ** Gathering *)

Lemma fold_min_least (p : Z) (l : list Z) :
  Forall (Z.lt p) l -> fold_left Z.min l p = p.
Proof.
  induction 1 as [|x l Hx Hl IH]; [reflexivity|].
  cbn [fold_left]. rewrite Z.min_l by lia. exact IH.
Qed.

Lemma last_cons_default (x p : Z) (l : list Z) :
  last (x :: l) p = last l x.
Proof.
  revert x p. induction l as [|y l IH]; intros x p; [reflexivity|].
  change (last (x :: y :: l) p) with (last (y :: l) p).
  rewrite (IH y p), (IH y x). reflexivity.
Qed.

Lemma fold_max_last (p : Z) (l : list Z) :
  StronglySorted Z.lt (p :: l) -> fold_left Z.max l p = last l p.
Proof.
  revert p. induction l as [|x l IH]; intros p Hs; [reflexivity|].
  inversion Hs as [|? ? Hs' Hp]; subst.
  inversion Hp as [|? ? Hpx _]; subst.
  cbn [fold_left]. rewrite Z.max_r by lia. rewrite (IH x Hs').
  symmetry. apply last_cons_default.
Qed.

Section Gathering.

Variable U : unicode_tables.
Variables wiki geocode : Type.

(** The snapshot made from one general-answer result keeps the result,
    holds prices that are strictly ascending and within [300, 500000], and
    words the range as the least and the greatest of them, or as the
    neutral phrase when there is none. *)
Theorem market_price_range (a : ddg_answer) (m : market) :
  market_of U a = Ok m ->
  info m = a
  /\ StronglySorted Z.lt (prices_found m)
  /\ Forall price_in_range (prices_found m)
  /\ price_range m
     = match prices_found m with
       | [] => str "Current pricing available"
       | least :: rest =>
           str "Rs. " ++ format_comma least
           ++ str " - Rs. " ++ format_comma (last rest least)
       end.
Proof.
  unfold market_of.
  destruct (extract_prices_from_text U _) as [prices|e] eqn:E;
    [|discriminate].
  cbn [bind]. intros [= <-]. cbn [info prices_found price_range].
  destruct (extract_prices_sound U _ E) as (Hs & _ & Hr).
  repeat split; try assumption.
  destruct prices as [|p rest]; [reflexivity|].
  unfold list_min, list_max.
  inversion Hs as [|? ? Hs' Hp]; subst.
  rewrite (fold_min_least Hp), (fold_max_last Hs). reflexivity.
Qed.

(** Each field of the travel data comes from its own provider: the
    encyclopedic summary and the coordinates are what the two lookups
    answer for the destination, a market snapshot is absent exactly when
    the search for its query answers nothing, and the pricing list is
    empty. *)
Theorem gathered_fields_by_provider (w : web wiki geocode) (ud : user_data)
    (td : travel_data wiki geocode) :
  gather_travel_data U w ud = Ok td ->
  exists destination departure_city,
    ud_destination ud = Some destination
    /\ ud_departure_city ud = Some departure_city
    /\ destination_info td = wikipedia_search w destination
    /\ coordinates td = openstreetmap_search w destination
    /\ (accommodation_data td = None <->
        duckduckgo_search w
          (destination ++ str " hotels accommodation price") = None)
    /\ (transportation_data td = None <->
        duckduckgo_search w
          (departure_city ++ str " to " ++ destination
           ++ str " flight train bus price") = None)
    /\ pricing_info td = [].
Proof.
  unfold gather_travel_data, index, market_query.
  destruct (ud_destination ud) as [destination|]; [|discriminate].
  cbn [bind].
  destruct (duckduckgo_search w (destination ++ _)) as [a1|] eqn:E1.
  - destruct (market_of U a1) as [m1|]; [|discriminate]. cbn [bind].
    destruct (ud_departure_city ud) as [city|]; [|discriminate]. cbn [bind].
    destruct (duckduckgo_search w (city ++ _)) as [a2|] eqn:E2.
    + destruct (market_of U a2) as [m2|]; [|discriminate]. cbn [bind].
      intros [= <-]. exists destination, city.
      cbn [destination_info coordinates accommodation_data
           transportation_data pricing_info].
      rewrite E1, E2. repeat split; congruence.
    + cbn [bind]. intros [= <-]. exists destination, city.
      cbn [destination_info coordinates accommodation_data
           transportation_data pricing_info].
      rewrite E1, E2. repeat split; congruence.
  - cbn [bind].
    destruct (ud_departure_city ud) as [city|]; [|discriminate]. cbn [bind].
    destruct (duckduckgo_search w (city ++ _)) as [a2|] eqn:E2.
    + destruct (market_of U a2) as [m2|]; [|discriminate]. cbn [bind].
      intros [= <-]. exists destination, city.
      cbn [destination_info coordinates accommodation_data
           transportation_data pricing_info].
      rewrite E1, E2. repeat split; congruence.
    + cbn [bind]. intros [= <-]. exists destination, city.
      cbn [destination_info coordinates accommodation_data
           transportation_data pricing_info].
      rewrite E1, E2. repeat split; congruence.
Qed.

(** When every provider answers nothing, the gathering still returns: the
    travel data with every field absent. *)
Theorem gathering_survives_silence (w : web wiki geocode) (ud : user_data)
    (destination departure_city : pystr) :
  ud_destination ud = Some destination ->
  ud_departure_city ud = Some departure_city ->
  (forall q, wikipedia_search w q = None) ->
  (forall q, openstreetmap_search w q = None) ->
  (forall q, duckduckgo_search w q = None) ->
  gather_travel_data U w ud
  = Ok {| destination_info := None; coordinates := None;
          accommodation_data := None; transportation_data := None;
          pricing_info := [] |}.
Proof.
  intros Hd Hc Hw Ho Hg. unfold gather_travel_data, index, market_query.
  rewrite Hd, Hc. cbn [bind]. rewrite !Hg. cbn [bind].
  rewrite Hw, Ho. reflexivity.
Qed.

(** A request without a destination raises [KeyError] before any
    provider is asked. *)
Theorem gathering_needs_destination (w : web wiki geocode) (ud : user_data) :
  ud_destination ud = None ->
  gather_travel_data U w ud = Raise KeyError.
Proof.
  intros Hd. unfold gather_travel_data, index. rewrite Hd. reflexivity.
Qed.

End Gathering.

Lemma market_price_range_witness :
  exists m,
    market_of basic_latin hotel_answer = Ok m
    /\ prices_found m = [450; 1200; 4000; 9500]
    /\ price_range m = str "Rs. 450 - Rs. 9,500".
Proof.
  destruct (market_of basic_latin hotel_answer) as [m|e] eqn:E.
  - exists m. split; [reflexivity|].
    destruct (market_price_range basic_latin hotel_answer E)
      as (_ & _ & _ & Hrange).
    assert (Hp : prices_found m = [450; 1200; 4000; 9500]).
    { vm_compute in E. injection E as <-. reflexivity. }
    split; [exact Hp|]. rewrite Hrange, Hp. reflexivity.
  - exfalso. vm_compute in E. discriminate E.
Defined.

Lemma gathered_fields_by_provider_witness :
  exists td,
    gather_travel_data basic_latin answering_web trip_to_delhi = Ok td
    /\ destination_info td = None
    /\ pricing_info td = [].
Proof.
  destruct (gather_travel_data basic_latin answering_web trip_to_delhi)
    as [td|e] eqn:E.
  - exists td. split; [reflexivity|].
    destruct (gathered_fields_by_provider basic_latin answering_web
                trip_to_delhi E)
      as (d & c & Hd & _ & Hw & _ & _ & _ & Hp).
    split; [rewrite Hw; reflexivity|exact Hp].
  - exfalso. vm_compute in E. discriminate E.
Defined.

Lemma gathering_survives_silence_witness :
  gather_travel_data basic_latin silent_web trip_to_delhi
  = Ok {| destination_info := None; coordinates := None;
          accommodation_data := None; transportation_data := None;
          pricing_info := [] |}.
Proof.
  apply (@gathering_survives_silence basic_latin unit unit silent_web
           trip_to_delhi (str "Delhi") (str "Mumbai"));
    reflexivity.
Defined.

Lemma gathering_needs_destination_witness :
  gather_travel_data basic_latin answering_web empty_request = Raise KeyError.
Proof.
  apply (@gathering_needs_destination basic_latin unit unit answering_web
           empty_request).
  reflexivity.
Defined.

(* ------------------------------------------------------------------ *)
(** ** The shape of the sections *)

Lemma Ok_inj {A} (a b : A) : Ok a = Ok b -> a = b.
Proof. intros H. congruence. Qed.

Section Shapes.

Variable U : unicode_tables.
Variable P : pdf_call -> Prop.
Hypothesis HP : holds_outside_headers P.

Lemma shape_bullet (text : pystr) : Forall P (add_bullet_point U text).
Proof.
  destruct HP as [Hplain Hmulti]. unfold add_bullet_point.
  destruct (is_blank U text); [constructor|].
  constructor; [exact (Hplain (set_font Regular 11))|].
  constructor; [exact (Hplain (cell (Mm 10) 6 (str "-") 0 0 AlignL false))|].
  constructor; [apply Hmulti|].
  constructor; [exact (Hplain (ln (Some 1)))|constructor].
Qed.

Lemma shape_bullets (texts : list pystr) : Forall P (bullets U texts).
Proof.
  unfold bullets. induction texts as [|t texts IH]; [constructor|].
  cbn [List.map List.concat]. apply Forall_app. split; [apply shape_bullet|exact IH].
Qed.

Lemma shape_block_heading (title : pystr) : Forall P (block_heading title).
Proof.
  destruct HP as [Hplain _]. unfold block_heading.
  constructor; [exact (Hplain (set_font Bold 12))|].
  constructor; [exact (Hplain (cell (Mm 0) 8 title 0 1 AlignL false))|].
  constructor; [exact (Hplain (ln (Some 2)))|constructor].
Qed.

Lemma shape_ln (h : option Z) : Forall P [ln h].
Proof.
  destruct HP as [Hplain _].
  constructor; [exact (Hplain (ln h))|constructor].
Qed.

Lemma shape_concat_map {A} (f : A -> list pdf_call) (l : list A) :
  (forall a, Forall P (f a)) -> Forall P (List.concat (List.map f l)).
Proof.
  intros Hf. induction l as [|a l IH]; [constructor|].
  cbn [List.map List.concat]. apply Forall_app. split; [apply Hf|exact IH].
Qed.

Lemma shape_paragraph (text : pystr) : Forall P (add_paragraph text).
Proof.
  destruct HP as [Hplain Hmulti]. unfold add_paragraph.
  constructor; [exact (Hplain (set_font Regular 11))|].
  constructor; [exact (Hplain (set_text_color 0 0 0))|].
  constructor; [apply Hmulti|].
  constructor; [exact (Hplain (ln (Some 3)))|constructor].
Qed.

Ltac shape :=
  repeat first
    [ apply Forall_nil
    | apply shape_bullets
    | apply shape_bullet
    | apply shape_block_heading
    | apply shape_ln
    | apply shape_paragraph
    | apply Forall_app; split
    | match goal with
      | |- Forall P (match ?x with [] => _ | _ :: _ => _ end) => destruct x
      | |- Forall P (if ?b then _ else _) => destruct b
      | |- Forall P (?c :: _) =>
          constructor; [exact (proj1 HP c)|]
      end ].

Lemma shape_accommodation (ud : user_data) :
  exists title body,
    add_comprehensive_accommodation_section U ud
    = add_section_header title ++ body
    /\ clean_text_for_pdf (Some title) = nth 3 document_sections []
    /\ Forall P body.
Proof.
  unfold add_comprehensive_accommodation_section. cbv zeta.
  do 2 eexists. split; [reflexivity|].
  split; [vm_compute; reflexivity|]. shape.
Qed.

Lemma shape_main_travel_options (departure_city destination : pystr)
    (modes : list pystr) :
  Forall P (main_travel_options U departure_city destination modes).
Proof.
  unfold main_travel_options. apply shape_concat_map. intro mode.
  destruct (dict_get _ mode); [apply shape_bullet|constructor].
Qed.

Lemma shape_transportation (ud : user_data) :
  exists title body,
    add_transportation_section U ud = add_section_header title ++ body
    /\ clean_text_for_pdf (Some title) = nth 4 document_sections []
    /\ Forall P body.
Proof.
  unfold add_transportation_section. cbv zeta.
  do 2 eexists. split; [reflexivity|].
  split; [vm_compute; reflexivity|].
  repeat first [ apply shape_main_travel_options | progress shape ].
Qed.

Lemma shape_food (ud : user_data) :
  exists title body,
    add_detailed_food_section U ud = add_section_header title ++ body
    /\ clean_text_for_pdf (Some title) = nth 5 document_sections []
    /\ Forall P body.
Proof.
  unfold add_detailed_food_section. cbv zeta.
  do 2 eexists. split; [reflexivity|].
  split; [vm_compute; reflexivity|]. shape.
Qed.

Lemma shape_packing (ud : user_data) :
  exists title body,
    add_comprehensive_packing_tips U ud = add_section_header title ++ body
    /\ clean_text_for_pdf (Some title) = nth 6 document_sections []
    /\ Forall P body.
Proof.
  unfold add_comprehensive_packing_tips.
  destruct (packing_span ud) as [duration travel_month]. cbv zeta.
  do 2 eexists. split; [reflexivity|].
  split; [vm_compute; reflexivity|]. shape.
Qed.

Lemma shape_local_tips (ud : user_data) :
  exists title body,
    add_comprehensive_local_tips U ud = add_section_header title ++ body
    /\ clean_text_for_pdf (Some title) = nth 7 document_sections []
    /\ Forall P body.
Proof.
  unfold add_comprehensive_local_tips. cbv zeta.
  do 2 eexists. split; [reflexivity|].
  split; [vm_compute; reflexivity|]. shape.
Qed.

Lemma shape_emergency (ud : user_data) :
  exists title body,
    add_emergency_contacts_section U ud = add_section_header title ++ body
    /\ clean_text_for_pdf (Some title) = nth 8 document_sections []
    /\ Forall P body.
Proof.
  unfold add_emergency_contacts_section. cbv zeta.
  do 2 eexists. split; [reflexivity|].
  split; [vm_compute; reflexivity|]. shape.
Qed.

Lemma shape_main_day (ts : templates) (destination : pystr)
    (interests : list pystr) (n d : Z) :
  Forall P (main_day U ts destination interests n d).
Proof. unfold main_day. cbv zeta. shape. Qed.

Lemma shape_itinerary (today : date) (ud : user_data) :
  exists title body,
    add_detailed_day_by_day_itinerary U today ud
    = add_section_header title ++ body
    /\ clean_text_for_pdf (Some title) = nth 1 document_sections []
    /\ Forall P body.
Proof.
  unfold add_detailed_day_by_day_itinerary.
  destruct (itinerary_span today ud) as [duration start_date]. cbv zeta.
  do 2 eexists. split; [reflexivity|].
  split; [vm_compute; reflexivity|].
  unfold arrival_day, departure_day. cbv zeta.
  repeat first [ apply shape_concat_map; intro; apply shape_main_day
               | progress shape ].
Qed.

Lemma shape_cells {A} (f : A -> pdf_call) (l : list A) :
  (forall a, match f a with
             | multi_cell _ _ _ | set_line_width_half => False
             | _ => True
             end) ->
  Forall P (List.map f l).
Proof.
  intros Hf. induction l as [|a l IH]; [constructor|].
  cbn [List.map]. constructor; [|exact IH].
  pose proof (proj1 HP (f a)) as H. specialize (Hf a).
  destruct (f a); try exact H; contradiction.
Qed.

Lemma shape_table_row (h : Z) (row : list pystr) : Forall P (table_row h row).
Proof.
  unfold table_row. apply Forall_app. split; [|apply shape_ln].
  apply shape_cells. intro a. exact I.
Qed.

Lemma shape_budget (ud : user_data) (calls : list pdf_call) :
  add_enhanced_budget_breakdown ud = Ok calls ->
  exists title body,
    calls = add_section_header title ++ body
    /\ clean_text_for_pdf (Some title) = nth 2 document_sections []
    /\ Forall P body.
Proof.
  unfold add_enhanced_budget_breakdown. cbv zeta.
  destruct (budget_allocations _ _ _ _ _) as [b|e]; [|discriminate].
  cbn [bind]. intros H. apply Ok_inj in H. subst calls.
  do 2 eexists. split; [reflexivity|].
  split; [vm_compute; reflexivity|].
  repeat first
    [ apply shape_table_row
    | apply shape_cells; intro; exact I
    | apply shape_concat_map; intro;
      constructor;
      [destruct (_ =? _)%nat;
       [exact (proj1 HP (set_fill_color 245 245 245))
       |exact (proj1 HP (set_fill_color 255 255 255))]
      |apply shape_table_row]
    | progress shape ].
Qed.

End Shapes.

(* ------------------------------------------------------------------ *)
(** ** The shape of the document *)

(** What [output] returns is what it was given. *)
Lemma output_returns (calls doc : list pdf_call) :
  output calls = Ok doc -> doc = calls.
Proof.
  unfold output. destruct (forallb _ calls); [|discriminate].
  intros H. apply Ok_inj in H. symmetry. exact H.
Qed.

Section DocumentShape.

Variable U : unicode_tables.
Variable P : pdf_call -> Prop.
Hypothesis HP : holds_outside_headers P.

(** A document is what precedes the first header and then nine sections,
    each a header and calls outside every header. *)
Lemma shape_document (today : date) (plan : pystr) (ud : user_data)
    (doc : list pdf_call) :
  create_structured_pdf U today plan ud = Ok doc ->
  exists pre secs,
    doc = pre ++ sections_calls secs
    /\ Forall P pre
    /\ Forall (fun s => Forall P (snd s)) secs
    /\ List.map (fun s => clean_text_for_pdf (Some (fst s))) secs
       = document_sections.
Proof.
  unfold create_structured_pdf. cbv zeta.
  destruct (add_enhanced_budget_breakdown ud) as [budget|e] eqn:Eb;
    [|discriminate].
  cbn [bind]. intros H. apply output_returns in H. subst doc.
  destruct (shape_itinerary U HP today ud) as (t2 & b2 & -> & C2 & F2).
  destruct (shape_budget HP ud Eb) as (t3 & b3 & -> & C3 & F3).
  destruct (shape_accommodation U HP ud) as (t4 & b4 & -> & C4 & F4).
  destruct (shape_transportation U HP ud) as (t5 & b5 & -> & C5 & F5).
  destruct (shape_food U HP ud) as (t6 & b6 & -> & C6 & F6).
  destruct (shape_packing U HP ud) as (t7 & b7 & -> & C7 & F7).
  destruct (shape_local_tips U HP ud) as (t8 & b8 & -> & C8 & F8).
  destruct (shape_emergency U HP ud) as (t9 & b9 & -> & C9 & F9).
  set (title := add_title_section _ _ _).
  set (overview := add_paragraph _).
  set (closing := [ln (Some 10); _; _; _]).
  exists ([add_page] ++ title).
  exists [([128203%N] ++ str " Trip Overview", overview);
          (t2, b2); (t3, b3); (t4, b4); (t5, b5); (t6, b6); (t7, b7);
          (t8, b8); (t9, b9 ++ closing)].
  split.
  { unfold sections_calls, section_calls.
    cbn [List.map List.concat fst snd].
    rewrite app_nil_r. rewrite <- !app_assoc. reflexivity. }
  split.
  { subst title. unfold add_title_section. cbn [app].
    repeat match goal with
           | |- Forall P (?c :: _) => constructor; [exact (proj1 HP c)|]
           end.
    constructor. }
  split.
  { constructor; [cbn [snd]; subst overview; apply shape_paragraph; exact HP|].
    do 7 (constructor; [cbn [snd]; assumption|]).
    constructor; [cbn [snd]|constructor].
    - apply Forall_app. split; [assumption|]. subst closing.
      constructor; [exact (proj1 HP (ln (Some 10)))|].
      constructor; [exact (proj1 HP (set_font Italic 11))|].
      constructor; [exact (proj1 HP (set_text_color 100 100 100))|].
      constructor; [apply (proj2 HP)|constructor]. }
  cbn [List.map fst]. rewrite C2, C3, C4, C5, C6, C7, C8, C9.
  unfold document_sections. cbn [nth]. f_equal.
Qed.

End DocumentShape.

Lemma section_titles_skip (a b : list pdf_call) :
  rule_free a -> starts_clean b ->
  section_titles (a ++ b) = section_titles b.
Proof.
  intros Ha Hb. induction Ha as [|c a Hc Ha IH]; [reflexivity|].
  cbn [app section_titles].
  destruct c; try exact IH.
  destruct (a ++ b) as [|c' rest] eqn:E; [exact IH|].
  destruct c'; try exact IH.
  exfalso. destruct a as [|c'' a'].
  - cbn [app] in E. subst b. exact Hb.
  - cbn [app] in E. injection E as -> _.
    inversion Ha as [|? ? Hrule _]. apply Hrule. reflexivity.
Qed.

Lemma section_titles_header (title : pystr) (b : list pdf_call) :
  section_titles (add_section_header title ++ b)
  = clean_text_for_pdf (Some title) :: section_titles b.
Proof. reflexivity. Qed.

Lemma section_titles_sections (pre : list pdf_call)
    (secs : list (pystr * list pdf_call)) :
  rule_free pre ->
  Forall (fun s => rule_free (snd s)) secs ->
  section_titles (pre ++ sections_calls secs)
  = List.map (fun s => clean_text_for_pdf (Some (fst s))) secs.
Proof.
  intros Hpre Hsecs. revert pre Hpre.
  induction Hsecs as [|[t b] secs Hb Hsecs IH]; intros pre Hpre.
  - unfold sections_calls. cbn [List.map List.concat].
    rewrite (@section_titles_skip pre [] Hpre I). reflexivity.
  - unfold sections_calls. cbn [List.map List.concat].
    unfold section_calls at 1. cbn [fst snd].
    rewrite <- app_assoc.
    rewrite (@section_titles_skip pre
               (add_section_header t
                ++ b ++ List.concat (List.map section_calls secs)) Hpre I).
    rewrite section_titles_header.
    cbn [List.map fst]. f_equal. apply (IH b). exact Hb.
Qed.

Lemma rule_free_holds :
  holds_outside_headers (fun c => c <> set_line_width_half).
Proof.
  split.
  - intro c. destruct c; try exact I; discriminate.
  - intros. discriminate.
Qed.

Lemma ascii_holds :
  holds_outside_headers
    (fun c => match c with
              | multi_cell _ _ txt => Forall (fun x => (x < 128)%N) txt
              | _ => True
              end).
Proof.
  split.
  - intro c. destruct c; exact I.
  - intros. apply clean_ascii.
Qed.

(** Whatever the request, a document that is assembled has the same nine
    sections in the same order: overview, itinerary, budget, lodging,
    transport, dining, packing, local tips and emergency contacts.  No
    section is left out for want of data, and none is added. *)
Theorem document_has_nine_sections (U : unicode_tables) (today : date)
    (plan : pystr) (ud : user_data) (doc : list pdf_call) :
  create_structured_pdf U today plan ud = Ok doc ->
  section_titles doc = document_sections.
Proof.
  intros Hdoc.
  destruct (shape_document U rule_free_holds today plan ud Hdoc)
    as (pre & secs & -> & Hpre & Hsecs & Htitles).
  rewrite <- Htitles. apply section_titles_sections; assumption.
Qed.

(** Every text that the document passes to [multi_cell] - every bullet,
    the overview paragraph and the closing note - is ASCII, whatever the
    request holds. *)
Theorem document_bullets_are_ascii (U : unicode_tables) (today : date)
    (plan : pystr) (ud : user_data) (doc : list pdf_call) :
  create_structured_pdf U today plan ud = Ok doc ->
  multi_cells_ascii doc.
Proof.
  intros Hdoc.
  destruct (shape_document U ascii_holds today plan ud Hdoc)
    as (pre & secs & -> & Hpre & Hsecs & _).
  unfold multi_cells_ascii. apply Forall_app. split; [exact Hpre|].
  unfold sections_calls. clear Hdoc.
  induction Hsecs as [|[t b] secs Hb Hsecs IH]; [constructor|].
  cbn [List.map List.concat]. apply Forall_app. split; [|exact IH].
  unfold section_calls. cbn [fst snd]. apply Forall_app.
  split; [|exact Hb].
  unfold add_section_header. repeat (constructor; [exact I|]). constructor.
Qed.

Lemma document_has_nine_sections_witness :
  exists doc,
    create_structured_pdf basic_latin 738800 (str "plan") empty_request
    = Ok doc
    /\ section_titles doc = document_sections.
Proof.
  destruct (create_structured_pdf basic_latin 738800 (str "plan")
              empty_request) as [doc|e] eqn:E.
  - exists doc. split; [reflexivity|].
    exact (document_has_nine_sections basic_latin 738800 (str "plan")
             empty_request E).
  - exfalso. vm_compute in E. discriminate E.
Defined.

Lemma document_bullets_are_ascii_witness :
  exists doc,
    create_structured_pdf basic_latin 738800 (str "plan") trip_to_delhi
    = Ok doc
    /\ multi_cells_ascii doc.
Proof.
  destruct (create_structured_pdf basic_latin 738800 (str "plan")
              trip_to_delhi) as [doc|e] eqn:E.
  - exists doc. split; [reflexivity|].
    exact (document_bullets_are_ascii basic_latin 738800 (str "plan")
             trip_to_delhi E).
  - exfalso. vm_compute in E. discriminate E.
Defined.

(* ------------------------------------------------------------------ *)
(** ** The missing fields *)





Section Validation.

Variable U : unicode_tables.
Variables wiki geocode : Type.


End Validation.


(* ------------------------------------------------------------------ *)
(** ** Texts beyond Latin-1 *)

Lemma output_raises (c : pdf_call) (calls : list pdf_call) :
  In c calls -> latin1 (call_text c) = false ->
  output calls = Raise UnicodeEncodeError.
Proof.
  intros Hin Hc. unfold output.
  destruct (forallb _ calls) eqn:E; [|reflexivity].
  rewrite forallb_forall in E. rewrite (E c Hin) in Hc. discriminate Hc.
Qed.

Section Encoding.

Variable U : unicode_tables.
Variables wiki geocode : Type.

(** The heading of the dishes holds the destination as it is. *)
Lemma food_heading_in_document (today : date) (plan : pystr)
    (ud : user_data) (d : pystr) :
  ud_destination ud = Some d -> latin1 d = false ->
  create_structured_pdf U today plan ud
  = match add_enhanced_budget_breakdown ud with
    | Ok _ => Raise UnicodeEncodeError
    | Raise e => Raise e
    end.
Proof.
  intros Hd Hlatin. unfold create_structured_pdf. cbv zeta.
  destruct (add_enhanced_budget_breakdown ud) as [budget|e];
    [|reflexivity].
  cbn [bind].
  apply (@output_raises
           (cell (Mm 0) 8 (str "Must-Try " ++ d ++ str " Specialties")
              0 1 AlignL false)).
  - do 8 (apply in_or_app; right). apply in_or_app. left.
    unfold add_detailed_food_section. cbv zeta. rewrite Hd. cbn [get].
    apply in_or_app. right. apply in_or_app. left.
    unfold block_heading. right. left. reflexivity.
  - cbn [call_text]. unfold latin1 in *. rewrite !forallb_app, Hlatin.
    rewrite andb_false_l, andb_false_r. reflexivity.
Qed.

(** A destination with a character beyond Latin-1 gets no document: when
    the budget table is made, the encoding of the pages raises, because
    the heading of the dishes holds the destination as it was typed.  The
    run then announces no delivery, whatever the mail service does. *)
Theorem destination_beyond_latin1_is_not_delivered
    (w : world wiki geocode) (f : form) :
  latin1 (f_destination f) = false ->
  (forall today plan,
     create_structured_pdf U today plan (collect_user_inputs f)
     = match add_enhanced_budget_breakdown (collect_user_inputs f) with
       | Ok _ => Raise UnicodeEncodeError
       | Raise e => Raise e
       end)
  /\ (forall recipient,
        ~ In (success_shown _ _ recipient) (fst (run U w f))).
Proof.
  intros Hlatin.
  assert (Hraises : forall today plan,
            create_structured_pdf U today plan (collect_user_inputs f)
            = match add_enhanced_budget_breakdown (collect_user_inputs f) with
              | Ok _ => Raise UnicodeEncodeError
              | Raise e => Raise e
              end).
  { intros today plan.
    apply (@food_heading_in_document today plan (collect_user_inputs f)
             (f_destination f)); [reflexivity|exact Hlatin]. }
  split; [exact Hraises|].
  intros recipient Hin.
  destruct (run_success_shown U w f recipient Hin)
    as (_ & _ & _ & plan & doc & Hdoc & _).
  rewrite Hraises in Hdoc.
  destruct (add_enhanced_budget_breakdown (collect_user_inputs f));
    discriminate Hdoc.
Qed.

End Encoding.

Lemma destination_beyond_latin1_is_not_delivered_witness :
  create_structured_pdf basic_latin 738800 (str "plan")
    (collect_user_inputs tokyo_form)
  = Raise UnicodeEncodeError
  /\ ~ In (success_shown _ _ (f_email tokyo_form))
         (fst (run basic_latin working_world tokyo_form)).
Proof.
  destruct (@destination_beyond_latin1_is_not_delivered basic_latin
              unit unit working_world tokyo_form eq_refl) as [Hdoc Hrun].
  split; [|exact (Hrun (f_email tokyo_form))].
  rewrite (Hdoc 738800 (str "plan")). vm_compute. reflexivity.
Defined.
